(** * ethereumjs-ovm: the message executor, the interpreter pre-scan and the
    OVM state-manager bridge, as a shallow embedding.

    Sources embedded here:
    - [packages/vm/lib/evm/evm.ts], the executor (module [EVM]);
    - [class Interpreter], the interpreter (module [Interpreter]);
    - [class OvmStateManager], the state bridge (module [OvmStateManager]);
    - the older variant of the executor kept in the tree (modules [Legacy]
      and [LegacyEVM]);
    - [precompiles/12-bls12-map-fp2-to-g2.ts] (module [Bls12MapFp2ToG2]).

    Conventions.  A [Buffer] is a list of bytes held in [Z]; a [BN] is a [Z];
    JavaScript [undefined] in an optional field is [None].  Code that may
    raise is modelled with an explicit outcome type that keeps the state
    reached when the exception left the function. *)

From Stdlib Require Import ZArith List Ascii String Lia Bool Sorted.
From stdpp Require Import base option list gmap strings.

Local Open Scope string_scope.
Local Open Scope list_scope.
Local Open Scope Z_scope.

(* ================================================================== *)
(** ** Bytes, buffers, error kinds                                      *)
(* ================================================================== *)

Abbreviation Buffer := (list Z).

(** What an out-of-range index of a buffer (or an index into something that
    is not a buffer) reads as: JavaScript [undefined].  It is no byte. *)
Definition undefined : Z := -1.

Definition isByte (b : Z) : Prop := 0 <= b < 256.

(** [buf[i]] *)
Definition readByte (buf : Buffer) (i : Z) : Z :=
  if (0 <=? i) && (i <? Z.of_nat (length buf))
  then nth (Z.to_nat i) buf undefined
  else undefined.

(** [Buffer.alloc(n)]: [n] zero bytes. *)
Definition zeros (n : nat) : Buffer := repeat 0 n.

(** [buf.slice(n)] and [buf.slice(0, n)] *)
Definition sliceFrom (n : nat) (buf : Buffer) : Buffer := drop n buf.
Definition sliceTo (n : nat) (buf : Buffer) : Buffer := take n buf.

(** Modelled from the spec: [lib/exceptions.ts] is not among the sources;
    these are the typed error kinds of section 7 of the specification. *)
Inductive ERROR :=
| STOP | REVERT | OUT_OF_GAS | INVALID_OPCODE | STACK_UNDERFLOW
| STACK_OVERFLOW | INVALID_JUMP | STATIC_STATE_CHANGE | CREATE_COLLISION
| VALUE_OVERFLOW | INTERNAL_ERROR | BLS_12_381_INVALID_INPUT_LENGTH
| BLS_12_381_POINT_NOT_ON_CURVE | OVM_ERROR.

#[global] Instance ERROR_eq_dec : EqDecision ERROR.
Proof. solve_decision. Defined.

(** Anything a [catch (e)] can receive: a [VmError] carrying its [error]
    kind, or some other JavaScript exception (whose [.error] is
    [undefined]). *)
Inductive Exception :=
| VmError (error : ERROR)
| JsError.

#[global] Instance Exception_eq_dec : EqDecision Exception.
Proof. solve_decision. Defined.

(** [e.error !== ERROR.x] *)
Definition errorIs (e : Exception) (x : ERROR) : bool :=
  match e with
  | VmError k => bool_decide (k = x)
  | JsError => false
  end.

(** [ethereumjs-util]: [MAX_INTEGER] is 2^256 - 1 and [KECCAK256_NULL] is the
    hash of the empty string. *)
Definition MAX_INTEGER : Z := 2 ^ 256 - 1.

Definition KECCAK256_NULL : Buffer :=
  [ 0xc5; 0xd2; 0x46; 0x01; 0x86; 0xf7; 0x23; 0x3c;
    0x92; 0x7e; 0x7d; 0xb2; 0xdc; 0xc7; 0x03; 0xc0;
    0xe5; 0x00; 0xb6; 0x53; 0xca; 0x82; 0x27; 0x3b;
    0x7b; 0xfa; 0xd8; 0x04; 0x5d; 0x85; 0xa4; 0x70 ].

Definition KECCAK256_RLP : Buffer :=
  [ 0x56; 0xe8; 0x1f; 0x17; 0x1b; 0xcc; 0x55; 0xa6;
    0xff; 0x83; 0x45; 0xe6; 0x92; 0xc0; 0xf8; 0x6e;
    0x5b; 0x48; 0xe0; 0x1b; 0x99; 0x6c; 0xad; 0xc0;
    0x01; 0x62; 0x2f; 0xb5; 0xe3; 0x63; 0xb4; 0x21 ].

(* ================================================================== *)
(** ** The state view                                                   *)
(* ================================================================== *)

(** [@ethereumjs/account]: the four fields of an account.  [nonce] and
    [balance] are byte strings read through [new BN(..)] everywhere in the
    executor; they are kept as the integers they denote. *)
Module Account.
Record t := mk {
  nonce : Z;
  balance : Z;
  stateRoot : Buffer;
  codeHash : Buffer;
}.

(** [new Account()] *)
Definition empty : t :=
  {| nonce := 0; balance := 0;
     stateRoot := KECCAK256_RLP; codeHash := KECCAK256_NULL |}.

Definition set_nonce (n : Z) (a : t) : t :=
  {| nonce := n; balance := balance a;
     stateRoot := stateRoot a; codeHash := codeHash a |}.
Definition set_balance (b : Z) (a : t) : t :=
  {| nonce := nonce a; balance := b;
     stateRoot := stateRoot a; codeHash := codeHash a |}.
End Account.

(** Modelled from the spec: the state/trie store is an external
    collaborator (spec section 6, "State view"), absent from the sources.
    It is a current world plus a stack of checkpoints;
    [getContractStorage] of a missing slot is 32 zero bytes,
    [checkpoint; revert] leaves the observable state as it was and
    [checkpoint; commit] is the same as not checkpointing. *)
Module StateManager.
Record World := mkWorld {
  accounts : gmap (list Z) Account.t;
  contractCode : gmap (list Z) (list Z);
  contractStorage : gmap (list Z) (gmap (list Z) (list Z));
}.

(** Modelled from the spec: the observable state and the checkpoint stack
    the state view maintains (section 3, "Checkpoint stack"). *)
Record t := mk {
  world : World;
  checkpoints : list World;
}.

Definition emptyWorld : World :=
  {| accounts := ∅; contractCode := ∅; contractStorage := ∅ |}.

Definition with_world (w : World) (s : t) : t :=
  {| world := w; checkpoints := checkpoints s |}.

(** Modelled from the spec: [getAccount(addr) -> Account]; an address
    without an account reads as a new account. *)
Definition getAccount (addr : Buffer) (s : t) : Account.t :=
  default Account.empty (accounts (world s) !! addr).

(** Modelled from the spec: [putAccount(addr, acc)]. *)
Definition putAccount (addr : Buffer) (acc : Account.t) (s : t) : t :=
  with_world
    {| accounts := <[addr := acc]> (accounts (world s));
       contractCode := contractCode (world s);
       contractStorage := contractStorage (world s) |} s.

(** Modelled from the spec: [getContractCode(addr) -> bytes]; no code reads
    as the empty buffer. *)
Definition getContractCode (addr : Buffer) (s : t) : Buffer :=
  default [] (contractCode (world s) !! addr).

(** Modelled from the spec: [putContractCode(addr, bytes)]. *)
Definition putContractCode (addr : Buffer) (code : Buffer) (s : t) : t :=
  with_world
    {| accounts := accounts (world s);
       contractCode := <[addr := code]> (contractCode (world s));
       contractStorage := contractStorage (world s) |} s.

(** Modelled from the spec: [getContractStorage(addr, 32-byte key) ->
    32-byte value] (missing = 32 zero bytes). *)
Definition getContractStorage (addr key : Buffer) (s : t) : Buffer :=
  default (zeros 32)
    (default ∅ (contractStorage (world s) !! addr) !! key).

(** Modelled from the spec: [putContractStorage(addr, key, value)], with
    [putContractStorage(a, k, v); getContractStorage(a, k) == v]. *)
Definition putContractStorage (addr key value : Buffer) (s : t) : t :=
  with_world
    {| accounts := accounts (world s);
       contractCode := contractCode (world s);
       contractStorage :=
         <[addr := <[key := value]>
                     (default ∅ (contractStorage (world s) !! addr))]>
           (contractStorage (world s)) |} s.

(** Modelled from the spec: [clearContractStorage(addr)]. *)
Definition clearContractStorage (addr : Buffer) (s : t) : t :=
  with_world
    {| accounts := accounts (world s);
       contractCode := contractCode (world s);
       contractStorage := delete addr (contractStorage (world s)) |} s.

(** Modelled from the spec: [checkpoint()] saves the observable state. *)
Definition checkpoint (s : t) : t :=
  {| world := world s; checkpoints := world s :: checkpoints s |}.

(** Modelled from the spec: [commit()] drops the last checkpoint
    ([checkpoint; commit] is the same as not checkpointing). *)
Definition commit (s : t) : t :=
  {| world := world s; checkpoints := tail (checkpoints s) |}.

(** Modelled from the spec: [revert()] goes back to the last checkpoint
    ([checkpoint; revert] leaves the observable state as it was). *)
Definition revert (s : t) : t :=
  match checkpoints s with
  | [] => s
  | w :: rest => {| world := w; checkpoints := rest |}
  end.
End StateManager.

(* ================================================================== *)
(** ** Results, messages, interpreter state                             *)
(* ================================================================== *)

(** A log entry: [log[0]] is the emitting address. *)
Definition Log : Type := Buffer * list Buffer * Buffer.

(** [ExecResult].  The [runState] field (a debugging merge of the run
    state, the result and the environment) is not kept. *)
Module ExecResult.
Record t := mk {
  exceptionError : option Exception;
  gas : option Z;
  gasUsed : Z;
  returnValue : Buffer;
  logs : option (list Log);
  selfdestruct : option (gmap string (list Z));
  gasRefund : option Z;
}.

Definition set_exceptionError (e : option Exception) (r : t) : t :=
  mk e (gas r) (gasUsed r) (returnValue r) (logs r) (selfdestruct r)
     (gasRefund r).
Definition set_gasUsed (g : Z) (r : t) : t :=
  mk (exceptionError r) (gas r) g (returnValue r) (logs r)
     (selfdestruct r) (gasRefund r).
Definition set_returnValue (v : Buffer) (r : t) : t :=
  mk (exceptionError r) (gas r) (gasUsed r) v (logs r) (selfdestruct r)
     (gasRefund r).
Definition set_logs (l : option (list Log)) (r : t) : t :=
  mk (exceptionError r) (gas r) (gasUsed r) (returnValue r) l
     (selfdestruct r) (gasRefund r).
Definition set_gasRefund (g : option Z) (r : t) : t :=
  mk (exceptionError r) (gas r) (gasUsed r) (returnValue r) (logs r)
     (selfdestruct r) g.
End ExecResult.

(** [EVMResult] *)
Module EVMResult.
Record t := mk {
  gasUsed : Z;
  createdAddress : option Buffer;
  execResult : ExecResult.t;
}.

Definition set_execResult (e : ExecResult.t) (r : t) : t :=
  mk (gasUsed r) (createdAddress r) e.
Definition set_createdAddress (a : option Buffer) (r : t) : t :=
  mk (gasUsed r) a (execResult r).
End EVMResult.

(** [OOGResult(gasLimit)] *)
Definition OOGResult (gasLimit : Z) : ExecResult.t :=
  {| ExecResult.exceptionError := Some (VmError OUT_OF_GAS);
     ExecResult.gas := None;
     ExecResult.gasUsed := gasLimit;
     ExecResult.returnValue := [];
     ExecResult.logs := None;
     ExecResult.selfdestruct := None;
     ExecResult.gasRefund := None |}.

(** A precompile: [(opts: {data, gasLimit, _common}) => ExecResult]. *)
Definition PrecompileFunc : Type := Buffer -> Z -> ExecResult.t.

(** [message.code] is [Buffer | PrecompileFunc]. *)
Inductive Code :=
| CodeBytes (b : Buffer)
| CodePrecompile (f : PrecompileFunc).

(** [message.code.length]: the length of a buffer, the arity of a
    precompile function (they all take the single [opts] argument). *)
Definition codeLength (c : Code) : Z :=
  match c with
  | CodeBytes b => Z.of_nat (length b)
  | CodePrecompile _ => 1
  end.

(** [message.code as Buffer]: indexing a function object reads
    [undefined]. *)
Definition codeAsBuffer (c : Code) : Buffer :=
  match c with
  | CodeBytes b => b
  | CodePrecompile _ => [undefined]
  end.

(** Modelled from the spec: [lib/evm/message.ts] is not among the sources.
    The fields are the attributes of a Message in section 3 of the
    specification, [isCompiled] as [_loadCode] sets it, and the code
    address as an optional field behind the [codeAddress] getter (the
    address whose code is run; it is [to] unless the message names
    another). *)
Module Message.
Record t := mk {
  to : option Buffer;
  value : Z;
  caller : Buffer;
  gasLimit : Z;
  data : Buffer;
  depth : Z;
  code : option Code;
  _codeAddress : option Buffer;
  isStatic : bool;
  isCompiled : bool;
  salt : option Buffer;
  selfdestruct : option (gmap string (list Z));
  delegatecall : bool;
  originalTargetAddress : option Buffer;
}.

(** the [codeAddress] getter: the explicit code address, else [to] *)
Definition codeAddress (m : t) : option Buffer :=
  match _codeAddress m with
  | Some a => Some a
  | None => to m
  end.

(** [isCompiled] is only set on a message whose code is a precompile (or
    is still to be loaded): [runPrecompile] raises on any other. *)
Definition wellTyped (m : t) : Prop :=
  match code m with
  | Some (CodeBytes _) => isCompiled m = false
  | _ => True
  end.

Definition set_to (a : option Buffer) (m : t) : t :=
  mk a (value m) (caller m) (gasLimit m) (data m) (depth m) (code m)
     (_codeAddress m) (isStatic m) (isCompiled m) (salt m)
     (selfdestruct m) (delegatecall m) (originalTargetAddress m).
Definition set_data (d : Buffer) (m : t) : t :=
  mk (to m) (value m) (caller m) (gasLimit m) d (depth m) (code m)
     (_codeAddress m) (isStatic m) (isCompiled m) (salt m)
     (selfdestruct m) (delegatecall m) (originalTargetAddress m).
Definition set_code (c : option Code) (compiled : bool) (m : t) : t :=
  mk (to m) (value m) (caller m) (gasLimit m) (data m) (depth m) c
     (_codeAddress m) (isStatic m) compiled (salt m)
     (selfdestruct m) (delegatecall m) (originalTargetAddress m).
End Message.

(** Modelled from the spec: [lib/evm/eei.ts] is not among the sources.
    The EEI state of section 3 of the specification: [gasLeft], the
    accumulated [result], and the environment of the call (the block,
    the gas price and the origin, which no claim reads, are left out). *)
Module EEI.
Record Env := mkEnv {
  address : Buffer;
  caller : Buffer;
  callData : Buffer;
  callValue : Z;
  code : Buffer;
  isStatic : bool;
  depth : Z;
  contract : Account.t;
  codeAddress : option Buffer;
  originalTargetAddress : option Buffer;
}.

Record Result := mkResult {
  logs : list Log;
  returnValue : option Buffer;
  selfdestruct : gmap string (list Z);
}.

Record t := mk {
  _env : Env;
  _gasLeft : Z;
  _result : Result;
}.

Definition set_gasLeft (g : Z) (e : t) : t := mk (_env e) g (_result e).
Definition set_result (r : Result) (e : t) : t := mk (_env e) (_gasLeft e) r.

(** Modelled from the spec: [useGas(n)] charges [n] against [gasLeft]
    and raises [OUT_OF_GAS] when it is insufficient (spec 4.2 step 4);
    the model leaves no gas in that case. *)
Definition useGas (amount : Z) (e : t) : Exception * t + t :=
  if _gasLeft e - amount <? 0
  then inl (VmError OUT_OF_GAS, set_gasLeft 0 e)
  else inr (set_gasLeft (_gasLeft e - amount) e).
End EEI.

(** [RunState] of the interpreter (the [_common] and [stateManager]
    back-pointers are the threaded state). *)
Module RunState.
Record t := mk {
  programCounter : Z;
  opCode : Z;
  memory : list Z;
  memoryWordCount : Z;
  highestMemCost : Z;
  stack : list Z;
  code : Buffer;
  validJumps : list Z;
  eei : EEI.t;
}.

Definition set_eei (e : EEI.t) (r : t) : t :=
  mk (programCounter r) (opCode r) (memory r) (memoryWordCount r)
     (highestMemCost r) (stack r) (code r) (validJumps r) e.
Definition set_programCounter (pc : Z) (r : t) : t :=
  mk pc (opCode r) (memory r) (memoryWordCount r)
     (highestMemCost r) (stack r) (code r) (validJumps r) (eei r).
Definition set_opCode (op : Z) (r : t) : t :=
  mk (programCounter r) op (memory r) (memoryWordCount r)
     (highestMemCost r) (stack r) (code r) (validJumps r) (eei r).
End RunState.

(* ================================================================== *)
(** ** The executor's fields, outcomes, and the host                    *)
(* ================================================================== *)

(** The mutable fields of [class EVM]: the state view behind [_state], the
    refund accumulator and the three OVM fields. *)
Module EVMState.
Record t := mk {
  _state : StateManager.t;
  _refund : Z;
  _targetMessage : option Message.t;
  _targetMessageResult : option EVMResult.t;
  _accountMessageResult : option EVMResult.t;
}.

(** [new EVM(vm, txContext, block)] over a given state view *)
Definition fresh (st : StateManager.t) : t :=
  mk st 0 None None None.

Definition set_state (st : StateManager.t) (s : t) : t :=
  mk st (_refund s) (_targetMessage s) (_targetMessageResult s)
     (_accountMessageResult s).
Definition set_refund (r : Z) (s : t) : t :=
  mk (_state s) r (_targetMessage s) (_targetMessageResult s)
     (_accountMessageResult s).
Definition set_targetMessage (m : option Message.t) (s : t) : t :=
  mk (_state s) (_refund s) m (_targetMessageResult s)
     (_accountMessageResult s).
Definition set_targetMessageResult (r : option EVMResult.t) (s : t) : t :=
  mk (_state s) (_refund s) (_targetMessage s) r
     (_accountMessageResult s).
Definition set_accountMessageResult (r : option EVMResult.t) (s : t) : t :=
  mk (_state s) (_refund s) (_targetMessage s) (_targetMessageResult s) r.

(** run a state-view operation on [_state] *)
Definition on_state (f : StateManager.t -> StateManager.t) (s : t) : t :=
  set_state (f (_state s)) s.
End EVMState.

(** How an [async] method of the executor ends: it returns a value, or an
    exception leaves it, or (in the model only) the fuel bounding the
    nesting of messages and the length of interpreter runs is used up.
    The state reached is kept in the first two cases. *)
Inductive Outcome (A : Type) :=
| Returned (a : A) (s : EVMState.t)
| Thrown (s : EVMState.t)
| Diverged.
Arguments Returned {A} a s.
Arguments Thrown {A} s.
Arguments Diverged {A}.

Definition bindO {A B} (o : Outcome A) (f : A -> EVMState.t -> Outcome B)
  : Outcome B :=
  match o with
  | Returned a s => f a s
  | Thrown s => Thrown s
  | Diverged => Diverged
  end.

Notation "'let*' x ',' s ':=' o 'in' k" :=
  (bindO o (fun x s => k))
  (at level 10, x pattern, s name, o at level 100, k at level 200).

(** How an opcode handler ends: normally, or by raising (a [VmError] through
    [trap], or anything else), each time with the run state and executor
    state it leaves behind. *)
Inductive HandlerOutcome :=
| HDone (rs : RunState.t) (s : EVMState.t)
| HRaise (e : Exception) (rs : RunState.t) (s : EVMState.t)
| HDiverged.

(** An opcode handler ([lib/evm/opFns.ts], not among the sources).  The
    CALL and CREATE families reach the executor through the EEI; the
    executor they reach is the first argument. *)
Definition OpHandler : Type :=
  (Message.t -> EVMState.t -> Outcome EVMResult.t) ->
  RunState.t -> EVMState.t -> HandlerOutcome.

(** An entry of the opcode table ([lib/evm/opcodes.ts]). *)
Module Opcode.
Record t := mk {
  name : string;
  fullName : string;
  fee : Z;
  isAsync : bool;
}.
End Opcode.

(** The part of an [ethers] [Interface] the bridge uses.  Each function may
    throw, which is [None]. *)
Module Interface.
Record t := mk {
  getFunction : string -> option string;
  decodeFunctionData : string -> string -> option (list string);
  encodeFunctionResult : string -> option (list string) -> option string;
}.
End Interface.

(** A contract definition of the registry; only its name and address are
    read. *)
Module ContractDef.
Record t := mk {
  name : string;
  address : Buffer;
}.
End ContractDef.

(** Everything the executor, the interpreter and the bridge reach through
    [this._vm] or import from files that are not among the sources: the
    opcode table and handlers, the contract registry, the fork
    configuration, the precompile registry, the two [Message] methods, the
    helpers of [ovm/utils/buffer-utils] and [ovm/utils/constants], and
    the functions of [ethereumjs-util] and [bn.js] that are called. *)
Module VM.
Record t := mk {
  _opcodes : Z -> option Opcode.t;
  opHandlers : string -> option OpHandler;
  mockOVM_ECDSAContractAccount_code : string;
  OVM_ExecutionManager_address : Buffer;
  OVM_StateManager_address : Buffer;
  getContract : Buffer -> option ContractDef.t;
  getContractByName : string -> option ContractDef.t;
  StateManager_iface : Interface.t;
  gteHardfork : string -> bool;
  param : string -> string -> Z;
  allowUnlimitedContractSize : bool;
  getPrecompile : Buffer -> option PrecompileFunc;
  toOvmMessage : Message.t -> Message.t;
  isTargetMessage : Message.t -> bool;
  toHexString : Buffer -> string;
  fromHexString : string -> Buffer;
  toHexAddress : Buffer -> string;
  NULL_BYTES32 : string;
  bufferToString : Buffer -> string;
  toArrayLike : Z -> Buffer;
  generateAddress : Buffer -> Buffer -> Buffer;
  generateAddress2 : Buffer -> Buffer -> Buffer -> Buffer;
}.
End VM.

(* ================================================================== *)
(** ** The interpreter                                                  *)
(* ================================================================== *)

Module Interpreter.

(** The table's entry for [0xfe]. *)
Definition INVALID : Opcode.t :=
  {| Opcode.name := "INVALID"; Opcode.fullName := "INVALID";
     Opcode.fee := 0; Opcode.isAsync := false |}.

(** [lookupOpInfo(op)]: the table is keyed by byte values, so something
    that is no byte finds no entry; a missing entry reads as the entry of
    [0xfe]. *)
Definition lookupOpInfo (vm : VM.t) (op : Z) : Opcode.t :=
  match (if (0 <=? op) && (op <? 256) then VM._opcodes vm op else None) with
  | Some o => o
  | None => default INVALID (VM._opcodes vm 0xfe)
  end.

(** The [for] loop of [_getValidJumpDests], one iteration per unit of
    fuel: [i] is the loop variable, [jumps] the array built so far. *)
Fixpoint scanJumpDests (vm : VM.t) (fuel : nat) (code : Buffer) (i : Z)
    (jumps : list Z) : option (list Z) :=
  match fuel with
  | O => None
  | S fuel' =>
      if i <? Z.of_nat (length code) then
        let curOpCode := Opcode.name (lookupOpInfo vm (readByte code i)) in
        let i1 := if String.eqb curOpCode "PUSH"
                  then i + (readByte code i - 0x5f) else i in
        let jumps1 := if String.eqb curOpCode "JUMPDEST"
                      then jumps ++ [i1] else jumps in
        scanJumpDests vm fuel' code (i1 + 1) jumps1
      else Some jumps
  end.

Definition _getValidJumpDests (vm : VM.t) (fuel : nat) (code : Buffer)
  : option (list Z) :=
  scanJumpDests vm fuel code 0 [].

Record InterpreterResult := mkResult {
  runState : RunState.t;
  exceptionError : option Exception;
}.

(** the run state set up by the constructor *)
Definition initialRunState (eei : EEI.t) : RunState.t :=
  {| RunState.programCounter := 0;
     RunState.opCode := 0xfe;
     RunState.memory := [];
     RunState.memoryWordCount := 0;
     RunState.highestMemCost := 0;
     RunState.stack := [];
     RunState.code := [];
     RunState.validJumps := [];
     RunState.eei := eei |}.

(** [runStep()].  A name without a handler makes [opFn.apply] raise a
    [TypeError]. *)
Definition runStep (vm : VM.t)
    (exec : Message.t -> EVMState.t -> Outcome EVMResult.t)
    (rs : RunState.t) (s : EVMState.t) : HandlerOutcome :=
  let opInfo := lookupOpInfo vm (RunState.opCode rs) in
  if String.eqb (Opcode.name opInfo) "INVALID"
  then HRaise (VmError INVALID_OPCODE) rs s
  else
    match EEI.useGas (Opcode.fee opInfo) (RunState.eei rs) with
    | inl (e, eei') => HRaise e (RunState.set_eei eei' rs) s
    | inr eei' =>
        let rs1 := RunState.set_programCounter
                     (RunState.programCounter rs + 1)
                     (RunState.set_eei eei' rs) in
        match VM.opHandlers vm (Opcode.name opInfo) with
        | Some opFn => opFn exec rs1 s
        | None => HRaise JsError rs1 s
        end
    end.

(** The [while] loop of [run].  [_runStepHook] only emits the advisory
    [step] event.  The [catch] receives whatever the step raised: [STOP]
    ends the loop without an error, everything else becomes the
    [exceptionError]. *)
Fixpoint runLoop (vm : VM.t)
    (exec : Message.t -> EVMState.t -> Outcome EVMResult.t)
    (fuel : nat) (rs : RunState.t) (s : EVMState.t)
  : Outcome InterpreterResult :=
  match fuel with
  | O => Diverged
  | S fuel' =>
      if RunState.programCounter rs <? Z.of_nat (length (RunState.code rs))
      then
        let opCode := readByte (RunState.code rs)
                               (RunState.programCounter rs) in
        match runStep vm exec (RunState.set_opCode opCode rs) s with
        | HDone rs' s' => runLoop vm exec fuel' rs' s'
        | HRaise e rs' s' =>
            Returned {| runState := rs';
                        exceptionError :=
                          if errorIs e STOP then None else Some e |} s'
        | HDiverged => Diverged
        end
      else Returned {| runState := rs; exceptionError := None |} s
  end.

(** [run(code, opts)] on the interpreter's run state [rs0]. *)
Definition run (vm : VM.t)
    (exec : Message.t -> EVMState.t -> Outcome EVMResult.t)
    (fuel : nat) (code : Buffer) (pc : option Z)
    (rs0 : RunState.t) (s : EVMState.t) : Outcome InterpreterResult :=
  match _getValidJumpDests vm fuel code with
  | None => Diverged
  | Some jumps =>
      let pc0 := match pc with
                 | Some p => if p =? 0 then RunState.programCounter rs0
                             else p
                 | None => RunState.programCounter rs0
                 end in
      let rs :=
        {| RunState.programCounter := pc0;
           RunState.opCode := RunState.opCode rs0;
           RunState.memory := RunState.memory rs0;
           RunState.memoryWordCount := RunState.memoryWordCount rs0;
           RunState.highestMemCost := RunState.highestMemCost rs0;
           RunState.stack := RunState.stack rs0;
           RunState.code := code;
           RunState.validJumps := jumps;
           RunState.eei := RunState.eei rs0 |} in
      if negb (pc0 =? 0)
         && ((pc0 <? 0) || (Z.of_nat (length code) <=? pc0))
      then Thrown s
      else runLoop vm exec fuel rs s
  end.

(** *** What the pre-scan is measured against: instruction boundaries *)

Definition isPush (vm : VM.t) (code : Buffer) (i : Z) : Prop :=
  Opcode.name (lookupOpInfo vm (readByte code i)) = "PUSH".

Definition isJumpDest (vm : VM.t) (code : Buffer) (i : Z) : Prop :=
  Opcode.name (lookupOpInfo vm (readByte code i)) = "JUMPDEST".

(** the N of the PUSH-N at offset [i] *)
Definition pushWidth (code : Buffer) (i : Z) : Z := readByte code i - 0x5f.

(** Offsets at which an instruction begins when the code is decoded from
    offset 0. *)
Inductive instrStart (vm : VM.t) (code : Buffer) : Z -> Prop :=
| start_zero : instrStart vm code 0
| start_after_plain i :
    instrStart vm code i -> i < Z.of_nat (length code) ->
    ~ isPush vm code i -> instrStart vm code (i + 1)
| start_after_push i :
    instrStart vm code i -> i < Z.of_nat (length code) ->
    isPush vm code i -> instrStart vm code (i + pushWidth code i + 1).

(** [j] is one of the immediate bytes of a PUSH-N instruction. *)
Definition inPushData (vm : VM.t) (code : Buffer) (j : Z) : Prop :=
  exists i, instrStart vm code i /\ i < Z.of_nat (length code) /\
            isPush vm code i /\ i < j <= i + pushWidth code i.

(** where the instruction after the one at [i] begins *)
Definition nextStart (vm : VM.t) (code : Buffer) (i : Z) : Z :=
  if String.eqb (Opcode.name (lookupOpInfo vm (readByte code i))) "PUSH"
  then i + pushWidth code i + 1
  else i + 1.

(** an offset the pre-scan has to record: a JUMPDEST that begins an
    instruction *)
Definition jumpTarget (vm : VM.t) (code : Buffer) (j : Z) : Prop :=
  0 <= j < Z.of_nat (length code) /\ isJumpDest vm code j /\
  instrStart vm code j.

(** The property of the opcode table the pre-scan relies on: the entries
    named PUSH are those of the bytes 0x60 to 0x7f. *)
Definition pushTable (vm : VM.t) : Prop :=
  forall b, Opcode.name (lookupOpInfo vm b) = "PUSH" -> 0x60 <= b <= 0x7f.

End Interpreter.

(* ================================================================== *)
(** ** The OVM state-manager bridge                                     *)
(* ================================================================== *)

Module OvmStateManager.
Section Bridge.
Variable vm : VM.t.

(** What a handler resolves to: nothing, or the tuple of its results. *)
Definition Ret : Type := option (list string).

Definition associateCodeContract
    (ovmContractAddress codeContractAddress : string) (st : StateManager.t)
  : Ret * StateManager.t :=
  (None, st).

Definition setStorage (ovmContractAddress slot value : string)
    (st : StateManager.t) : Ret * StateManager.t :=
  (None,
   StateManager.putContractStorage
     (VM.fromHexString vm ovmContractAddress)
     (VM.fromHexString vm slot)
     (VM.fromHexString vm value) st).

Definition getStorageView (ovmContractAddress slot : string)
    (st : StateManager.t) : Ret * StateManager.t :=
  let ret := StateManager.getContractStorage
               (VM.fromHexString vm ovmContractAddress)
               (VM.fromHexString vm slot) st in
  (Some [ if (length ret =? 0)%nat then VM.NULL_BYTES32 vm
          else VM.toHexString vm ret ], st).

Definition getStorage (ovmContractAddress slot : string)
    (st : StateManager.t) : Ret * StateManager.t :=
  getStorageView ovmContractAddress slot st.

(** [account.nonce] is the empty buffer exactly when the nonce is zero *)
Definition getOvmContractNonce (ovmContractAddress : string)
    (st : StateManager.t) : Ret * StateManager.t :=
  let account := StateManager.getAccount
                   (VM.fromHexString vm ovmContractAddress) st in
  (Some [ if Account.nonce account =? 0 then "0x00"
          else VM.toHexString vm (VM.toArrayLike vm (Account.nonce account)) ],
   st).

Definition getCodeContractBytecode (ovmContractAddress : string)
    (st : StateManager.t) : Ret * StateManager.t :=
  let code := StateManager.getContractCode
                (VM.fromHexString vm ovmContractAddress) st in
  (Some [ VM.toHexString vm code ], st).

Definition registerCreatedContract (ovmContractAddress : string)
    (st : StateManager.t) : Ret * StateManager.t :=
  (None, st).

Definition incrementOvmContractNonce (ovmContractAddress : string)
    (st : StateManager.t) : Ret * StateManager.t :=
  let addr := VM.fromHexString vm ovmContractAddress in
  let account := StateManager.getAccount addr st in
  (None,
   StateManager.putAccount addr
     (Account.set_nonce (Account.nonce account + 1) account) st).

Definition getCodeContractAddressFromOvmAddress (ovmContractAddress : string)
    (st : StateManager.t) : Ret * StateManager.t :=
  (Some [ ovmContractAddress ], st).

(** [this._handlers[name](...functionArgs)].  [ethers] decodes the
    parameters of the fragment; a name that is not in the table, or a
    handler that reads a parameter it was not given, raises ([None]). *)
Definition _handlers (name : string) (args : list string)
    (st : StateManager.t) : option (Ret * StateManager.t) :=
  if String.eqb name "associateCodeContract" then
    Some (associateCodeContract (nth 0 args "") (nth 1 args "") st)
  else if String.eqb name "setStorage" then
    match args with
    | a :: k :: v :: _ => Some (setStorage a k v st)
    | _ => None
    end
  else if String.eqb name "getStorage" then
    match args with
    | a :: k :: _ => Some (getStorage a k st)
    | _ => None
    end
  else if String.eqb name "getStorageView" then
    match args with
    | a :: k :: _ => Some (getStorageView a k st)
    | _ => None
    end
  else if String.eqb name "getOvmContractNonce" then
    match args with
    | a :: _ => Some (getOvmContractNonce a st)
    | _ => None
    end
  else if String.eqb name "getCodeContractBytecode" then
    match args with
    | a :: _ => Some (getCodeContractBytecode a st)
    | _ => None
    end
  else if String.eqb name "registerCreatedContract" then
    Some (registerCreatedContract (nth 0 args "") st)
  else if String.eqb name "incrementOvmContractNonce" then
    match args with
    | a :: _ => Some (incrementOvmContractNonce a st)
    | _ => None
    end
  else if String.eqb name "getCodeContractAddressFromOvmAddress" then
    match args with
    | a :: _ => Some (getCodeContractAddressFromOvmAddress a st)
    | _ => None
    end
  else None.

(** [handleCall(message)]: the bytes handed back, or [None] when one of
    the steps raised; the state view reached either way.  The method id
    ['0x' + data.slice(0, 4).toString('hex')] is [toHexString] of the
    first four bytes. *)
Definition handleCall (message : Message.t) (st : StateManager.t)
  : option Buffer * StateManager.t :=
  let iface := VM.StateManager_iface vm in
  let methodId := VM.toHexString vm (sliceTo 4 (Message.data message)) in
  match Interface.getFunction iface methodId with
  | None => (None, st)
  | Some fragment =>
      match Interface.decodeFunctionData iface fragment
              (VM.toHexString vm (Message.data message)) with
      | None => (None, st)
      | Some functionArgs =>
          match _handlers fragment functionArgs st with
          | None => (None, st)
          | Some (ret, st') =>
              match Interface.encodeFunctionResult iface fragment ret with
              | None => (None, st')
              | Some encodedRet =>
                  (Some (VM.fromHexString vm encodedRet), st')
              end
          end
      end
  end.
End Bridge.
End OvmStateManager.

(* ================================================================== *)
(** ** The executor ([evm.ts])                                          *)
(* ================================================================== *)

Module EVM.
Section Executor.
Variable vm : VM.t.
(** bound on the iterations of one interpreter run *)
Variable fuel : nat.
(** [this.executeMessage] as the opcode handlers reach it *)
Variable exec : Message.t -> EVMState.t -> Outcome EVMResult.t.

(** [!message.code || message.code.length === 0] *)
Definition noCode (m : Message.t) : bool :=
  match Message.code m with
  | None => true
  | Some c => codeLength c =? 0
  end.

(** [_reduceSenderBalance].  [toBuffer] of a [BN] writes its magnitude. *)
Definition _reduceSenderBalance (account : Account.t) (message : Message.t)
    (s : EVMState.t) : EVMState.t :=
  let newBalance := Account.balance account - Message.value message in
  EVMState.on_state
    (StateManager.putAccount (Message.caller message)
       (Account.set_balance (Z.abs newBalance) account)) s.

(** [_addToBalance]: the exception thrown, or the state after
    [putAccount].  [toBuffer(undefined)] is the empty buffer. *)
Definition _addToBalance (toAccount : Account.t) (message : Message.t)
    (s : EVMState.t) : Exception + EVMState.t :=
  let newBalance := Account.balance toAccount + Message.value message in
  if MAX_INTEGER <? newBalance then inl (VmError VALUE_OVERFLOW)
  else inr (EVMState.on_state
              (StateManager.putAccount (default [] (Message.to message))
                 (Account.set_balance newBalance toAccount)) s).

(** [_loadCode]: the message with its code resolved; [None] when the
    code address is [undefined] (its [toString] raises). *)
Definition _loadCode (message : Message.t) (s : EVMState.t)
  : option Message.t :=
  match Message.code message with
  | Some _ => Some message
  | None =>
      match Message.codeAddress message with
      | None => None
      | Some a =>
          match VM.getPrecompile vm a with
          | Some precompile =>
              Some (Message.set_code (Some (CodePrecompile precompile))
                      true message)
          | None =>
              Some (Message.set_code
                      (Some (CodeBytes
                               (StateManager.getContractCode a
                                  (EVMState._state s))))
                      false message)
          end
      end
  end.

(** [runPrecompile] *)
Definition runPrecompile (code : option Code) (data : Buffer) (gasLimit : Z)
    (s : EVMState.t) : Outcome ExecResult.t :=
  match code with
  | Some (CodePrecompile f) => Returned (f data gasLimit) s
  | _ => Thrown s
  end.

(** The EEI that [runInterpreter] builds for a message: its environment,
    all the gas of the message, and an empty result (with the message's
    [selfdestruct] map when it has one). *)
Definition newEEI (message : Message.t) (c : Code) (s : EVMState.t) : EEI.t :=
  let address := default (zeros 32) (Message.to message) in
  {| EEI._env :=
       {| EEI.address := address;
          EEI.caller := Message.caller message;
          EEI.callData := Message.data message;
          EEI.callValue := Message.value message;
          EEI.code := codeAsBuffer c;
          EEI.isStatic := Message.isStatic message;
          EEI.depth := Message.depth message;
          EEI.contract :=
            StateManager.getAccount address (EVMState._state s);
          EEI.codeAddress := Message.codeAddress message;
          EEI.originalTargetAddress :=
            Message.originalTargetAddress message |};
     EEI._gasLeft := Message.gasLimit message;
     EEI._result :=
       {| EEI.logs := [];
          EEI.returnValue := None;
          EEI.selfdestruct := default ∅ (Message.selfdestruct message) |} |}.

(** [interpreter.run(message.code as Buffer, opts)] on a new interpreter,
    with the default [opts = {}]. *)
Definition interpret (message : Message.t) (c : Code) (s : EVMState.t)
  : Outcome Interpreter.InterpreterResult :=
  Interpreter.run vm exec fuel (codeAsBuffer c) None
    (Interpreter.initialRunState (newEEI message c s)) s.

(** [runInterpreter(message)] *)
Definition runInterpreter (message : Message.t) (s : EVMState.t)
  : Outcome ExecResult.t :=
  match Message.code message with
  | None => Thrown s
  | Some c =>
      let oldRefund := EVMState._refund s in
      let* interpreterRes, s1 := interpret message c s in
      let eei := RunState.eei (Interpreter.runState interpreterRes) in
      let result := EEI._result eei in
      let gasUsed := Message.gasLimit message - EEI._gasLeft eei in
      let '(gasUsed, result, s2) :=
        match Interpreter.exceptionError interpreterRes with
        | Some e =>
            (if negb (errorIs e REVERT) then Message.gasLimit message
             else gasUsed,
             {| EEI.logs := [];
                EEI.returnValue := EEI.returnValue result;
                EEI.selfdestruct := ∅ |},
             EVMState.set_refund oldRefund s1)
        | None => (gasUsed, result, s1)
        end in
      Returned
        {| ExecResult.exceptionError :=
             Interpreter.exceptionError interpreterRes;
           ExecResult.gas := Some (EEI._gasLeft eei);
           ExecResult.gasUsed := gasUsed;
           ExecResult.returnValue := default [] (EEI.returnValue result);
           ExecResult.logs := Some (EEI.logs result);
           ExecResult.selfdestruct := Some (EEI.selfdestruct result);
           ExecResult.gasRefund := None |} s2
  end.

(** the result of the early exit of [_executeCall] and [_executeCreate] *)
Definition earlyResult (createdAddress : option Buffer)
    (errorMessage : option Exception) : EVMResult.t :=
  {| EVMResult.gasUsed := 0;
     EVMResult.createdAddress := createdAddress;
     EVMResult.execResult :=
       {| ExecResult.exceptionError := errorMessage;
          ExecResult.gas := None;
          ExecResult.gasUsed := 0;
          ExecResult.returnValue := [];
          ExecResult.logs := None;
          ExecResult.selfdestruct := None;
          ExecResult.gasRefund := None |} |}.

(** The [try { await this._addToBalance(..) } catch (e) { errorMessage = e }]
    of both paths: the error caught, if any, and the state after. *)
Definition tryAddToBalance (toAccount : Account.t) (message : Message.t)
    (s : EVMState.t) : option Exception * EVMState.t :=
  match _addToBalance toAccount message s with
  | inl e => (Some e, s)
  | inr s' => (None, s')
  end.

(** The value transfer at the head of [_executeCall]: unless the message
    is a delegatecall, the caller is debited and the callee, loaded after
    that, is credited inside a [try]; the error caught (if any) and the
    state after. *)
Definition transferValue (message : Message.t) (to : Buffer) (s : EVMState.t)
  : option Exception * EVMState.t :=
  let account :=
    StateManager.getAccount (Message.caller message) (EVMState._state s) in
  let s1 := if Message.delegatecall message then s
            else _reduceSenderBalance account message s in
  let toAccount := StateManager.getAccount to (EVMState._state s1) in
  if Message.delegatecall message then (None, s1)
  else tryAddToBalance toAccount message s1.

(** [_executeCall].  The message comes back with the code that was
    loaded into it. *)
Definition _executeCall (message : Message.t) (s : EVMState.t)
  : Outcome (EVMResult.t * Message.t) :=
  match Message.to message with
  | None => Thrown s
  | Some to =>
      let '(errorMessage, s2) := transferValue message to s in
      match _loadCode message s2 with
      | None => Thrown s2
      | Some message1 =>
          if noCode message1 || bool_decide (is_Some errorMessage)
          then Returned (earlyResult None errorMessage, message1) s2
          else
            let* result, s3 :=
              (if Message.isCompiled message1
               then runPrecompile (Message.code message1)
                      (Message.data message1) (Message.gasLimit message1) s2
               else runInterpreter message1 s2) in
            Returned
              ({| EVMResult.gasUsed := ExecResult.gasUsed result;
                  EVMResult.createdAddress := None;
                  EVMResult.execResult := result |}, message1) s3
      end
  end.

(** the slot [0x00..0f] of the Execution Manager *)
Definition createdAddressSlot : Buffer := zeros 31 ++ [0x0f].

(** [_generateAddress] *)
Definition _generateAddress (message : Message.t) (s : EVMState.t)
  : Buffer :=
  VM.fromHexString vm
    (VM.toHexAddress vm
       (StateManager.getContractStorage
          (VM.OVM_ExecutionManager_address vm) createdAddressSlot
          (EVMState._state s))).

(** the result returned on a collision *)
Definition collisionResult (message : Message.t) : EVMResult.t :=
  {| EVMResult.gasUsed := Message.gasLimit message;
     EVMResult.createdAddress := Message.to message;
     EVMResult.execResult :=
       {| ExecResult.exceptionError := Some (VmError CREATE_COLLISION);
          ExecResult.gas := None;
          ExecResult.gasUsed := Message.gasLimit message;
          ExecResult.returnValue := [];
          ExecResult.logs := None;
          ExecResult.selfdestruct := None;
          ExecResult.gasRefund := None |} |}.

(** [(toAccount.nonce && new BN(toAccount.nonce).gtn(0)) ||
     toAccount.codeHash.compare(KECCAK256_NULL) !== 0] *)
Definition collides (toAccount : Account.t) : bool :=
  (0 <? Account.nonce toAccount)
  || negb (bool_decide (Account.codeHash toAccount = KECCAK256_NULL)).

(** What [_executeCreate] does with the interpreter's result: the fee for
    the returned code, the size limit, and saving the code. *)
Definition finishCreate (message : Message.t) (result : ExecResult.t)
    (s : EVMState.t) : Outcome (EVMResult.t * Message.t) :=
  let returnLength := Z.of_nat (length (ExecResult.returnValue result)) in
  let totalGas :=
    match ExecResult.exceptionError result with
    | None =>
        ExecResult.gasUsed result
        + returnLength * VM.param vm "gasPrices" "createData"
    | Some _ => ExecResult.gasUsed result
    end in
  let allowedCodeSize :=
    negb (VM.gteHardfork vm "spuriousDragon"
          && (VM.param vm "vm" "maxCodeSize" <? returnLength)) in
  let result1 :=
    if (totalGas <=? Message.gasLimit message)
       && (VM.allowUnlimitedContractSize vm || allowedCodeSize)
    then ExecResult.set_gasUsed totalGas result
    else
      ExecResult.set_exceptionError (Some (VmError OUT_OF_GAS))
        (ExecResult.set_gasUsed (Message.gasLimit message)
           (ExecResult.set_returnValue [] result)) in
  let s1 :=
    match ExecResult.exceptionError result1, ExecResult.returnValue result1 with
    | None, _ :: _ =>
        EVMState.on_state
          (StateManager.putContractCode (default [] (Message.to message))
             (ExecResult.returnValue result1)) s
    | _, _ => s
    end in
  Returned
    ({| EVMResult.gasUsed := ExecResult.gasUsed result1;
        EVMResult.createdAddress := Message.to message;
        EVMResult.execResult := result1 |}, message) s1.

(** The head of [_executeCreate]: the caller is debited, [data] becomes the
    [code], and [to] is the generated address. *)
Definition createPrologue (message : Message.t) (s : EVMState.t)
  : Message.t * EVMState.t :=
  let account :=
    StateManager.getAccount (Message.caller message) (EVMState._state s) in
  let s1 := _reduceSenderBalance account message s in
  let message1 :=
    Message.set_code (Some (CodeBytes (Message.data message)))
      (Message.isCompiled message) message in
  let message2 := Message.set_data [] message1 in
  let to := _generateAddress message2 s1 in
  (Message.set_to (Some to) message2, s1).

(** After the collision check: the storage at the new address is cleared,
    the account is read again, its nonce is bumped from Spurious Dragon
    on, and the value is credited inside a [try]; the error caught (if
    any) and the state after. *)
Definition createAccount (message : Message.t) (to : Buffer) (s : EVMState.t)
  : option Exception * EVMState.t :=
  let s2 := EVMState.on_state (StateManager.clearContractStorage to) s in
  let toAccount := StateManager.getAccount to (EVMState._state s2) in
  let toAccount :=
    if VM.gteHardfork vm "spuriousDragon"
    then Account.set_nonce (Account.nonce toAccount + 1) toAccount
    else toAccount in
  tryAddToBalance toAccount message s2.

(** [_executeCreate].  The message comes back as the function left it
    ([code], [data] and [to] assigned). *)
Definition _executeCreate (message : Message.t) (s : EVMState.t)
  : Outcome (EVMResult.t * Message.t) :=
  let '(message3, s1) := createPrologue message s in
  let to := default [] (Message.to message3) in
  let toAccount := StateManager.getAccount to (EVMState._state s1) in
  if collides toAccount
  then Returned (collisionResult message3, message3) s1
  else
    let '(errorMessage, s3) := createAccount message3 to s1 in
    if noCode message3
    then Returned (earlyResult (Some to) errorMessage, message3) s3
    else
      let* result, s4 := runInterpreter message3 s3 in
      finishCreate message3 result s4.

(** [this._vm.ovmStateManager.handleCall(message, this._tx)] on the
    executor's state view. *)
Definition handleCall (message : Message.t) (s : EVMState.t)
  : Outcome Buffer :=
  match OvmStateManager.handleCall vm message (EVMState._state s) with
  | (Some bytes, st) => Returned bytes (EVMState.set_state st s)
  | (None, st) => Thrown (EVMState.set_state st s)
  end.

(** The contract definition picked for the callee. *)
Definition resolveTarget (to : Buffer) (s : EVMState.t)
  : option ContractDef.t :=
  let code := StateManager.getContractCode to (EVMState._state s) in
  let isECDSAContractAccount :=
    String.eqb (VM.toHexString vm code)
               (VM.mockOVM_ECDSAContractAccount_code vm) in
  if isECDSAContractAccount
  then VM.getContractByName vm "mockOVM_ECDSAContractAccount"
  else VM.getContract vm to.

(** [target && target.name === 'OVM_StateManager'] *)
Definition isStateManager (target : option ContractDef.t) : bool :=
  match target with
  | Some c => String.eqb (ContractDef.name c) "OVM_StateManager"
  | None => false
  end.

(** the result built when the callee is the StateManager pseudo-contract *)
Definition bridgeResult (returnValue : Buffer) : EVMResult.t :=
  {| EVMResult.gasUsed := 0;
     EVMResult.createdAddress := None;
     EVMResult.execResult :=
       {| ExecResult.exceptionError := None;
          ExecResult.gas := None;
          ExecResult.gasUsed := 0;
          ExecResult.returnValue := returnValue;
          ExecResult.logs := None;
          ExecResult.selfdestruct := None;
          ExecResult.gasRefund := None |} |}.

(** The depth-0 entry of [executeMessage]: the mock wrapper code is put
    at a caller without code and the message is rewritten into its OVM
    form. *)
Definition ovmEntry (message : Message.t) (s : EVMState.t)
  : Message.t * EVMState.t :=
  if Message.depth message =? 0 then
    let code := StateManager.getContractCode (Message.caller message)
                  (EVMState._state s) in
    let s1 :=
      if (length code =? 0)%nat
      then EVMState.on_state
             (StateManager.putContractCode (Message.caller message)
                (VM.fromHexString vm
                   (VM.mockOVM_ECDSAContractAccount_code vm))) s
      else s in
    (VM.toOvmMessage vm message, s1)
  else (message, s).

(** The [if (message.to) .. else ..] of [executeMessage]. *)
Definition dispatch (message : Message.t) (s : EVMState.t)
  : Outcome (EVMResult.t * Message.t) :=
  match Message.to message with
  | Some to =>
      if isStateManager (resolveTarget to s)
      then
        let* returnValue, s1 := handleCall message s in
        Returned (bridgeResult returnValue, message) s1
      else _executeCall message s
  | None => _executeCreate message s
  end.

(** [logs.filter(log => !log[0].equals(OVM_ExecutionManager.address))] *)
Definition filterLogs (logs : list Log) : list Log :=
  List.filter
    (fun log : Log =>
       negb (bool_decide (fst (fst log) = VM.OVM_ExecutionManager_address vm)))
    logs.

(** [this._accountMessageResult?.execResult.returnValue.slice(0,32)
     .toString('hex') == '00'.repeat(32)] *)
Definition EOAReturnedFalse (s : EVMState.t) : bool :=
  match EVMState._accountMessageResult s with
  | Some r =>
      bool_decide
        (sliceTo 32 (ExecResult.returnValue (EVMResult.execResult r))
         = zeros 32)
  | None => false
  end.

(** the return data of the target, without the 160 bytes of OVM flags
    when the target ended in an error and has that many bytes *)
Definition targetReturnData (target : EVMResult.t) : Buffer :=
  let returnData := ExecResult.returnValue (EVMResult.execResult target) in
  if bool_decide (is_Some (ExecResult.exceptionError
                             (EVMResult.execResult target)))
     && (160 <=? Z.of_nat (length returnData))
  then sliceFrom 160 returnData
  else returnData.

(** The [if (message.depth === 0) { .. }] block at the exit of
    [executeMessage].  When this message is the target, the recorded
    target result and [result] are one object, so the in-place filtering
    of the logs shows in both. *)
Definition reconcile (isTargetMessage : bool) (result : EVMResult.t)
    (s : EVMState.t) : EVMResult.t * EVMState.t :=
  match EVMState._targetMessageResult s with
  | Some recorded =>
      let result1 :=
        EVMResult.set_execResult
          (ExecResult.set_logs
             (option_map filterLogs
                (ExecResult.logs (EVMResult.execResult result)))
             (EVMResult.execResult result)) result in
      let target := if isTargetMessage then result1 else recorded in
      let s1 := if isTargetMessage
                then EVMState.set_targetMessageResult (Some result1) s
                else s in
      let targetError :=
        ExecResult.exceptionError (EVMResult.execResult target) in
      let wasDeployException :=
        EOAReturnedFalse s && negb (bool_decide (is_Some targetError)) in
      let exceptionError :=
        if wasDeployException then Some (VmError REVERT)
        else targetError in
      ({| EVMResult.gasUsed := EVMResult.gasUsed result1;
          EVMResult.createdAddress := EVMResult.createdAddress target;
          EVMResult.execResult :=
            ExecResult.set_exceptionError exceptionError
              (ExecResult.set_returnValue (targetReturnData target)
                 (EVMResult.execResult result1)) |}, s1)
  | None =>
      (EVMResult.set_execResult
         (ExecResult.set_exceptionError (Some (VmError OVM_ERROR))
            (EVMResult.execResult result)) result, s)
  end.

(** The lines between the dispatch and the depth-0 block: the refund is
    attached, the checkpoint is reverted (and the logs emptied) when the
    result carries an [exceptionError] and committed otherwise, and the
    result of a target message is recorded. *)
Definition settle (isTargetMessage : bool) (result : EVMResult.t)
    (s : EVMState.t) : EVMResult.t * EVMState.t :=
  let result1 :=
    EVMResult.set_execResult
      (ExecResult.set_gasRefund (Some (EVMState._refund s))
         (EVMResult.execResult result)) result in
  let '(result2, s1) :=
    match ExecResult.exceptionError (EVMResult.execResult result1) with
    | Some _ =>
        (EVMResult.set_execResult
           (ExecResult.set_logs (Some []) (EVMResult.execResult result1))
           result1,
         EVMState.on_state StateManager.revert s)
    | None => (result1, EVMState.on_state StateManager.commit s)
    end in
  (result2,
   if isTargetMessage
   then EVMState.set_targetMessageResult (Some result2) s1
   else s1).

(** The head of [executeMessage]: the checkpoint is opened, a depth-0
    message is rewritten, and the message is latched as the target when
    none is latched yet and it satisfies the target predicate.  The
    events are advisory and left out. *)
Definition enter (message : Message.t) (s : EVMState.t)
  : Message.t * bool * EVMState.t :=
  let s0 := EVMState.on_state StateManager.checkpoint s in
  let '(message1, s1) := ovmEntry message s0 in
  let isTargetMessage :=
    negb (bool_decide (is_Some (EVMState._targetMessage s1)))
    && VM.isTargetMessage vm message1 in
  (message1, isTargetMessage,
   if isTargetMessage
   then EVMState.set_targetMessage (Some message1) s1 else s1).

(** The [if (message.depth == 1 && message.to.toString() != ..)] at the
    end of [executeMessage], and the return. *)
Definition recordAccountMessage (message : Message.t) (result : EVMResult.t)
    (s : EVMState.t) : Outcome EVMResult.t :=
  if Message.depth message =? 1 then
    match Message.to message with
    | None => Thrown s
    | Some to =>
        if negb (String.eqb (VM.bufferToString vm to)
                   (VM.bufferToString vm (VM.OVM_StateManager_address vm)))
        then Returned result
               (EVMState.set_accountMessageResult (Some result) s)
        else Returned result s
    end
  else Returned result s.

(** The tail of [executeMessage], from the result of the dispatch on.
    [_targetMessage] is the message object itself, so it shows what the
    dispatch assigned to it. *)
Definition leave (isTargetMessage : bool) (result : EVMResult.t)
    (message : Message.t) (s : EVMState.t) : Outcome EVMResult.t :=
  let s3 := if isTargetMessage
            then EVMState.set_targetMessage (Some message) s else s in
  let '(result1, s4) := settle isTargetMessage result s3 in
  let '(result2, s5) :=
    if Message.depth message =? 0
    then reconcile isTargetMessage result1 s4
    else (result1, s4) in
  recordAccountMessage message result2 s5.

(** One activation of [executeMessage]. *)
Definition executeMessage_body (message : Message.t) (s : EVMState.t)
  : Outcome EVMResult.t :=
  let '(message1, isTargetMessage, s2) := enter message s in
  let* (result, message2), s3 := dispatch message1 s2 in
  leave isTargetMessage result message2 s3.
End Executor.

(** [executeMessage]: the handlers of an activation with fuel [S n] reach
    the executor with fuel [n], which also bounds each interpreter
    run. *)
Fixpoint executeMessage (vm : VM.t) (n : nat)
  : Message.t -> EVMState.t -> Outcome EVMResult.t :=
  match n with
  | O => fun _ _ => Diverged
  | S n' => executeMessage_body vm n' (executeMessage vm n')
  end.
End EVM.

(* ================================================================== *)
(** ** The older executor variant, and the derivation as specified      *)
(* ================================================================== *)

(** The second copy of the executor in the tree (it keeps an [_isOvmCall]
    flag and the upstream derivations).  Only its [_generateAddress] is
    needed here. *)
Module Legacy.
Definition createdAddressSlot : Buffer := zeros 31 ++ [0x05].

Definition _generateAddress (vm : VM.t) (_isOvmCall : bool)
    (message : Message.t) (st : StateManager.t) : Buffer :=
  if _isOvmCall then
    VM.fromHexString vm
      (VM.toHexAddress vm
         (StateManager.getContractStorage
            (VM.OVM_ExecutionManager_address vm) createdAddressSlot st))
  else
    match Message.salt message with
    | Some salt =>
        VM.generateAddress2 vm (Message.caller message) salt
          (match Message.code message with
           | Some c => codeAsBuffer c
           | None => []
           end)
    | None =>
        let acc := StateManager.getAccount (Message.caller message) st in
        let newNonce := Account.nonce acc - 1 in
        VM.generateAddress vm (Message.caller message)
          (VM.toArrayLike vm newNonce)
    end.
End Legacy.

(** Section 4.6 of the specification, word for word: slot [0x..0f] of the
    Execution Manager under the OVM entry path; otherwise the CREATE2
    derivation when a salt is present and the CREATE derivation (on the
    nonce before the bump) when not.  [generateAddress2] and
    [generateAddress] of [ethereumjs-util] are those two derivations. *)
Module Spec.
Definition generateAddress (vm : VM.t) (ovmEntryPath : bool)
    (message : Message.t) (st : StateManager.t) : Buffer :=
  if ovmEntryPath then
    VM.fromHexString vm
      (VM.toHexAddress vm
         (StateManager.getContractStorage
            (VM.OVM_ExecutionManager_address vm) (zeros 31 ++ [0x0f]) st))
  else
    match Message.salt message with
    | Some salt =>
        VM.generateAddress2 vm (Message.caller message) salt
          (match Message.code message with
           | Some c => codeAsBuffer c
           | None => []
           end)
    | None =>
        VM.generateAddress vm (Message.caller message)
          (VM.toArrayLike vm
             (Account.nonce
                (StateManager.getAccount (Message.caller message) st) - 1))
    end.
End Spec.

(* ================================================================== *)
(** ** The balance helpers of the older variant                         *)
(* ================================================================== *)

(** In the older variant the assignments to [account.balance] and
    [toAccount.balance] are commented out, and the overflow is reported by
    a plain [Error].  Both helpers work on the state view alone. *)
Module LegacyEVM.

(** [_reduceSenderBalance]: [newBalance] is computed and not used. *)
Definition _reduceSenderBalance (account : Account.t) (message : Message.t)
    (st : StateManager.t) : StateManager.t :=
  let newBalance := Account.balance account - Message.value message in
  StateManager.putAccount (Message.caller message) account st.

(** [_addToBalance]: the exception thrown, or the state after
    [putAccount]. *)
Definition _addToBalance (toAccount : Account.t) (message : Message.t)
    (st : StateManager.t) : Exception + StateManager.t :=
  let newBalance := Account.balance toAccount + Message.value message in
  if MAX_INTEGER <? newBalance then inl JsError
  else inr (StateManager.putAccount (default [] (Message.to message))
              toAccount st).

End LegacyEVM.

(* ================================================================== *)
(** ** The precompile [12-bls12-map-fp2-to-g2]                          *)
(* ================================================================== *)

Module Bls12MapFp2ToG2.
(** [buf.slice(first, last)] *)
Definition slice (first last : nat) (buf : Buffer) : Buffer :=
  take (last - first) (drop first buf).

Definition zeroByteCheck : list (nat * nat) := [(0, 16); (64, 80)]%nat.

(** The [for] loop over [zeroByteCheck]: whether every range holds 16
    zero bytes. *)
Definition zeroBytesOk (data : Buffer) : bool :=
  forallb (fun range : nat * nat =>
             bool_decide (slice range.1 range.2 data = zeros 16))
    zeroByteCheck.

Section Precompile.
Variable vm : VM.t.
(** the [mcl] bindings that [opts._VM._mcl] holds *)
Variable Mcl : Type.
(** [BLS12_381_ToFp2Point], [mapToG2] and [BLS12_381_FromG2Point] of
    [./util/bls12_381], one after the other; [inl] when one of them
    raises *)
Variable mapToG2 : Mcl -> Buffer -> Buffer -> Exception + Buffer.

(** [opts], with the fields the function reads beside [_common] (whose
    [param] is the host's): an absent field is [None], and [_VM] is
    reduced to its [_mcl]. *)
Record PrecompileInput := {
  data : option Buffer;
  gasLimit : Z;
  _VM : option Mcl;
}.

(** The [opts] that [runPrecompile] of the executor builds: [data],
    [gasLimit] and [_common], and no [_VM]. *)
Definition runPrecompile_opts (data : Buffer) (gasLimit : Z)
  : PrecompileInput :=
  {| data := Some data; gasLimit := gasLimit; _VM := None |}.

(** The call [VmErrorResult(error, gasUsed)].  The name is imported from
    the executor's file, which exports [OOGResult] and no
    [VmErrorResult]: the call of [undefined] raises a [TypeError]. *)
Definition VmErrorResult (e : Exception) (gasUsed : Z)
  : Exception + ExecResult.t :=
  inl JsError.

(** The exported function: what its promise settles to, the result
    ([inr]) or the exception it is rejected with ([inl]).  First come
    [assert(opts.data)] and the read of [opts._VM._mcl], each of which
    raises on an absent field; then the gas constant is read and the
    input is checked. *)
Definition precompile (opts : PrecompileInput) : Exception + ExecResult.t :=
  match data opts with
  | None => inl JsError
  | Some inputData =>
      match _VM opts with
      | None => inl JsError
      | Some mcl =>
          let gasUsed := VM.param vm "gasPrices" "Bls12381MapG2Gas" in
          if negb (length inputData =? 128)%nat
          then VmErrorResult (VmError BLS_12_381_INVALID_INPUT_LENGTH) gasUsed
          else if negb (zeroBytesOk inputData)
          then VmErrorResult (VmError BLS_12_381_POINT_NOT_ON_CURVE) gasUsed
          else
            match mapToG2 mcl (slice 0 64 inputData)
                    (slice 64 128 inputData) with
            | inl e => inl e
            | inr returnValue =>
                inr {| ExecResult.exceptionError := None;
                       ExecResult.gas := None;
                       ExecResult.gasUsed := gasUsed;
                       ExecResult.returnValue := returnValue;
                       ExecResult.logs := None;
                       ExecResult.selfdestruct := None;
                       ExecResult.gasRefund := None |}
            end
      end
  end.
End Precompile.
Arguments data {Mcl} _.
Arguments gasLimit {Mcl} _.
Arguments _VM {Mcl} _.
Arguments runPrecompile_opts {Mcl} _ _.
Arguments precompile vm {Mcl} mapToG2 opts.
End Bls12MapFp2ToG2.

(* ================================================================== *)
(** ** What the theorems ask of the host                                *)
(* ================================================================== *)

Module Host.

(** [fromHexString] reads back what [toHexString] wrote. *)
Definition hexRoundTrip (vm : VM.t) : Prop :=
  forall buf : Buffer,
    Forall isByte buf -> VM.fromHexString vm (VM.toHexString vm buf) = buf.

(** the checkpoint stack behind an executor *)
Definition checkpointsOf (s : EVMState.t) : list StateManager.World :=
  StateManager.checkpoints (EVMState._state s).


(** An executor, as the handlers reach it, that raises no exception on a
    well-typed message and, when it returns, has left the checkpoint
    stack as it found it. *)
Definition neutralExec
    (exec : Message.t -> EVMState.t -> Outcome EVMResult.t) : Prop :=
  forall m s,
    Message.wellTyped m ->
    match exec m s with
    | Returned _ s' => checkpointsOf s' = checkpointsOf s
    | Thrown _ => False
    | Diverged => True
    end.

(** Handlers that open and close no checkpoint of their own: given such
    an executor, a handler leaves the stack as it found it, however it
    ends. *)
Definition neutralHandlers (vm : VM.t) : Prop :=
  forall name opFn exec rs s,
    VM.opHandlers vm name = Some opFn ->
    neutralExec exec ->
    match opFn exec rs s with
    | HDone _ s' | HRaise _ _ s' => checkpointsOf s' = checkpointsOf s
    | HDiverged => True
    end.

End Host.

(* ================================================================== *)
(** ** A small host for the examples                                    *)
(* ================================================================== *)

(** A concrete host on which the definitions above can be run: a hex
    codec, a few opcodes with handlers, a registry with the Execution
    Manager and the StateManager, and a word-per-argument ABI.  The two
    address derivations are stand-ins, not Keccak. *)
Module Sample.

Definition hexDigit (n : Z) : ascii :=
  default "f"%char (String.get (Z.to_nat n) "0123456789abcdef").

Definition digitValue (c : ascii) : option Z :=
  let n := Z.of_nat (nat_of_ascii c) in
  if (48 <=? n) && (n <=? 57) then Some (n - 48)
  else if (97 <=? n) && (n <=? 102) then Some (n - 87)
  else if (65 <=? n) && (n <=? 70) then Some (n - 55)
  else None.

Fixpoint hexOf (buf : Buffer) : string :=
  match buf with
  | [] => ""
  | b :: rest =>
      String (hexDigit (b / 16)) (String (hexDigit (b mod 16)) (hexOf rest))
  end.

Fixpoint parseHex (str : string) : Buffer :=
  match str with
  | String a (String b rest) =>
      match digitValue a, digitValue b with
      | Some x, Some y => (16 * x + y) :: parseHex rest
      | _, _ => []
      end
  | _ => []
  end.

Definition toHexString (buf : Buffer) : string := "0x" ++ hexOf buf.

Definition fromHexString (str : string) : Buffer :=
  match str with
  | String "0"%char (String "x"%char rest) => parseHex rest
  | _ => parseHex str
  end.

(** the last 20 bytes, left-padded with zeros *)
Definition toHexAddress (buf : Buffer) : string :=
  let padded := zeros 20 ++ buf in
  toHexString (drop (length padded - 20)%nat padded).

(** [n] bytes, big-endian *)
Fixpoint bytesBE (n : nat) (z : Z) : Buffer :=
  match n with
  | O => []
  | S n' => bytesBE n' (z / 256) ++ [z mod 256]
  end.

Definition toArrayLike (z : Z) : Buffer :=
  let m := Z.abs z in
  bytesBE (Z.to_nat (Z.max 1 (Z.log2 m / 8 + 1))) m.

(** stand-in for a digest: 20 bytes that depend on every input byte *)
Definition digest (input : Buffer) : Buffer :=
  bytesBE 20
    (fold_left (fun acc b => (acc * 257 + b + 1) mod 2 ^ 160) input 7).

Definition generateAddress (from nonce : Buffer) : Buffer :=
  digest (from ++ nonce).
Definition generateAddress2 (from salt code : Buffer) : Buffer :=
  digest ([0xff] ++ from ++ salt ++ digest code).

Definition EM_address : Buffer := zeros 16 ++ [0xde; 0xad; 0x00; 0x00].
Definition SM_address : Buffer := zeros 16 ++ [0xde; 0xad; 0x00; 0x01].

Definition mockCode : string := "0x00".

Definition op (name : string) (fee : Z) (isAsync : bool) : option Opcode.t :=
  Some {| Opcode.name := name; Opcode.fullName := name;
          Opcode.fee := fee; Opcode.isAsync := isAsync |}.

Definition _opcodes (b : Z) : option Opcode.t :=
  if b =? 0x00 then op "STOP" 0 false
  else if b =? 0x01 then op "ADD" 3 false
  else if b =? 0x50 then op "POP" 2 false
  else if b =? 0x56 then op "JUMP" 8 false
  else if b =? 0x5b then op "JUMPDEST" 1 false
  else if (0x60 <=? b) && (b <=? 0x7f) then op "PUSH" 3 false
  else if b =? 0xf1 then op "CALL" 700 true
  else if b =? 0xf3 then op "RETURN" 0 false
  else if b =? 0xfd then op "REVERT" 0 false
  else if b =? 0xfe then op "INVALID" 0 false
  else None.

Definition set_stack (st : list Z) (r : RunState.t) : RunState.t :=
  RunState.mk (RunState.programCounter r) (RunState.opCode r)
    (RunState.memory r) (RunState.memoryWordCount r)
    (RunState.highestMemCost r) st (RunState.code r)
    (RunState.validJumps r) (RunState.eei r).

Definition set_returnValue (v : Buffer) (r : RunState.t) : RunState.t :=
  let e := RunState.eei r in
  RunState.set_eei
    (EEI.set_result
       {| EEI.logs := EEI.logs (EEI._result e);
          EEI.returnValue := Some v;
          EEI.selfdestruct := EEI.selfdestruct (EEI._result e) |} e) r.

(** the big-endian value of a byte string *)
Definition valueOf (buf : Buffer) : Z :=
  fold_left (fun acc b => acc * 256 + b) buf 0.

(** memory reads as zero beyond what was written *)
Definition memorySlice (offset len : Z) (r : RunState.t) : Buffer :=
  take (Z.to_nat len)
    (drop (Z.to_nat offset) (RunState.memory r) ++ zeros (Z.to_nat len)).

Definition callMessage (to : Z) (r : RunState.t) : Message.t :=
  let e := RunState.eei r in
  {| Message.to := Some (bytesBE 20 to);
     Message.value := 0;
     Message.caller := EEI.address (EEI._env e);
     Message.gasLimit := EEI._gasLeft e;
     Message.data := [];
     Message.depth := EEI.depth (EEI._env e) + 1;
     Message.code := None;
     Message._codeAddress := None;
     Message.isStatic := EEI.isStatic (EEI._env e);
     Message.isCompiled := false;
     Message.salt := None;
     Message.selfdestruct := None;
     Message.delegatecall := false;
     Message.originalTargetAddress := None |}.

Definition opHandlers (name : string) : option OpHandler :=
  if String.eqb name "STOP" then
    Some (fun _ rs s => HRaise (VmError STOP) rs s)
  else if String.eqb name "ADD" then
    Some (fun _ rs s =>
      match RunState.stack rs with
      | a :: b :: rest => HDone (set_stack ((a + b) mod 2 ^ 256 :: rest) rs) s
      | _ => HRaise (VmError STACK_UNDERFLOW) rs s
      end)
  else if String.eqb name "POP" then
    Some (fun _ rs s =>
      match RunState.stack rs with
      | _ :: rest => HDone (set_stack rest rs) s
      | _ => HRaise (VmError STACK_UNDERFLOW) rs s
      end)
  else if String.eqb name "PUSH" then
    Some (fun _ rs s =>
      let numToPush := Z.to_nat (RunState.opCode rs - 0x5f) in
      let pc := RunState.programCounter rs in
      let loaded := take numToPush (drop (Z.to_nat pc) (RunState.code rs)) in
      HDone (RunState.set_programCounter (pc + Z.of_nat numToPush)
               (set_stack (valueOf loaded :: RunState.stack rs) rs)) s)
  else if String.eqb name "JUMP" then
    Some (fun _ rs s =>
      match RunState.stack rs with
      | dest :: rest =>
          if bool_decide (dest ∈ RunState.validJumps rs)
          then HDone (RunState.set_programCounter dest (set_stack rest rs)) s
          else HRaise (VmError INVALID_JUMP) (set_stack rest rs) s
      | _ => HRaise (VmError STACK_UNDERFLOW) rs s
      end)
  else if String.eqb name "JUMPDEST" then
    Some (fun _ rs s => HDone rs s)
  else if String.eqb name "RETURN" then
    Some (fun _ rs s =>
      match RunState.stack rs with
      | offset :: len :: rest =>
          HRaise (VmError STOP)
            (set_returnValue (memorySlice offset len rs) (set_stack rest rs)) s
      | _ => HRaise (VmError STACK_UNDERFLOW) rs s
      end)
  else if String.eqb name "REVERT" then
    Some (fun _ rs s =>
      match RunState.stack rs with
      | offset :: len :: rest =>
          HRaise (VmError REVERT)
            (set_returnValue (memorySlice offset len rs) (set_stack rest rs)) s
      | _ => HRaise (VmError STACK_UNDERFLOW) rs s
      end)
  else if String.eqb name "CALL" then
    Some (fun exec rs s =>
      match RunState.stack rs with
      | to :: rest =>
          match exec (callMessage to rs) s with
          | Returned r s' =>
              let ok :=
                match ExecResult.exceptionError (EVMResult.execResult r) with
                | Some _ => 0
                | None => 1
                end in
              HDone
                (RunState.set_eei
                   (EEI.set_gasLeft
                      (EEI._gasLeft (RunState.eei rs) - EVMResult.gasUsed r)
                      (RunState.eei rs))
                   (set_stack (ok :: rest) rs)) s'
          | Thrown s' => HRaise JsError rs s'
          | Diverged => HDiverged
          end
      | _ => HRaise (VmError STACK_UNDERFLOW) rs s
      end)
  else None.

(** *** Registry, fork configuration, precompiles *)

Definition getContract (addr : Buffer) : option ContractDef.t :=
  if bool_decide (addr = EM_address)
  then Some {| ContractDef.name := "OVM_ExecutionManager";
               ContractDef.address := EM_address |}
  else if bool_decide (addr = SM_address)
  then Some {| ContractDef.name := "OVM_StateManager";
               ContractDef.address := SM_address |}
  else None.

Definition getContractByName (name : string) : option ContractDef.t :=
  if String.eqb name "mockOVM_ECDSAContractAccount"
  then Some {| ContractDef.name := "mockOVM_ECDSAContractAccount";
               ContractDef.address := [] |}
  else if String.eqb name "OVM_ExecutionManager" then getContract EM_address
  else if String.eqb name "OVM_StateManager" then getContract SM_address
  else None.

Definition param (category name : string) : Z :=
  if String.eqb name "createData" then 200
  else if String.eqb name "maxCodeSize" then 24576
  else 0.

(** the identity precompile at address 4 *)
Definition identity : PrecompileFunc :=
  fun data gasLimit =>
    let gasUsed := 15 + 3 * ((Z.of_nat (length data) + 31) / 32) in
    if gasLimit <? gasUsed then OOGResult gasLimit
    else
      {| ExecResult.exceptionError := None;
         ExecResult.gas := None;
         ExecResult.gasUsed := gasUsed;
         ExecResult.returnValue := data;
         ExecResult.logs := None;
         ExecResult.selfdestruct := None;
         ExecResult.gasRefund := None |}.

Definition getPrecompile (addr : Buffer) : option PrecompileFunc :=
  if bool_decide (addr = zeros 19 ++ [4]) then Some identity else None.

(** *** The two methods of [Message] *)

(** the message re-targeted to the Execution Manager, its data wrapped
    in a call of it *)
Definition toOvmMessage (m : Message.t) : Message.t :=
  Message.mk (Some EM_address) (Message.value m) (Message.caller m)
    (Message.gasLimit m)
    ([0; 0; 0; 0x0a] ++ default (zeros 20) (Message.to m) ++ Message.data m)
    (Message.depth m) (Message.code m) (Message._codeAddress m)
    (Message.isStatic m) (Message.isCompiled m) (Message.salt m)
    (Message.selfdestruct m) (Message.delegatecall m) (Message.to m).

Definition isTargetMessage (m : Message.t) : bool := Message.depth m =? 2.

(** *** A word-per-argument ABI for the StateManager interface *)

Fixpoint words (fuel : nat) (buf : Buffer) : list Buffer :=
  match fuel, buf with
  | S fuel', _ :: _ => take 32 buf :: words fuel' (drop 32 buf)
  | _, _ => []
  end.

Definition getFunction (methodId : string) : option string :=
  if String.eqb methodId "0x00000001" then Some "setStorage"
  else if String.eqb methodId "0x00000002" then Some "getStorage"
  else if String.eqb methodId "0x00000003" then Some "getStorageView"
  else if String.eqb methodId "0x00000004" then Some "getOvmContractNonce"
  else if String.eqb methodId "0x00000005" then Some "getCodeContractBytecode"
  else if String.eqb methodId "0x00000006" then Some "registerCreatedContract"
  else if String.eqb methodId "0x00000007" then Some "incrementOvmContractNonce"
  else if String.eqb methodId "0x00000008"
  then Some "getCodeContractAddressFromOvmAddress"
  else if String.eqb methodId "0x00000009" then Some "associateCodeContract"
  else None.

(** the first argument of every function is an address: its word's last
    20 bytes *)
Definition decodeFunctionData (fragment data : string)
  : option (list string) :=
  let body := drop 4 (fromHexString data) in
  match words (length body) body with
  | [] => Some []
  | a :: rest => Some (toHexString (drop 12 a) :: map toHexString rest)
  end.

Definition encodeFunctionResult (fragment : string)
    (ret : option (list string)) : option string :=
  match ret with
  | None => Some "0x"
  | Some values =>
      Some (toHexString (concat (map fromHexString values)))
  end.

Definition strictIface : Interface.t :=
  {| Interface.getFunction := getFunction;
     Interface.decodeFunctionData := decodeFunctionData;
     Interface.encodeFunctionResult := encodeFunctionResult |}.

Definition mkHost (iface : Interface.t) : VM.t :=
  {| VM._opcodes := _opcodes;
     VM.opHandlers := opHandlers;
     VM.mockOVM_ECDSAContractAccount_code := mockCode;
     VM.OVM_ExecutionManager_address := EM_address;
     VM.OVM_StateManager_address := SM_address;
     VM.getContract := getContract;
     VM.getContractByName := getContractByName;
     VM.StateManager_iface := iface;
     VM.gteHardfork := fun _ => true;
     VM.param := param;
     VM.allowUnlimitedContractSize := false;
     VM.getPrecompile := getPrecompile;
     VM.toOvmMessage := toOvmMessage;
     VM.isTargetMessage := isTargetMessage;
     VM.toHexString := toHexString;
     VM.fromHexString := fromHexString;
     VM.toHexAddress := toHexAddress;
     VM.NULL_BYTES32 := toHexString (zeros 32);
     VM.bufferToString := hexOf;
     VM.toArrayLike := toArrayLike;
     VM.generateAddress := generateAddress;
     VM.generateAddress2 := generateAddress2 |}.

Definition host : VM.t := mkHost strictIface.

(** a message with every optional field unset *)
Definition message (to : option Buffer) (caller : Buffer) (value gasLimit : Z)
    (data : Buffer) (depth : Z) : Message.t :=
  {| Message.to := to; Message.value := value; Message.caller := caller;
     Message.gasLimit := gasLimit; Message.data := data;
     Message.depth := depth; Message.code := None;
     Message._codeAddress := None; Message.isStatic := false;
     Message.isCompiled := false; Message.salt := None;
     Message.selfdestruct := None; Message.delegatecall := false;
     Message.originalTargetAddress := None |}.

Definition emptyState : StateManager.t :=
  {| StateManager.world := StateManager.emptyWorld;
     StateManager.checkpoints := [] |}.

Definition alice : Buffer := zeros 19 ++ [0xa1].
Definition bob : Buffer := zeros 19 ++ [0xb0].
Definition carol : Buffer := zeros 19 ++ [0xc0].

(** An OVM trace in three levels: the Execution Manager calls [bob], the
    wrapper account; [bob] calls [carol], the target, and then returns 32
    zero bytes; [carol] stops. *)
Definition ovmState : StateManager.t :=
  StateManager.putContractCode EM_address [0x60; 0xb0; 0xf1; 0x00]
    (StateManager.putContractCode bob
       [0x60; 0xc0; 0xf1; 0x50; 0x60; 32; 0x60; 0; 0xf3]
       (StateManager.putContractCode carol [0x00] emptyState)).

(** a call from [alice] to [bob] at depth 1 that carries its code *)
Definition codeMessage (code : Buffer) (gasLimit : Z) : Message.t :=
  Message.set_code (Some (CodeBytes code)) false
    (message (Some bob) alice 0 gasLimit [] 1).


(** [bob] calls the StateManager address with no data, which the strict
    interface cannot decode, and then stops; [alice] holds 100 *)
Definition malformedCallState : StateManager.t :=
  StateManager.putContractCode bob [0x63; 0xde; 0xad; 0x00; 0x01; 0xf1; 0x00]
    (StateManager.putAccount alice
       (Account.set_balance 100 Account.empty) emptyState).

(** the state with one more account of the given balance *)
Definition funded (addr : Buffer) (balance : Z) (st : StateManager.t)
  : StateManager.t :=
  StateManager.putAccount addr (Account.set_balance balance Account.empty) st.

(** [alice] holds 100, [bob] holds all but 3 of what an account can hold *)
Definition richState : StateManager.t :=
  funded bob (MAX_INTEGER - 3) (funded alice 100 emptyState).

(** the state in which the Execution Manager names [target] as the next
    contract address *)
Definition creating (target : Buffer) (st : StateManager.t) : StateManager.t :=
  StateManager.putContractStorage EM_address (zeros 31 ++ [0x0f])
    (zeros 12 ++ target) st.

(** the state with the nonce of [addr] set *)
Definition withNonce (addr : Buffer) (nonce : Z) (st : StateManager.t)
  : StateManager.t :=
  StateManager.putAccount addr
    (Account.set_nonce nonce (StateManager.getAccount addr st)) st.

(** a creation by [alice] at depth 1 that carries a salt (CREATE2) *)
Definition saltedCreate : Message.t :=
  Message.mk None 0 alice 50000 [] 1 (Some (CodeBytes [0x00])) None
    false false (Some (repeat 0x01 32)) None false None.

(** a creation by [alice] at depth 1 *)
Definition createMessage (value gasLimit : Z) (initCode : Buffer) : Message.t :=
  message None alice value gasLimit initCode 1.

(** calls of the StateManager: [setStorage(0x11.., 0x22.., 0x33..)] and
    [getStorage(0x11.., 0x22..)] *)
Definition setStorageData : Buffer :=
  [0; 0; 0; 1] ++ (zeros 12 ++ repeat 0x11 20) ++ repeat 0x22 32
  ++ repeat 0x33 32.
Definition getStorageData : Buffer :=
  [0; 0; 0; 2] ++ (zeros 12 ++ repeat 0x11 20) ++ repeat 0x22 32.

(** a new executor over the empty state, with a refund of 7 accrued *)
Definition executor7 : EVMState.t :=
  EVMState.set_refund 7 (EVMState.fresh emptyState).
End Sample.

(** More sample data: a host whose opcode table is the sample's but
    which has no handler for any name, stand-ins for what the BLS
    precompile takes from elsewhere, and a host whose code can log. *)
Module SampleMore.
Definition hostWithoutHandlers : VM.t :=
  {| VM._opcodes := Sample._opcodes;
     VM.opHandlers := fun _ => None;
     VM.mockOVM_ECDSAContractAccount_code := Sample.mockCode;
     VM.OVM_ExecutionManager_address := Sample.EM_address;
     VM.OVM_StateManager_address := Sample.SM_address;
     VM.getContract := Sample.getContract;
     VM.getContractByName := Sample.getContractByName;
     VM.StateManager_iface := Sample.strictIface;
     VM.gteHardfork := fun _ => true;
     VM.param := Sample.param;
     VM.allowUnlimitedContractSize := false;
     VM.getPrecompile := Sample.getPrecompile;
     VM.toOvmMessage := Sample.toOvmMessage;
     VM.isTargetMessage := Sample.isTargetMessage;
     VM.toHexString := Sample.toHexString;
     VM.fromHexString := Sample.fromHexString;
     VM.toHexAddress := Sample.toHexAddress;
     VM.NULL_BYTES32 := Sample.toHexString (zeros 32);
     VM.bufferToString := Sample.hexOf;
     VM.toArrayLike := Sample.toArrayLike;
     VM.generateAddress := Sample.generateAddress;
     VM.generateAddress2 := Sample.generateAddress2 |}.

(** a stand-in for the mapping: 256 bytes that depend on both halves *)
Definition mapToG2 (mcl : unit) (c0 c1 : Buffer) : Exception + Buffer :=
  inr (Sample.bytesBE 256 (Sample.valueOf (c1 ++ c0) + 1)).

(** [opts] that carry the bindings *)
Definition optsWithVM (data : Buffer) : Bls12MapFp2ToG2.PrecompileInput unit :=
  {| Bls12MapFp2ToG2.data := Some data; Bls12MapFp2ToG2.gasLimit := 0; Bls12MapFp2ToG2._VM := Some tt |}.

(** a 128-byte input with both paddings zero *)
Definition paddedInput : Buffer :=
  zeros 16 ++ repeat 0x11 48 ++ zeros 16 ++ repeat 0x22 48.

(** the state view in which [alice] holds 100 and [bob] has the code
    PUSH1 1; PUSH1 0; RETURN *)
Definition returningState : StateManager.t :=
  StateManager.putContractCode Sample.bob [0x60; 1; 0x60; 0; 0xf3]
    (Sample.funded Sample.alice 100 Sample.emptyState).
(** the sample opcodes and LOG0 *)
Definition loggingOpcodes (b : Z) : option Opcode.t :=
  if b =? 0xa0 then Sample.op "LOG" 375 false else Sample._opcodes b.

(** a log of the given address, with no topic and no data *)
Definition logOf (address : Buffer) : Log := (address, [], []).

Definition addLogs (logs : list Log) (r : RunState.t) : RunState.t :=
  let e := RunState.eei r in
  RunState.set_eei
    (EEI.set_result
       {| EEI.logs := EEI.logs (EEI._result e) ++ logs;
          EEI.returnValue := EEI.returnValue (EEI._result e);
          EEI.selfdestruct := EEI.selfdestruct (EEI._result e) |} e) r.

(** the sample handlers, with a LOG that records the running address
    and a CALL that takes over the logs of the callee *)
Definition loggingHandlers (name : string) : option OpHandler :=
  if String.eqb name "LOG" then
    Some (fun _ rs s =>
      HDone (addLogs [logOf (EEI.address (EEI._env (RunState.eei rs)))] rs) s)
  else if String.eqb name "CALL" then
    Some (fun exec rs s =>
      match RunState.stack rs with
      | to :: rest =>
          match exec (Sample.callMessage to rs) s with
          | Returned r s' =>
              let ok :=
                match ExecResult.exceptionError (EVMResult.execResult r) with
                | Some _ => 0
                | None => 1
                end in
              HDone
                (addLogs
                   (default [] (ExecResult.logs (EVMResult.execResult r)))
                   (RunState.set_eei
                      (EEI.set_gasLeft
                         (EEI._gasLeft (RunState.eei rs)
                          - EVMResult.gasUsed r)
                         (RunState.eei rs))
                      (Sample.set_stack (ok :: rest) rs))) s'
          | Thrown s' => HRaise JsError rs s'
          | Diverged => HDiverged
          end
      | _ => HRaise (VmError STACK_UNDERFLOW) rs s
      end)
  else Sample.opHandlers name.

Definition loggingHost : VM.t :=
  {| VM._opcodes := loggingOpcodes;
     VM.opHandlers := loggingHandlers;
     VM.mockOVM_ECDSAContractAccount_code := Sample.mockCode;
     VM.OVM_ExecutionManager_address := Sample.EM_address;
     VM.OVM_StateManager_address := Sample.SM_address;
     VM.getContract := Sample.getContract;
     VM.getContractByName := Sample.getContractByName;
     VM.StateManager_iface := Sample.strictIface;
     VM.gteHardfork := fun _ => true;
     VM.param := Sample.param;
     VM.allowUnlimitedContractSize := false;
     VM.getPrecompile := Sample.getPrecompile;
     VM.toOvmMessage := Sample.toOvmMessage;
     VM.isTargetMessage := Sample.isTargetMessage;
     VM.toHexString := Sample.toHexString;
     VM.fromHexString := Sample.fromHexString;
     VM.toHexAddress := Sample.toHexAddress;
     VM.NULL_BYTES32 := Sample.toHexString (zeros 32);
     VM.bufferToString := Sample.hexOf;
     VM.toArrayLike := Sample.toArrayLike;
     VM.generateAddress := Sample.generateAddress;
     VM.generateAddress2 := Sample.generateAddress2 |}.

(** the Execution Manager logs and calls [bob], the wrapper account;
    [bob] logs and calls [carol], the target; [carol] logs and stops *)
Definition loggingState : StateManager.t :=
  StateManager.putContractCode Sample.EM_address
    [0xa0; 0x60; 0xb0; 0xf1; 0x00]
    (StateManager.putContractCode Sample.bob [0xa0; 0x60; 0xc0; 0xf1; 0x00]
       (StateManager.putContractCode Sample.carol [0xa0; 0x00]
          Sample.emptyState)).
End SampleMore.

(** What the bound on the gas of a message asks of the host. *)
Module HostGas.

(** the gas the EEI of a run state has left *)
Definition gasLeftOf (rs : RunState.t) : Z := EEI._gasLeft (RunState.eei rs).

(** A message that does not come with a precompile as its code: the
    precompiles are those [_loadCode] finds in the registry. *)
Definition plainCode (m : Message.t) : Prop :=
  match Message.code m with
  | Some (CodePrecompile _) => False
  | _ => True
  end.

(** An executor, as the handlers reach it, whose results use no more
    than the gas limit of the message, and no negative amount. *)
Definition boundedExec
    (exec : Message.t -> EVMState.t -> Outcome EVMResult.t) : Prop :=
  forall m s,
    0 <= Message.gasLimit m ->
    plainCode m ->
    match exec m s with
    | Returned r _ => 0 <= EVMResult.gasUsed r <= Message.gasLimit m
    | Thrown _ | Diverged => True
    end.

(** Handlers that only ever take gas: given such an executor and a
    non-negative amount of gas, a handler leaves a non-negative amount
    that is no more than it found, however it ends. *)
Definition frugalHandlers (vm : VM.t) : Prop :=
  forall name opFn exec rs s,
    VM.opHandlers vm name = Some opFn ->
    boundedExec exec ->
    0 <= gasLeftOf rs ->
    match opFn exec rs s with
    | HDone rs' _ | HRaise _ rs' _ => 0 <= gasLeftOf rs' <= gasLeftOf rs
    | HDiverged => True
    end.

(** Precompiles that report no more gas than they are given. *)
Definition boundedPrecompiles (vm : VM.t) : Prop :=
  forall address precompile data gasLimit,
    VM.getPrecompile vm address = Some precompile ->
    0 <= gasLimit ->
    0 <= ExecResult.gasUsed (precompile data gasLimit) <= gasLimit.

(** The host as a whole: no negative fee in the opcode table or for the
    code deposit, frugal handlers, bounded precompiles, and an OVM
    rewrite that keeps the gas limit of the message and hands it no
    precompile. *)
Definition wellMetered (vm : VM.t) : Prop :=
  (forall op, 0 <= Opcode.fee (Interpreter.lookupOpInfo vm op)) /\
  0 <= VM.param vm "gasPrices" "createData" /\
  frugalHandlers vm /\
  boundedPrecompiles vm /\
  (forall m,
     Message.gasLimit (VM.toOvmMessage vm m) = Message.gasLimit m /\
     (plainCode m -> plainCode (VM.toOvmMessage vm m))).
End HostGas.

(* ================================================================== *)
(** * Theorems                                                          *)
(* ================================================================== *)

(** ** The pre-scan of jump destinations *)

Section PreScan.
Import Interpreter.
Variable vm : VM.t.
Variable code : Buffer.
Hypothesis Htable : pushTable vm.

Let len := Z.of_nat (length code).
Local Abbreviation nextStart := (Interpreter.nextStart vm code).
Local Abbreviation jumpTarget := (Interpreter.jumpTarget vm code).

Lemma nextStart_gt i : i < nextStart i.
Proof.
  unfold Interpreter.nextStart. destruct (String.eqb_spec
    (Opcode.name (lookupOpInfo vm (readByte code i))) "PUSH") as [E|E];
    [|lia].
  apply Htable in E. unfold pushWidth. lia.
Qed.

Lemma instrStart_next i :
  instrStart vm code i -> i < len -> instrStart vm code (nextStart i).
Proof.
  intros Hi Hlt. unfold Interpreter.nextStart.
  destruct (String.eqb_spec
    (Opcode.name (lookupOpInfo vm (readByte code i))) "PUSH") as [E|E].
  - by apply start_after_push.
  - by apply start_after_plain.
Qed.

Lemma instrStart_inv j :
  instrStart vm code j ->
  j = 0 \/ exists i, instrStart vm code i /\ i < len /\ j = nextStart i.
Proof.
  destruct 1 as [|i Hi Hlt Hp|i Hi Hlt Hp]; [by left| |]; right;
    exists i; (split; [done|split; [done|]]); unfold Interpreter.nextStart.
  - destruct (String.eqb_spec
      (Opcode.name (lookupOpInfo vm (readByte code i))) "PUSH"); [|done].
    by destruct Hp.
  - destruct (String.eqb_spec
      (Opcode.name (lookupOpInfo vm (readByte code i))) "PUSH"); [done|].
    by destruct n.
Qed.

Lemma instrStart_nonneg j : instrStart vm code j -> 0 <= j.
Proof.
  induction 1 as [|i Hi IH Hlt Hp|i Hi IH Hlt Hp]; [lia|lia|].
  apply Htable in Hp. unfold pushWidth. lia.
Qed.

(** Instruction starts form a chain: nothing starts between an
    instruction and its successor. *)
Lemma instrStart_chain (n : nat) : forall i j,
  instrStart vm code i -> instrStart vm code j ->
  i < len -> i < j -> j <= Z.of_nat n -> nextStart i <= j.
Proof.
  induction n as [|n IH]; intros i j Hi Hj Hlen Hij Hn.
  - apply instrStart_nonneg in Hi. lia.
  - destruct (instrStart_inv j Hj) as [->|(j0 & Hj0 & Hlen0 & ->)].
    + apply instrStart_nonneg in Hi. lia.
    + pose proof (nextStart_gt j0) as Hgt.
      destruct (Z.lt_trichotomy i j0) as [Hlt|[->|Hlt]].
      * pose proof (IH i j0 Hi Hj0 Hlen Hlt ltac:(lia)). lia.
      * lia.
      * pose proof (IH j0 i Hj0 Hi Hlen0 Hlt ltac:(lia)). lia.
Qed.

Lemma instrStart_not_inPushData j :
  instrStart vm code j -> ~ inPushData vm code j.
Proof.
  intros Hj (i & Hi & Hlen & Hp & Hij).
  pose proof (instrStart_nonneg j Hj) as H0.
  assert (Hn : nextStart i <= j).
  { apply (instrStart_chain (Z.to_nat j)); [done|done|done|lia|lia]. }
  unfold Interpreter.nextStart in Hn. unfold isPush in Hp. rewrite Hp in Hn.
  simpl in Hn. lia.
Qed.

(** The loop invariant: the array holds exactly the targets before the
    cursor, and the cursor is at an instruction start. *)
Lemma scanJumpDests_spec (fuel : nat) : forall i jumps,
  instrStart vm code i ->
  (forall j, j ∈ jumps <-> jumpTarget j /\ j < i) ->
  Z.max 0 (len - i) < Z.of_nat fuel ->
  exists result,
    scanJumpDests vm fuel code i jumps = Some result /\
    forall j, j ∈ result <-> jumpTarget j.
Proof.
  induction fuel as [|fuel IH]; intros i jumps Hi Hinv Hfuel; [lia|].
  cbn [scanJumpDests]. fold len.
  destruct (Z.ltb_spec i len) as [Hlt|Hge].
  - pose proof (nextStart_gt i) as Hgt.
    pose proof (instrStart_next i Hi Hlt) as Hnext.
    pose proof (instrStart_nonneg i Hi) as Hnn.
    assert (Hbetween : forall j, jumpTarget j -> j < nextStart i ->
                                 j < i \/ j = i).
    { intros j (_ & _ & Hj) Hjn.
      destruct (Z.lt_trichotomy j i) as [?|[?|Hlt']]; [by left|by right|].
      pose proof (instrStart_nonneg j Hj).
      assert (nextStart i <= j); [|lia].
      apply (instrStart_chain (Z.to_nat j)); [done|done|done|done|lia]. }
    unfold Interpreter.nextStart in Hgt, Hnext, Hbetween.
    destruct (String.eqb
      (Opcode.name (lookupOpInfo vm (readByte code i))) "PUSH") eqn:E.
    + apply String.eqb_eq in E. rewrite E.
      unfold pushWidth in Hgt, Hnext, Hbetween.
      change (String.eqb "PUSH" "JUMPDEST") with false.
      cbv iota.
      apply (IH _ jumps); [exact Hnext| |lia].
      intros j. rewrite Hinv. split.
      * intros [Hj Hji]. split; [done|lia].
      * intros [Hj Hjn]. split; [done|].
        destruct (Hbetween j Hj Hjn) as [?| ->]; [done|].
        destruct Hj as (_ & Hjd & _). unfold isJumpDest in Hjd.
        congruence.
    + destruct (String.eqb_spec
        (Opcode.name (lookupOpInfo vm (readByte code i))) "JUMPDEST")
        as [J|J].
      * apply (IH _ (jumps ++ [i])); [exact Hnext| |lia].
        intros j. rewrite elem_of_app, list_elem_of_singleton, Hinv. split.
        -- intros [[Hj Hji]| ->]; [split; [done|lia]|].
           split; [|lia]. by repeat split; try lia.
        -- intros [Hj Hjn].
           destruct (Hbetween j Hj Hjn) as [?| ->]; [by left|by right].
      * apply (IH _ jumps); [exact Hnext| |lia].
        intros j. rewrite Hinv. split.
        -- intros [Hj Hji]. split; [done|lia].
        -- intros [Hj Hjn]. split; [done|].
           destruct (Hbetween j Hj Hjn) as [?| ->]; [done|].
           by destruct Hj as (_ & Hjd & _).
  - exists jumps. split; [done|].
    intros j. rewrite Hinv. split; [by intros [? _]|].
    intros Hj. split; [done|]. destruct Hj as ((_ & ?) & _). lia.
Qed.
End PreScan.

(** C4.  With an opcode table whose PUSH entries are the bytes 0x60..0x7f,
    the pre-scan of any code ends (within [length code + 1] iterations)
    and every offset it returns is inside the code, holds a byte that
    decodes as JUMPDEST, and is not an immediate byte of any PUSH-N
    instruction; the offsets returned are exactly the JUMPDEST bytes that
    begin an instruction. *)
Theorem validJumps_are_jumpdests_outside_push (vm : VM.t) (code : Buffer)
    (fuel : nat) :
  Interpreter.pushTable vm ->
  (length code < fuel)%nat ->
  exists jumps,
    Interpreter._getValidJumpDests vm fuel code = Some jumps /\
    (forall j, j ∈ jumps ->
       0 <= j < Z.of_nat (length code) /\
       Interpreter.isJumpDest vm code j /\
       ~ Interpreter.inPushData vm code j) /\
    (forall j, j ∈ jumps <-> Interpreter.jumpTarget vm code j).
Proof.
  intros Htable Hfuel.
  destruct (scanJumpDests_spec vm code Htable fuel 0 [])
    as (jumps & Hrun & Hall).
  - constructor.
  - intros j. split; [by intros ?%elem_of_nil|].
    intros [(? & _) ?]. lia.
  - lia.
  - exists jumps. split; [exact Hrun|]. split; [|exact Hall].
    intros j Hj. apply Hall in Hj. destruct Hj as (Hr & Hjd & Hst).
    split; [done|]. split; [done|].
    by apply instrStart_not_inPushData.
Qed.

(** The sample table names PUSH exactly the bytes 0x60..0x7f. *)
Lemma sample_pushTable iface : Interpreter.pushTable (Sample.mkHost iface).
Proof.
  intros b. unfold Interpreter.lookupOpInfo. cbn [VM._opcodes Sample.mkHost].
  destruct ((0 <=? b) && (b <? 256)) eqn:Hrange; cbn [default].
  - unfold Sample._opcodes, Sample.op.
    repeat (match goal with
            | |- context [if ?c then _ else _] => destruct c eqn:?
            end; cbn [Opcode.name default Interpreter.INVALID];
            try discriminate); lia.
  - vm_compute. discriminate.
Qed.

Lemma validJumps_are_jumpdests_outside_push_witness :
  Interpreter.pushTable Sample.host /\
  (length [0x60; 0x5b; 0x5b; 0x00] < 5)%nat /\
  exists jumps,
    Interpreter._getValidJumpDests Sample.host 5 [0x60; 0x5b; 0x5b; 0x00]
      = Some jumps /\
    (forall j, j ∈ jumps ->
       0 <= j < Z.of_nat (length [0x60; 0x5b; 0x5b; 0x00]) /\
       Interpreter.isJumpDest Sample.host [0x60; 0x5b; 0x5b; 0x00] j /\
       ~ Interpreter.inPushData Sample.host [0x60; 0x5b; 0x5b; 0x00] j) /\
    (forall j, j ∈ jumps <->
       Interpreter.jumpTarget Sample.host [0x60; 0x5b; 0x5b; 0x00] j).
Proof.
  split; [apply sample_pushTable|].
  split; [simpl; lia|].
  apply validJumps_are_jumpdests_outside_push;
    [apply sample_pushTable|simpl; lia].
Defined.

(** On that code the scan returns the JUMPDEST at offset 2 and not the
    0x5b at offset 1, which is the immediate byte of the PUSH1. *)
Example validJumps_sample :
  Interpreter._getValidJumpDests Sample.host 5 [0x60; 0x5b; 0x5b; 0x00]
  = Some [2].
Proof. reflexivity. Qed.

(** ** The executor: gas and refund after an interpreter run *)

Lemma errorIs_false (e : Exception) (x : ERROR) :
  errorIs e x = false <-> e <> VmError x.
Proof.
  destruct e as [k|]; simpl; [|by split].
  rewrite bool_decide_eq_false. split; [congruence|].
  intros H ->. by apply H.
Qed.

(** C1.  Whenever the interpreter returns for the code of a message,
    [runInterpreter] returns a result that carries the interpreter's
    [exceptionError] and, in [gas], the gas the EEI has left.  If that
    error is anything but REVERT, [gasUsed] is the message's [gasLimit];
    if it is REVERT (or there is no error), [gasUsed] is [gasLimit] minus
    the gas left; and with any error the refund accumulator is what it
    was before the run. *)
Theorem runInterpreter_gas_and_refund (vm : VM.t) (fuel : nat)
    (exec : Message.t -> EVMState.t -> Outcome EVMResult.t)
    (message : Message.t) (c : Code) (s : EVMState.t)
    (interpreterRes : Interpreter.InterpreterResult) (s1 : EVMState.t) :
  Message.code message = Some c ->
  EVM.interpret vm fuel exec message c s = Returned interpreterRes s1 ->
  let gasLeft :=
    EEI._gasLeft (RunState.eei (Interpreter.runState interpreterRes)) in
  exists result s',
    EVM.runInterpreter vm fuel exec message s = Returned result s' /\
    ExecResult.exceptionError result
      = Interpreter.exceptionError interpreterRes /\
    ExecResult.gas result = Some gasLeft /\
    (forall e, ExecResult.exceptionError result = Some e ->
               e <> VmError REVERT ->
               ExecResult.gasUsed result = Message.gasLimit message) /\
    (ExecResult.exceptionError result = Some (VmError REVERT) ->
       ExecResult.gasUsed result = Message.gasLimit message - gasLeft) /\
    (is_Some (ExecResult.exceptionError result) ->
       EVMState._refund s' = EVMState._refund s) /\
    (ExecResult.exceptionError result = None ->
       ExecResult.gasUsed result = Message.gasLimit message - gasLeft /\
       EVMState._refund s' = EVMState._refund s1).
Proof.
  intros Hc Hint gasLeft. unfold EVM.runInterpreter. rewrite Hc, Hint.
  cbn [bindO]. subst gasLeft.
  destruct (Interpreter.exceptionError interpreterRes) as [e|] eqn:He;
    eexists _, _; (split; [reflexivity|]); cbn.
  - repeat split; try done.
    + intros e' [= <-] Hne. apply errorIs_false in Hne. by rewrite Hne.
    + intros [= ->]. reflexivity.
  - repeat split; done.
Qed.

Lemma runInterpreter_gas_and_refund_witness :
  exists interpreterRes s1 result s',
    Message.code (Sample.codeMessage [0x60; 0; 0x60; 0; 0xfd] 21000)
      = Some (CodeBytes [0x60; 0; 0x60; 0; 0xfd]) /\
    EVM.interpret Sample.host 20 (EVM.executeMessage Sample.host 20)
      (Sample.codeMessage [0x60; 0; 0x60; 0; 0xfd] 21000)
      (CodeBytes [0x60; 0; 0x60; 0; 0xfd]) Sample.executor7
      = Returned interpreterRes s1 /\
    EVM.runInterpreter Sample.host 20 (EVM.executeMessage Sample.host 20)
      (Sample.codeMessage [0x60; 0; 0x60; 0; 0xfd] 21000) Sample.executor7
      = Returned result s' /\
    ExecResult.exceptionError result = Some (VmError REVERT) /\
    ExecResult.gas result = Some 20994 /\
    ExecResult.gasUsed result = 21000 - 20994 /\
    EVMState._refund s' = 7.
Proof.
  eexists _, _, _, _.
  split; [reflexivity|]. split; [vm_compute; reflexivity|].
  edestruct (runInterpreter_gas_and_refund Sample.host 20
               (EVM.executeMessage Sample.host 20)
               (Sample.codeMessage [0x60; 0; 0x60; 0; 0xfd] 21000)
               (CodeBytes [0x60; 0; 0x60; 0; 0xfd]) Sample.executor7)
    as (result & s' & Hrun & He & Hgas & _ & Hrevert & Hrefund & _);
    [reflexivity|vm_compute; reflexivity|].
  vm_compute in Hrun. injection Hrun as <- <-.
  split; [vm_compute; reflexivity|]. by repeat split.
Defined.

(** Scenario 4 of the specification: PUSH1 0; PUSH1 0; REVERT gives the
    error REVERT, leaves gas, and uses [gasLimit] minus what is left. *)
Example revert_returns_unused_gas :
  exists result s',
    EVM.runInterpreter Sample.host 20 (EVM.executeMessage Sample.host 20)
      (Sample.codeMessage [0x60; 0; 0x60; 0; 0xfd] 21000) Sample.executor7
      = Returned result s' /\
    ExecResult.exceptionError result = Some (VmError REVERT) /\
    ExecResult.gas result = Some 20994 /\
    ExecResult.gasUsed result = 6 /\
    ExecResult.returnValue result = [] /\
    EVMState._refund s' = 7.
Proof. eexists _, _. split; [vm_compute; reflexivity|]. by repeat split. Qed.

(** Scenario 3 of the specification: PUSH1 3; JUMP; STOP; JUMPDEST jumps to
    an offset that is no JUMPDEST and uses the whole [gasLimit]. *)
Example invalid_jump_uses_all_gas :
  exists result s',
    EVM.runInterpreter Sample.host 20 (EVM.executeMessage Sample.host 20)
      (Sample.codeMessage [0x60; 3; 0x56; 0x00; 0x5b] 21000) Sample.executor7
      = Returned result s' /\
    ExecResult.exceptionError result = Some (VmError INVALID_JUMP) /\
    ExecResult.gasUsed result = 21000 /\
    EVMState._refund s' = 7.
Proof. eexists _, _. split; [vm_compute; reflexivity|]. by repeat split. Qed.

(** ** The executor: calls *)

(** [_addToBalance] raises exactly when the sum exceeds [MAX_INTEGER], and
    what it raises is VALUE_OVERFLOW. *)
Lemma addToBalance_overflow (toAccount : Account.t) (message : Message.t)
    (s : EVMState.t) :
  ((exists e, EVM._addToBalance toAccount message s = inl e) <->
   MAX_INTEGER < Account.balance toAccount + Message.value message) /\
  (forall e, EVM._addToBalance toAccount message s = inl e ->
             e = VmError VALUE_OVERFLOW).
Proof.
  unfold EVM._addToBalance.
  destruct (Z.ltb_spec MAX_INTEGER
              (Account.balance toAccount + Message.value message)).
  - split; [|by intros e [= <-]]. split; [done|]. by eexists.
  - split; [|by intros e ?]. split; [by intros [e ?]|lia].
Qed.

Lemma tryAddToBalance_error (toAccount : Account.t) (message : Message.t)
    (s : EVMState.t) :
  (is_Some (EVM.tryAddToBalance toAccount message s).1 <->
   MAX_INTEGER < Account.balance toAccount + Message.value message) /\
  (is_Some (EVM.tryAddToBalance toAccount message s).1 ->
   (EVM.tryAddToBalance toAccount message s).1
   = Some (VmError VALUE_OVERFLOW)).
Proof.
  destruct (addToBalance_overflow toAccount message s) as [Hiff Hkind].
  unfold EVM.tryAddToBalance.
  destruct (EVM._addToBalance toAccount message s) as [e|s'] eqn:E; cbn.
  - rewrite (Hkind e eq_refl). split; [|done].
    rewrite <- Hiff. split; intros _; by eexists.
  - split; [|by intros [? ?]]. rewrite <- Hiff.
    split; [by intros [? ?]|by intros [? ?]].
Qed.

Lemma loadCode_total (vm : VM.t) (message : Message.t) (to : Buffer)
    (s : EVMState.t) :
  Message.to message = Some to ->
  exists message1, EVM._loadCode vm message s = Some message1.
Proof.
  intros Hto. unfold EVM._loadCode, Message.codeAddress. rewrite Hto.
  destruct (Message.code message); [by eexists|].
  destruct (Message._codeAddress message) as [a|].
  - destruct (VM.getPrecompile vm a); by eexists.
  - destruct (VM.getPrecompile vm to); by eexists.
Qed.

(** The early exit of [_executeCall], whatever the executor and the fuel. *)
Lemma executeCall_exits_early (vm : VM.t) (fuel : nat)
    (exec : Message.t -> EVMState.t -> Outcome EVMResult.t)
    (message message1 : Message.t) (to : Buffer) (s : EVMState.t) :
  Message.to message = Some to ->
  EVM._loadCode vm message (EVM.transferValue message to s).2
    = Some message1 ->
  EVM.noCode message1 = true \/ is_Some (EVM.transferValue message to s).1 ->
  EVM._executeCall vm fuel exec message s
  = Returned (EVM.earlyResult None (EVM.transferValue message to s).1,
              message1)
             (EVM.transferValue message to s).2.
Proof.
  intros Hto Hload Hearly. unfold EVM._executeCall. rewrite Hto.
  destruct (EVM.transferValue message to s) as [err s2] eqn:Ht.
  cbn [fst snd] in *. rewrite Hload.
  destruct Hearly as [-> | Herr]; [done|].
  rewrite (bool_decide_eq_true_2 _ Herr). by rewrite orb_true_r.
Qed.

(** C7.  In [_executeCall] the code of the callee always resolves, and if
    it is empty or the credit of the value failed, the call returns at
    once: zero gas used, empty return value, and as [exceptionError] the
    error of the credit (none if it did not fail).  The credit is
    attempted unless the message is a delegatecall, on the callee's
    account as read after the caller was debited, and it fails, with
    VALUE_OVERFLOW, exactly when that balance plus the value exceeds
    [MAX_INTEGER = 2^256 - 1]. *)
Theorem executeCall_early_exit (vm : VM.t) (fuel : nat)
    (exec : Message.t -> EVMState.t -> Outcome EVMResult.t)
    (message : Message.t) (to : Buffer) (s : EVMState.t) :
  Message.to message = Some to ->
  let errorMessage := (EVM.transferValue message to s).1 in
  let s2 := (EVM.transferValue message to s).2 in
  let debited :=
    if Message.delegatecall message then s
    else EVM._reduceSenderBalance
           (StateManager.getAccount (Message.caller message)
              (EVMState._state s)) message s in
  let toAccount := StateManager.getAccount to (EVMState._state debited) in
  (exists message1,
     EVM._loadCode vm message s2 = Some message1 /\
     (EVM.noCode message1 = true \/ is_Some errorMessage ->
      exists result,
        EVM._executeCall vm fuel exec message s
          = Returned (result, message1) s2 /\
        EVMResult.gasUsed result = 0 /\
        ExecResult.gasUsed (EVMResult.execResult result) = 0 /\
        ExecResult.returnValue (EVMResult.execResult result) = [] /\
        ExecResult.exceptionError (EVMResult.execResult result)
          = errorMessage)) /\
  (is_Some errorMessage <->
     Message.delegatecall message = false /\
     MAX_INTEGER < Account.balance toAccount + Message.value message) /\
  (is_Some errorMessage -> errorMessage = Some (VmError VALUE_OVERFLOW)) /\
  (Message.caller message <> to ->
     Account.balance toAccount
     = Account.balance (StateManager.getAccount to (EVMState._state s))).
Proof.
  intros Hto errorMessage s2 debited toAccount.
  split; [|split; [|split]].
  - destruct (loadCode_total vm message to s2 Hto) as [message1 Hload].
    exists message1. split; [done|]. intros Hearly.
    exists (EVM.earlyResult None errorMessage).
    split; [|by repeat split].
    by apply executeCall_exits_early.
  - subst errorMessage toAccount debited. unfold EVM.transferValue.
    destruct (Message.delegatecall message).
    + cbn. split; [by intros [? ?]|by intros [? _]].
    + rewrite (proj1 (tryAddToBalance_error _ _ _)).
      split; [by split|by intros [_ ?]].
  - subst errorMessage. unfold EVM.transferValue.
    destruct (Message.delegatecall message); [by intros [? ?]|].
    apply tryAddToBalance_error.
  - intros Hne. subst toAccount debited.
    destruct (Message.delegatecall message); [done|].
    unfold EVM._reduceSenderBalance, StateManager.getAccount. cbn.
    by rewrite lookup_insert_ne.
Qed.

Lemma executeCall_early_exit_witness :
  Message.to (Sample.message (Some Sample.bob) Sample.alice 5 21000 [] 1)
  = Some Sample.bob /\
  exists message1 result s2,
    EVM._loadCode Sample.host
      (Sample.message (Some Sample.bob) Sample.alice 5 21000 [] 1) s2
      = Some message1 /\
    EVM.noCode message1 = true /\
    EVM._executeCall Sample.host 20 (EVM.executeMessage Sample.host 20)
      (Sample.message (Some Sample.bob) Sample.alice 5 21000 [] 1)
      (EVMState.fresh (Sample.funded Sample.alice 100 Sample.emptyState))
      = Returned (result, message1) s2 /\
    EVMResult.gasUsed result = 0 /\
    ExecResult.returnValue (EVMResult.execResult result) = [] /\
    ExecResult.exceptionError (EVMResult.execResult result) = None /\
    Account.balance
      (StateManager.getAccount Sample.alice (EVMState._state s2)) = 95 /\
    Account.balance
      (StateManager.getAccount Sample.bob (EVMState._state s2)) = 5.
Proof.
  split; [reflexivity|].
  destruct (executeCall_early_exit Sample.host 20
              (EVM.executeMessage Sample.host 20)
              (Sample.message (Some Sample.bob) Sample.alice 5 21000 [] 1)
              Sample.bob
              (EVMState.fresh
                 (Sample.funded Sample.alice 100 Sample.emptyState))
              eq_refl)
    as ((message1 & Hload & Hexit) & _).
  assert (Hno : EVM.noCode message1 = true).
  { vm_compute in Hload. injection Hload as <-. reflexivity. }
  destruct (Hexit (or_introl Hno)) as (result & Hrun & Hg & _ & Hr & He).
  exists message1, result. eexists. split; [exact Hload|].
  split; [exact Hno|]. split; [exact Hrun|].
  split; [exact Hg|]. split; [exact Hr|]. split; [exact He|].
  split; reflexivity.
Defined.

(** The same call when the callee cannot hold the value: the credit fails,
    and the call returns at once with VALUE_OVERFLOW although the callee
    has code. *)
Example executeCall_overflow :
  EVM._executeCall Sample.host 20 (EVM.executeMessage Sample.host 20)
    (Sample.message (Some Sample.bob) Sample.alice 5 21000 [] 1)
    (EVMState.fresh
       (StateManager.putContractCode Sample.bob [0x00] Sample.richState))
  = Returned
      (EVM.earlyResult None (Some (VmError VALUE_OVERFLOW)),
       Message.set_code (Some (CodeBytes [0x00])) false
         (Sample.message (Some Sample.bob) Sample.alice 5 21000 [] 1))
      (EVMState.fresh
         (StateManager.putContractCode Sample.bob [0x00]
            (Sample.funded Sample.alice 95 Sample.richState))).
Proof. vm_compute. reflexivity. Qed.

(** ** The executor: creations *)

(** Debiting the caller changes balances only. *)
Lemma reduceSenderBalance_account (account : Account.t) (message : Message.t)
    (s : EVMState.t) (addr : Buffer) :
  account = StateManager.getAccount (Message.caller message)
              (EVMState._state s) ->
  let acc' := StateManager.getAccount addr
                (EVMState._state (EVM._reduceSenderBalance account message s)) in
  let acc := StateManager.getAccount addr (EVMState._state s) in
  Account.nonce acc' = Account.nonce acc /\
  Account.codeHash acc' = Account.codeHash acc.
Proof.
  intros ->. unfold EVM._reduceSenderBalance, StateManager.getAccount. cbn.
  destruct (decide (Message.caller message = addr)) as [->|Hne].
  - by rewrite lookup_insert_eq.
  - by rewrite lookup_insert_ne.
Qed.

Lemma reduceSenderBalance_storage (account : Account.t) (message : Message.t)
    (s : EVMState.t) :
  StateManager.contractStorage
    (StateManager.world
       (EVMState._state (EVM._reduceSenderBalance account message s)))
  = StateManager.contractStorage (StateManager.world (EVMState._state s)).
Proof. reflexivity. Qed.

(** The generated address is a function of the storage alone. *)
Lemma generateAddress_storage (vm : VM.t) (m m' : Message.t)
    (s s' : EVMState.t) :
  StateManager.contractStorage (StateManager.world (EVMState._state s))
  = StateManager.contractStorage (StateManager.world (EVMState._state s')) ->
  EVM._generateAddress vm m s = EVM._generateAddress vm m' s'.
Proof.
  intros H. unfold EVM._generateAddress, StateManager.getContractStorage.
  by rewrite H.
Qed.

Lemma createPrologue_to (vm : VM.t) (message : Message.t) (s : EVMState.t) :
  Message.to (EVM.createPrologue vm message s).1
  = Some (EVM._generateAddress vm message s).
Proof.
  unfold EVM.createPrologue. cbn [fst Message.to Message.set_to].
  reflexivity.
Qed.

(** C6.  If the account at the generated address has a nonce above zero or
    a code hash other than that of the empty code, [_executeCreate]
    returns CREATE_COLLISION with the whole [gasLimit] as gas used, after
    nothing but the debit of the caller.  This holds for every fuel,
    zero included, and every executor behind the handlers: the init code
    is not run. *)
Theorem executeCreate_collision (vm : VM.t) (fuel : nat)
    (exec : Message.t -> EVMState.t -> Outcome EVMResult.t)
    (message : Message.t) (s : EVMState.t) :
  let to := EVM._generateAddress vm message s in
  let toAccount := StateManager.getAccount to (EVMState._state s) in
  0 < Account.nonce toAccount \/ Account.codeHash toAccount <> KECCAK256_NULL ->
  exists result message',
    EVM._executeCreate vm fuel exec message s
    = Returned (result, message')
        (EVM._reduceSenderBalance
           (StateManager.getAccount (Message.caller message)
              (EVMState._state s)) message s) /\
    ExecResult.exceptionError (EVMResult.execResult result)
      = Some (VmError CREATE_COLLISION) /\
    EVMResult.gasUsed result = Message.gasLimit message /\
    ExecResult.gasUsed (EVMResult.execResult result)
      = Message.gasLimit message /\
    ExecResult.returnValue (EVMResult.execResult result) = [] /\
    EVMResult.createdAddress result = Some to.
Proof.
  intros to toAccount Hcollide.
  unfold EVM._executeCreate.
  pose proof (createPrologue_to vm message s) as Hto.
  destruct (EVM.createPrologue vm message s) as [message3 s1] eqn:Hpro.
  cbn [fst] in Hto.
  assert (Hs1 : s1 = EVM._reduceSenderBalance
                       (StateManager.getAccount (Message.caller message)
                          (EVMState._state s)) message s).
  { unfold EVM.createPrologue in Hpro. by injection Hpro as _ <-. }
  assert (Hgas : Message.gasLimit message3 = Message.gasLimit message).
  { unfold EVM.createPrologue in Hpro. by injection Hpro as <- _. }
  rewrite Hto. unfold default. cbn [from_option id]. fold to.
  assert (Hc : EVM.collides (StateManager.getAccount to (EVMState._state s1))
               = true).
  { rewrite Hs1.
    destruct (reduceSenderBalance_account _ message s to eq_refl) as [Hn Hh].
    unfold EVM.collides. rewrite Hn, Hh. fold toAccount.
    destruct Hcollide as [Hnonce|Hhash].
    - by rewrite (proj2 (Z.ltb_lt _ _) Hnonce).
    - rewrite (bool_decide_eq_false_2 _ Hhash). by rewrite orb_true_r. }
  rewrite Hc. exists (EVM.collisionResult message3), message3.
  rewrite <- Hs1. split; [done|]. cbn. by rewrite Hto, Hgas.
Qed.

Lemma executeCreate_collision_witness :
  (0 < Account.nonce
         (StateManager.getAccount
            (EVM._generateAddress Sample.host
               (Sample.createMessage 0 50000 [0x00])
               (EVMState.fresh
                  (Sample.withNonce Sample.bob 1
                     (Sample.creating Sample.bob Sample.emptyState))))
            (Sample.withNonce Sample.bob 1
               (Sample.creating Sample.bob Sample.emptyState)))) /\
  exists result message' s',
    EVM._executeCreate Sample.host 0 (fun _ _ => Diverged)
      (Sample.createMessage 0 50000 [0x00])
      (EVMState.fresh
         (Sample.withNonce Sample.bob 1
            (Sample.creating Sample.bob Sample.emptyState)))
    = Returned (result, message') s' /\
    ExecResult.exceptionError (EVMResult.execResult result)
      = Some (VmError CREATE_COLLISION) /\
    EVMResult.gasUsed result = 50000 /\
    EVMResult.createdAddress result = Some Sample.bob.
Proof.
  split; [vm_compute; reflexivity|].
  destruct (executeCreate_collision Sample.host 0 (fun _ _ => Diverged)
              (Sample.createMessage 0 50000 [0x00])
              (EVMState.fresh
                 (Sample.withNonce Sample.bob 1
                    (Sample.creating Sample.bob Sample.emptyState))))
    as (result & message' & Hrun & He & Hg & _ & _ & Ha).
  { left. vm_compute. reflexivity. }
  exists result, message'. eexists. split; [exact Hrun|].
  split; [exact He|]. split; [exact Hg|]. exact Ha.
Defined.

(** [finishCreate] returns, and the error it reports is the interpreter's or
    the OUT_OF_GAS of the code-deposit check. *)
Lemma finishCreate_error (vm : VM.t) (message : Message.t)
    (result : ExecResult.t) (s : EVMState.t) :
  exists result' s',
    EVM.finishCreate vm message result s = Returned (result', message) s' /\
    (ExecResult.exceptionError (EVMResult.execResult result')
       = ExecResult.exceptionError result \/
     ExecResult.exceptionError (EVMResult.execResult result')
       = Some (VmError OUT_OF_GAS)).
Proof.
  unfold EVM.finishCreate. eexists _, _. split; [reflexivity|].
  cbn [EVMResult.execResult].
  match goal with |- context [if ?c then _ else _] => destruct c end.
  - by left.
  - by right.
Qed.

(** C10.  In a creation that does not collide, the error caught around the
    credit of the value (always VALUE_OVERFLOW, and nothing is written to
    the new account when it occurs) reaches the result only when the init
    code is empty.  With non-empty init code the creation is the
    interpreter run on the state the failed credit left, followed by the
    code-deposit step: the error of the credit appears nowhere, and the
    error reported is the interpreter's or OUT_OF_GAS.  [_executeCall], by
    contrast, returns at once with the error of the credit whatever code
    the callee has. *)
Theorem executeCreate_discards_credit_error (vm : VM.t) (fuel : nat)
    (exec : Message.t -> EVMState.t -> Outcome EVMResult.t)
    (message : Message.t) (s : EVMState.t) :
  let message3 := (EVM.createPrologue vm message s).1 in
  let s1 := (EVM.createPrologue vm message s).2 in
  let to := EVM._generateAddress vm message s in
  let errorMessage := (EVM.createAccount vm message3 to s1).1 in
  let s3 := (EVM.createAccount vm message3 to s1).2 in
  EVM.collides (StateManager.getAccount to (EVMState._state s1)) = false ->
  (Message.data message = [] ->
     EVM._executeCreate vm fuel exec message s
     = Returned (EVM.earlyResult (Some to) errorMessage, message3) s3) /\
  (Message.data message <> [] ->
     EVM._executeCreate vm fuel exec message s
     = bindO (EVM.runInterpreter vm fuel exec message3 s3)
             (EVM.finishCreate vm message3) /\
     forall result s4,
       EVM.runInterpreter vm fuel exec message3 s3 = Returned result s4 ->
       exists result' s',
         EVM._executeCreate vm fuel exec message s
         = Returned (result', message3) s' /\
         (ExecResult.exceptionError (EVMResult.execResult result')
            = ExecResult.exceptionError result \/
          ExecResult.exceptionError (EVMResult.execResult result')
            = Some (VmError OUT_OF_GAS))) /\
  (is_Some errorMessage ->
     errorMessage = Some (VmError VALUE_OVERFLOW) /\
     s3 = EVMState.on_state (StateManager.clearContractStorage to) s1) /\
  (forall (callMessage message1 : Message.t) (callee : Buffer)
          (s0 : EVMState.t),
     Message.to callMessage = Some callee ->
     EVM._loadCode vm callMessage (EVM.transferValue callMessage callee s0).2
       = Some message1 ->
     is_Some (EVM.transferValue callMessage callee s0).1 ->
     EVM._executeCall vm fuel exec callMessage s0
     = Returned
         (EVM.earlyResult None (EVM.transferValue callMessage callee s0).1,
          message1)
         (EVM.transferValue callMessage callee s0).2).
Proof.
  intros message3 s1 to errorMessage s3 Hfree.
  assert (Hcreate :
    EVM._executeCreate vm fuel exec message s
    = if EVM.noCode message3
      then Returned (EVM.earlyResult (Some to) errorMessage, message3) s3
      else bindO (EVM.runInterpreter vm fuel exec message3 s3)
                 (EVM.finishCreate vm message3)).
  { unfold EVM._executeCreate.
    pose proof (createPrologue_to vm message s) as Hto.
    subst message3 s1 errorMessage s3.
    destruct (EVM.createPrologue vm message s) as [m3 s1'] eqn:Hpro.
    cbn [fst snd] in *. rewrite Hto. unfold default. cbn [from_option id].
    fold to. rewrite Hfree.
    by destruct (EVM.createAccount vm m3 to s1'). }
  assert (Hno : EVM.noCode message3
                = bool_decide (Message.data message = [])).
  { subst message3. unfold EVM.createPrologue, EVM.noCode. cbn.
    destruct (Message.data message); by cbn. }
  split; [|split; [|split]].
  - intros Hdata. rewrite Hcreate, Hno. by rewrite bool_decide_eq_true_2.
  - intros Hdata. rewrite Hcreate, Hno.
    rewrite (bool_decide_eq_false_2 _ Hdata). split; [done|].
    intros result s4 ->. cbn [bindO].
    apply finishCreate_error.
  - subst errorMessage s3. unfold EVM.createAccount.
    match goal with
    | |- context [EVM.tryAddToBalance ?a ?m ?st] =>
        pose proof (tryAddToBalance_error a m st) as [_ Hkind];
        unfold EVM.tryAddToBalance in *;
        destruct (EVM._addToBalance a m st)
    end.
    + intros H. split; [by apply Hkind|done].
    + by intros [? ?].
  - intros callMessage message1 callee s0 Hto Hload Herr.
    apply executeCall_exits_early; auto.
Qed.

Lemma executeCreate_discards_credit_error_witness :
  EVM.collides
    (StateManager.getAccount
       (EVM._generateAddress Sample.host (Sample.createMessage 5 50000 [0x00])
          (EVMState.fresh (Sample.creating Sample.bob Sample.richState)))
       (EVMState._state
          (EVM.createPrologue Sample.host
             (Sample.createMessage 5 50000 [0x00])
             (EVMState.fresh
                (Sample.creating Sample.bob Sample.richState))).2))
  = false /\
  exists result message3 s',
    EVM._executeCreate Sample.host 20 (EVM.executeMessage Sample.host 20)
      (Sample.createMessage 5 50000 [0x00])
      (EVMState.fresh (Sample.creating Sample.bob Sample.richState))
    = Returned (result, message3) s' /\
    (EVM.createAccount Sample.host message3 Sample.bob
       (EVM.createPrologue Sample.host
          (Sample.createMessage 5 50000 [0x00])
          (EVMState.fresh (Sample.creating Sample.bob Sample.richState))).2).1
    = Some (VmError VALUE_OVERFLOW) /\
    ExecResult.exceptionError (EVMResult.execResult result) = None /\
    EVMResult.createdAddress result = Some Sample.bob /\
    Account.balance (StateManager.getAccount Sample.alice (EVMState._state s'))
    = 95 /\
    Account.balance (StateManager.getAccount Sample.bob (EVMState._state s'))
    = MAX_INTEGER - 3.
Proof.
  split; [vm_compute; reflexivity|].
  destruct (executeCreate_discards_credit_error Sample.host 20
              (EVM.executeMessage Sample.host 20)
              (Sample.createMessage 5 50000 [0x00])
              (EVMState.fresh (Sample.creating Sample.bob Sample.richState)))
    as (_ & Hrun & _ & _); [vm_compute; reflexivity|].
  destruct Hrun as [Hrun _]; [discriminate|].
  eexists _, _, _. split; [rewrite Hrun; vm_compute; reflexivity|].
  split; [vm_compute; reflexivity|]. by repeat split.
Defined.

(** ** The state-manager bridge *)

Lemma digitValue_hexDigit (n : Z) :
  0 <= n < 16 -> Sample.digitValue (Sample.hexDigit n) = Some n.
Proof.
  intros Hn.
  assert (Hcases : exists k : nat, (k < 16)%nat /\ n = Z.of_nat k).
  { exists (Z.to_nat n). lia. }
  destruct Hcases as (k & Hk & ->).
  do 16 (destruct k as [|k]; [reflexivity|]). lia.
Qed.

Lemma parseHex_hexOf (buf : Buffer) :
  Forall isByte buf -> Sample.parseHex (Sample.hexOf buf) = buf.
Proof.
  induction 1 as [|b rest Hb _ IH]; [reflexivity|].
  cbn [Sample.hexOf Sample.parseHex]. unfold isByte in Hb.
  rewrite !digitValue_hexDigit, IH.
  - f_equal. pose proof (Z.div_mod b 16). lia.
  - apply Z.mod_pos_bound. lia.
  - split; [apply Z.div_pos; lia|apply Z.div_lt_upper_bound; lia].
Qed.

(** The sample codec satisfies the round-trip property. *)
Lemma sample_hexRoundTrip iface : Host.hexRoundTrip (Sample.mkHost iface).
Proof. intros buf Hbuf. cbn. by apply parseHex_hexOf. Qed.

(** C9.  Whatever the address and slot strings are and whatever the state
    was: when the value string denotes 32 bytes, [setStorage] returns
    nothing, and [getStorage] at the same address and slot after it
    returns the one-element tuple holding the hex string of exactly those
    32 bytes (with a hex codec that reads back what it wrote, the string
    returned denotes the bytes that were stored); and [getStorage] of a
    slot that holds no value returns the hex string of 32 zero bytes. *)
Theorem bridge_storage_roundtrip (vm : VM.t) (address slot value : string)
    (st : StateManager.t) :
  let bytes := VM.fromHexString vm value in
  length bytes = 32%nat ->
  (OvmStateManager.setStorage vm address slot value st).1 = None /\
  (OvmStateManager.getStorage vm address slot
     (OvmStateManager.setStorage vm address slot value st).2).1
    = Some [VM.toHexString vm bytes] /\
  (Host.hexRoundTrip vm -> Forall isByte bytes ->
   forall returned,
     (OvmStateManager.getStorage vm address slot
        (OvmStateManager.setStorage vm address slot value st).2).1
       = Some [returned] ->
     VM.fromHexString vm returned = bytes) /\
  (default ∅ (StateManager.contractStorage (StateManager.world st)
                !! VM.fromHexString vm address)
     !! VM.fromHexString vm slot = None ->
   (OvmStateManager.getStorage vm address slot st).1
     = Some [VM.toHexString vm (zeros 32)]).
Proof.
  intros bytes Hlen.
  assert (Hget :
    (OvmStateManager.getStorage vm address slot
       (OvmStateManager.setStorage vm address slot value st).2).1
    = Some [VM.toHexString vm bytes]).
  { unfold OvmStateManager.getStorage, OvmStateManager.getStorageView,
      OvmStateManager.setStorage, StateManager.getContractStorage,
      StateManager.putContractStorage.
    cbn. rewrite lookup_insert_eq. cbn. rewrite lookup_insert_eq. cbn.
    fold bytes. rewrite Hlen. reflexivity. }
  split; [reflexivity|]. split; [exact Hget|]. split.
  - intros Hhex Hbytes returned Hret. rewrite Hget in Hret.
    injection Hret as <-. by apply Hhex.
  - intros Hunset.
    unfold OvmStateManager.getStorage, OvmStateManager.getStorageView,
      StateManager.getContractStorage.
    cbn. rewrite Hunset. reflexivity.
Qed.

Lemma bridge_storage_roundtrip_witness :
  length
    (VM.fromHexString Sample.host
       "0x3333333333333333333333333333333333333333333333333333333333333333")
  = 32%nat /\
  (OvmStateManager.getStorage Sample.host
     "0x1111111111111111111111111111111111111111"
     "0x2222222222222222222222222222222222222222222222222222222222222222"
     (OvmStateManager.setStorage Sample.host
        "0x1111111111111111111111111111111111111111"
        "0x2222222222222222222222222222222222222222222222222222222222222222"
        "0x3333333333333333333333333333333333333333333333333333333333333333"
        Sample.emptyState).2).1
  = Some
      [ "0x3333333333333333333333333333333333333333333333333333333333333333" ]
  /\
  (OvmStateManager.getStorage Sample.host
     "0x1111111111111111111111111111111111111111"
     "0x2222222222222222222222222222222222222222222222222222222222222222"
     Sample.emptyState).1
  = Some
      [ "0x0000000000000000000000000000000000000000000000000000000000000000" ].
Proof.
  split; [reflexivity|].
  destruct (bridge_storage_roundtrip Sample.host
              "0x1111111111111111111111111111111111111111"
              "0x2222222222222222222222222222222222222222222222222222222222222222"
              "0x3333333333333333333333333333333333333333333333333333333333333333"
              Sample.emptyState eq_refl) as (_ & Hget & _ & _).
  split; [exact Hget|].
  destruct (bridge_storage_roundtrip Sample.host
              "0x1111111111111111111111111111111111111111"
              "0x2222222222222222222222222222222222222222222222222222222222222222"
              "0x3333333333333333333333333333333333333333333333333333333333333333"
              Sample.emptyState eq_refl) as (_ & _ & _ & Hunset).
  exact (Hunset eq_refl).
Defined.

(** On the sample host the string that comes back denotes the 32 bytes
    that went in. *)
Example bridge_storage_bytes :
  forall returned,
    (OvmStateManager.getStorage Sample.host
       "0x1111111111111111111111111111111111111111"
       "0x2222222222222222222222222222222222222222222222222222222222222222"
       (OvmStateManager.setStorage Sample.host
          "0x1111111111111111111111111111111111111111"
          "0x2222222222222222222222222222222222222222222222222222222222222222"
          (Sample.toHexString (repeat 0x33 32)) Sample.emptyState).2).1
    = Some [returned] ->
    Sample.fromHexString returned = repeat 0x33 32.
Proof.
  intros returned Hret. vm_compute in Hret. by injection Hret as <-.
Qed.

(** The bridge writes through the state view's [put] operations only: the
    checkpoint stack is untouched, whether or not the call raises. *)
Lemma bridge_handlers_checkpoints (vm : VM.t) (name : string)
    (args : list string) (st st' : StateManager.t)
    (ret : OvmStateManager.Ret) :
  OvmStateManager._handlers vm name args st = Some (ret, st') ->
  StateManager.checkpoints st' = StateManager.checkpoints st.
Proof.
  unfold OvmStateManager._handlers. intros H.
  repeat match type of H with
         | (if ?c then _ else _) = _ => destruct c
         | match ?l with _ => _ end = _ => destruct l
         end;
    try discriminate; by injection H as _ <-.
Qed.

Lemma bridge_handleCall_checkpoints (vm : VM.t) (message : Message.t)
    (st : StateManager.t) :
  StateManager.checkpoints (OvmStateManager.handleCall vm message st).2
  = StateManager.checkpoints st.
Proof.
  unfold OvmStateManager.handleCall.
  destruct (Interface.getFunction _ _) as [fragment|]; [|done].
  destruct (Interface.decodeFunctionData _ _ _) as [args|]; [|done].
  destruct (OvmStateManager._handlers vm fragment args st)
    as [[ret st']|] eqn:Hh; [|done].
  apply bridge_handlers_checkpoints in Hh.
  by destruct (Interface.encodeFunctionResult _ _ _).
Qed.

(** What [enter] does to the executor: one checkpoint more, and the OVM
    result fields as they were. *)
Lemma enter_state (vm : VM.t) (message : Message.t) (s : EVMState.t) :
  let s2 := (EVM.enter vm message s).2 in
  StateManager.checkpoints (EVMState._state s2)
    = StateManager.world (EVMState._state s)
      :: StateManager.checkpoints (EVMState._state s) /\
  EVMState._targetMessageResult s2 = EVMState._targetMessageResult s /\
  EVMState._accountMessageResult s2 = EVMState._accountMessageResult s /\
  EVMState._refund s2 = EVMState._refund s /\
  (Message.depth message <> 0 ->
   (EVM.enter vm message s).1.1 = message /\
   StateManager.world (EVMState._state s2)
     = StateManager.world (EVMState._state s)).
Proof.
  unfold EVM.enter, EVM.ovmEntry.
  destruct (Z.eqb_spec (Message.depth message) 0) as [Hd|Hd].
  - repeat match goal with
           | |- context [if ?c then _ else _] => destruct c
           end; cbn; by repeat split.
  - repeat match goal with
           | |- context [if ?c then _ else _] => destruct c
           end; cbn; by repeat split.
Qed.

(** C3.  Take a message that, as dispatched (after the depth-0 rewrite),
    has a [to] that resolves to the contract named OVM_StateManager, and
    let the bridge hand back [bytes] for it.  Then [executeMessage]
    returns for every fuel from 1 on, with every opcode table and every
    handler set (so no interpreter step is taken): both [gasUsed] fields
    are zero, the [returnValue] is [bytes], the bridge's writes are
    committed, and the checkpoint stack is as at entry.  For a depth-0
    message the executor is taken to have no target result recorded yet,
    as it has when the transaction begins. *)
Theorem stateManager_call_bypasses_interpreter (vm : VM.t) (n : nat)
    (message : Message.t) (s : EVMState.t) (to bytes : Buffer)
    (st' : StateManager.t) :
  let message1 := (EVM.enter vm message s).1.1 in
  let s2 := (EVM.enter vm message s).2 in
  Message.to message1 = Some to ->
  EVM.isStateManager (EVM.resolveTarget vm to s2) = true ->
  OvmStateManager.handleCall vm message1 (EVMState._state s2)
    = (Some bytes, st') ->
  (Message.depth message1 = 0 -> EVMState._targetMessageResult s = None) ->
  exists result s',
    EVM.executeMessage vm (S n) message s = Returned result s' /\
    EVMResult.gasUsed result = 0 /\
    ExecResult.gasUsed (EVMResult.execResult result) = 0 /\
    ExecResult.returnValue (EVMResult.execResult result) = bytes /\
    StateManager.world (EVMState._state s') = StateManager.world st' /\
    StateManager.checkpoints (EVMState._state s')
      = StateManager.checkpoints (EVMState._state s).
Proof.
  intros message1 s2 Hto Hsm Hcall Hfresh.
  cbn [EVM.executeMessage]. unfold EVM.executeMessage_body.
  destruct (enter_state vm message s) as (Hchk & Htr & _ & _ & _).
  pose proof (bridge_handleCall_checkpoints vm message1 (EVMState._state s2))
    as Hbchk.
  subst message1 s2.
  destruct (EVM.enter vm message s) as [[message1 isTarget] s2].
  cbn [fst snd] in *.
  unfold EVM.dispatch. rewrite Hto, Hsm. unfold EVM.handleCall.
  rewrite Hcall in *. cbn [bindO snd] in *.
  unfold EVM.leave, EVM.settle, EVM.recordAccountMessage.
  cbn [EVM.bridgeResult EVMResult.execResult ExecResult.exceptionError
       EVMResult.set_execResult ExecResult.set_gasRefund].
  rewrite Hto.
  destruct (Z.eqb_spec (Message.depth message1) 0) as [Hd|Hd].
  - rewrite Hd. change (0 =? 1) with false. cbv iota.
    unfold EVM.reconcile.
    destruct isTarget; cbn.
    + eexists _, _. split; [reflexivity|]. cbn.
      rewrite Hbchk, Hchk. by repeat split.
    + rewrite Htr, (Hfresh Hd). eexists _, _. split; [reflexivity|]. cbn.
      rewrite Hbchk, Hchk. by repeat split.
  - destruct (Message.depth message1 =? 1);
      [destruct (negb _)|]; destruct isTarget;
      (eexists _, _; split; [reflexivity|]; cbn;
       rewrite Hbchk, Hchk; by repeat split).
Qed.

Lemma stateManager_call_bypasses_interpreter_witness :
  exists st',
    Message.to
      (EVM.enter Sample.host
         (Sample.message (Some Sample.SM_address) Sample.bob 0 1000
            Sample.setStorageData 1)
         (EVMState.fresh Sample.emptyState)).1.1
    = Some Sample.SM_address /\
    EVM.isStateManager
      (EVM.resolveTarget Sample.host Sample.SM_address
         (EVM.enter Sample.host
            (Sample.message (Some Sample.SM_address) Sample.bob 0 1000
               Sample.setStorageData 1)
            (EVMState.fresh Sample.emptyState)).2) = true /\
    OvmStateManager.handleCall Sample.host
      (EVM.enter Sample.host
         (Sample.message (Some Sample.SM_address) Sample.bob 0 1000
            Sample.setStorageData 1)
         (EVMState.fresh Sample.emptyState)).1.1
      (EVMState._state
         (EVM.enter Sample.host
            (Sample.message (Some Sample.SM_address) Sample.bob 0 1000
               Sample.setStorageData 1)
            (EVMState.fresh Sample.emptyState)).2)
    = (Some [], st') /\
    exists result s',
      EVM.executeMessage Sample.host 1
        (Sample.message (Some Sample.SM_address) Sample.bob 0 1000
           Sample.setStorageData 1)
        (EVMState.fresh Sample.emptyState)
      = Returned result s' /\
      EVMResult.gasUsed result = 0 /\
      ExecResult.gasUsed (EVMResult.execResult result) = 0 /\
      ExecResult.returnValue (EVMResult.execResult result) = [] /\
      StateManager.world (EVMState._state s') = StateManager.world st' /\
      StateManager.checkpoints (EVMState._state s') = [].
Proof.
  eexists. split; [reflexivity|]. split; [reflexivity|].
  split; [vm_compute; reflexivity|].
  apply (stateManager_call_bypasses_interpreter Sample.host 0
           (Sample.message (Some Sample.SM_address) Sample.bob 0 1000
              Sample.setStorageData 1)
           (EVMState.fresh Sample.emptyState) Sample.SM_address).
  - reflexivity.
  - reflexivity.
  - vm_compute; reflexivity.
  - discriminate.
Defined.

(** Scenario 6 of the specification: a call of the StateManager address
    with [setStorage(addr, key, value)] returns the empty tuple; a
    [getStorage(addr, key)] call after it returns the 32 bytes of the
    value. *)
Example stateManager_dispatch :
  exists r1 s1 r2 s2,
    EVM.executeMessage Sample.host 1
      (Sample.message (Some Sample.SM_address) Sample.bob 0 1000
         Sample.setStorageData 1)
      (EVMState.fresh Sample.emptyState) = Returned r1 s1 /\
    ExecResult.returnValue (EVMResult.execResult r1) = [] /\
    EVM.executeMessage Sample.host 1
      (Sample.message (Some Sample.SM_address) Sample.bob 0 1000
         Sample.getStorageData 1) s1 = Returned r2 s2 /\
    ExecResult.returnValue (EVMResult.execResult r2) = repeat 0x33 32.
Proof.
  eexists _, _, _, _. split; [vm_compute; reflexivity|].
  split; [reflexivity|]. split; [vm_compute; reflexivity|]. reflexivity.
Qed.

(** ** The executor: what the dispatch leaves of the message *)

Lemma loadCode_message (vm : VM.t) (message message1 : Message.t)
    (s : EVMState.t) :
  EVM._loadCode vm message s = Some message1 ->
  Message.depth message1 = Message.depth message /\
  Message.to message1 = Message.to message.
Proof.
  unfold EVM._loadCode. intros H.
  destruct (Message.code message); [by injection H as <-|].
  destruct (Message.codeAddress message) as [a|]; [|done].
  destruct (VM.getPrecompile vm a); by injection H as <-.
Qed.

Lemma executeCall_message (vm : VM.t) (fuel : nat)
    (exec : Message.t -> EVMState.t -> Outcome EVMResult.t)
    (message message' : Message.t) (s s' : EVMState.t)
    (result : EVMResult.t) :
  EVM._executeCall vm fuel exec message s = Returned (result, message') s' ->
  Message.depth message' = Message.depth message /\
  Message.to message' = Message.to message.
Proof.
  unfold EVM._executeCall. intros H.
  destruct (Message.to message) as [to|] eqn:Hto; [|done].
  destruct (EVM.transferValue message to s) as [err s2].
  destruct (EVM._loadCode vm message s2) as [message1|] eqn:Hload; [|done].
  apply loadCode_message in Hload. rewrite Hto in Hload.
  destruct (EVM.noCode message1 || bool_decide (is_Some err)).
  - by injection H as _ <- _.
  - destruct (if Message.isCompiled message1 then _ else _); [|done..].
    cbn in H. by injection H as _ <- _.
Qed.

Lemma executeCreate_message (vm : VM.t) (fuel : nat)
    (exec : Message.t -> EVMState.t -> Outcome EVMResult.t)
    (message message' : Message.t) (s s' : EVMState.t)
    (result : EVMResult.t) :
  EVM._executeCreate vm fuel exec message s = Returned (result, message') s' ->
  Message.depth message' = Message.depth message /\
  is_Some (Message.to message').
Proof.
  unfold EVM._executeCreate. intros H.
  pose proof (createPrologue_to vm message s) as Hto.
  assert (Hd : Message.depth (EVM.createPrologue vm message s).1
               = Message.depth message) by done.
  destruct (EVM.createPrologue vm message s) as [message3 s1].
  cbn [fst] in *.
  destruct (EVM.collides _).
  { injection H as _ <- _. by rewrite Hto. }
  destruct (EVM.createAccount vm message3 _ s1) as [err s3].
  destruct (EVM.noCode message3).
  { injection H as _ <- _. by rewrite Hto. }
  destruct (EVM.runInterpreter vm fuel exec message3 s3); [|done..].
  cbn in H. injection H as _ <- _. by rewrite Hto.
Qed.

Lemma dispatch_message (vm : VM.t) (fuel : nat)
    (exec : Message.t -> EVMState.t -> Outcome EVMResult.t)
    (message message' : Message.t) (s s' : EVMState.t)
    (result : EVMResult.t) :
  EVM.dispatch vm fuel exec message s = Returned (result, message') s' ->
  Message.depth message' = Message.depth message /\
  is_Some (Message.to message').
Proof.
  unfold EVM.dispatch. intros H.
  destruct (Message.to message) as [to|] eqn:Hto.
  - destruct (EVM.isStateManager _).
    + destruct (EVM.handleCall vm message s); [|done..].
      cbn in H. injection H as _ <- _. by rewrite Hto.
    + apply executeCall_message in H as [-> ->]. by rewrite Hto.
  - by apply executeCreate_message in H.
Qed.

(** ** The executor: the exit of a depth-0 message *)

Lemma EOAReturnedFalse_spec (s : EVMState.t) :
  EVM.EOAReturnedFalse s = true <->
  exists account,
    EVMState._accountMessageResult s = Some account /\
    sliceTo 32 (ExecResult.returnValue (EVMResult.execResult account))
    = zeros 32.
Proof.
  unfold EVM.EOAReturnedFalse.
  destruct (EVMState._accountMessageResult s) as [r|].
  - rewrite bool_decide_eq_true. split; [by exists r|].
    by intros (? & [= <-] & ?).
  - split; [done|]. by intros (? & ? & _).
Qed.

(** The depth-0 block, read off the state it leaves. *)
Lemma reconcile_spec (vm : VM.t) (isTarget : bool) (result0 : EVMResult.t)
    (s4 : EVMState.t) (result : EVMResult.t) (s5 : EVMState.t) :
  EVM.reconcile vm isTarget result0 s4 = (result, s5) ->
  EVMState._accountMessageResult s5 = EVMState._accountMessageResult s4 /\
  EVMState._state s5 = EVMState._state s4 /\
  EVMResult.gasUsed result = EVMResult.gasUsed result0 /\
  match EVMState._targetMessageResult s5 with
  | Some target =>
      let targetError :=
        ExecResult.exceptionError (EVMResult.execResult target) in
      ExecResult.exceptionError (EVMResult.execResult result)
        = (if EVM.EOAReturnedFalse s4
              && negb (bool_decide (is_Some targetError))
           then Some (VmError REVERT) else targetError) /\
      EVMResult.createdAddress result = EVMResult.createdAddress target /\
      ExecResult.returnValue (EVMResult.execResult result)
        = EVM.targetReturnData target
  | None =>
      ExecResult.exceptionError (EVMResult.execResult result)
        = Some (VmError OVM_ERROR) /\
      ExecResult.returnValue (EVMResult.execResult result)
        = ExecResult.returnValue (EVMResult.execResult result0)
  end.
Proof.
  unfold EVM.reconcile. intros H.
  destruct (EVMState._targetMessageResult s4) as [recorded|] eqn:Hrec.
  - destruct isTarget; injection H as <- <-; cbn; [done|].
    by rewrite Hrec.
  - injection H as <- <-. by rewrite Hrec.
Qed.

(** C8.  When [executeMessage] returns for a message whose depth (as
    dispatched) is 0 and a target result is recorded: if a depth-1
    account-message result is recorded whose first 32 return bytes are 32
    zero bytes and the target's result has no [exceptionError], the outer
    [exceptionError] is a REVERT error; otherwise it is the target's
    [exceptionError].  The outer [createdAddress] is the target's, and the
    outer [returnValue] is the target's return data, without its first 160
    bytes when the target's result carries an error and has at least 160
    bytes.  When no target result is recorded the outer error is
    OVM_ERROR. *)
Theorem depth0_reconciliation (vm : VM.t) (n : nat) (message : Message.t)
    (s : EVMState.t) (result : EVMResult.t) (s' : EVMState.t) :
  EVM.executeMessage vm (S n) message s = Returned result s' ->
  Message.depth (EVM.enter vm message s).1.1 = 0 ->
  (forall target,
     EVMState._targetMessageResult s' = Some target ->
     let targetError :=
       ExecResult.exceptionError (EVMResult.execResult target) in
     let returnData :=
       ExecResult.returnValue (EVMResult.execResult target) in
     let eoaReturnedFalse :=
       exists account,
         EVMState._accountMessageResult s' = Some account /\
         sliceTo 32 (ExecResult.returnValue (EVMResult.execResult account))
         = zeros 32 in
     (eoaReturnedFalse -> targetError = None ->
        ExecResult.exceptionError (EVMResult.execResult result)
        = Some (VmError REVERT)) /\
     (~ eoaReturnedFalse \/ is_Some targetError ->
        ExecResult.exceptionError (EVMResult.execResult result)
        = targetError) /\
     EVMResult.createdAddress result = EVMResult.createdAddress target /\
     ExecResult.returnValue (EVMResult.execResult result)
     = (if bool_decide (is_Some targetError)
           && (160 <=? Z.of_nat (length returnData))
        then sliceFrom 160 returnData else returnData)) /\
  (EVMState._targetMessageResult s' = None ->
     ExecResult.exceptionError (EVMResult.execResult result)
     = Some (VmError OVM_ERROR)).
Proof.
  cbn [EVM.executeMessage]. unfold EVM.executeMessage_body.
  destruct (EVM.enter vm message s) as [[message1 isTarget] s2].
  cbn [fst snd]. intros Hrun Hdepth.
  destruct (EVM.dispatch vm n (EVM.executeMessage vm n) message1 s2)
    as [[result0 message2] s3| |] eqn:Hdis; [|done..].
  apply dispatch_message in Hdis as [Hd _]. rewrite Hdepth in Hd.
  cbn [bindO] in Hrun. unfold EVM.leave in Hrun.
  destruct (EVM.settle isTarget result0 _) as [result1 s4].
  rewrite Hd in Hrun. change (0 =? 0) with true in Hrun. cbv iota in Hrun.
  destruct (EVM.reconcile vm isTarget result1 s4) as [result2 s5] eqn:Hrec.
  unfold EVM.recordAccountMessage in Hrun. rewrite Hd in Hrun.
  change (0 =? 1) with false in Hrun. cbv iota in Hrun.
  injection Hrun as <- <-.
  apply reconcile_spec in Hrec as (Hacc & _ & _ & Hrec).
  split.
  - intros target Htarget.
    rewrite Htarget in Hrec. cbv zeta in Hrec.
    destruct Hrec as (Herr & Hcreated & Hret).
    pose proof (EOAReturnedFalse_spec s4) as Heoa. rewrite <- Hacc in Heoa.
    split; [|split; [|split]].
    + intros H1 H2. apply Heoa in H1. rewrite Herr, H1, H2.
      by rewrite bool_decide_eq_false_2 by (by intros [? ?]).
    + intros [H1|H2].
      * rewrite Herr. destruct (EVM.EOAReturnedFalse s4); [|done].
        by destruct H1; apply Heoa.
      * rewrite Herr, (bool_decide_eq_true_2 _ H2). by rewrite andb_false_r.
    + exact Hcreated.
    + exact Hret.
  - intros Hnone. rewrite Hnone in Hrec. by destruct Hrec.
Qed.

Lemma depth0_reconciliation_witness :
  exists result s' target account,
    EVM.executeMessage Sample.host 20
      (Sample.message (Some Sample.carol) Sample.alice 0 100000 [] 0)
      (EVMState.fresh Sample.ovmState) = Returned result s' /\
    Message.depth
      (EVM.enter Sample.host
         (Sample.message (Some Sample.carol) Sample.alice 0 100000 [] 0)
         (EVMState.fresh Sample.ovmState)).1.1 = 0 /\
    EVMState._targetMessageResult s' = Some target /\
    EVMState._accountMessageResult s' = Some account /\
    ExecResult.returnValue (EVMResult.execResult account) = zeros 32 /\
    ExecResult.exceptionError (EVMResult.execResult target) = None /\
    ExecResult.exceptionError (EVMResult.execResult result)
    = Some (VmError REVERT) /\
    EVMResult.createdAddress result = EVMResult.createdAddress target /\
    ExecResult.returnValue (EVMResult.execResult result)
    = ExecResult.returnValue (EVMResult.execResult target).
Proof.
  eexists _, _, _, _. split; [vm_compute; reflexivity|].
  split; [reflexivity|]. split; [reflexivity|]. split; [reflexivity|].
  split; [reflexivity|]. split; [reflexivity|].
  edestruct (depth0_reconciliation Sample.host 19
               (Sample.message (Some Sample.carol) Sample.alice 0 100000 [] 0)
               (EVMState.fresh Sample.ovmState))
    as [Htarget _]; [vm_compute; reflexivity|reflexivity|].
  edestruct Htarget as (Hrevert & _ & Hcreated & Hret); [reflexivity|].
  split; [apply Hrevert; [by eexists|reflexivity]|].
  split; [exact Hcreated|exact Hret].
Defined.

(** ** The address of a new contract *)

(** the address the Execution Manager holds in slot [0x..0f] *)
Lemma generateAddress_slot (vm : VM.t) (message : Message.t)
    (s : EVMState.t) :
  EVM._generateAddress vm message s
  = VM.fromHexString vm
      (VM.toHexAddress vm
         (StateManager.getContractStorage (VM.OVM_ExecutionManager_address vm)
            (zeros 31 ++ [0x0f]) (EVMState._state s))).
Proof. reflexivity. Qed.

Lemma executeCreate_createdAddress (vm : VM.t) (fuel : nat)
    (exec : Message.t -> EVMState.t -> Outcome EVMResult.t)
    (message message' : Message.t) (s s' : EVMState.t)
    (result : EVMResult.t) :
  EVM._executeCreate vm fuel exec message s = Returned (result, message') s' ->
  EVMResult.createdAddress result = Some (EVM._generateAddress vm message s) /\
  Message.to message' = Some (EVM._generateAddress vm message s).
Proof.
  unfold EVM._executeCreate. intros H.
  pose proof (createPrologue_to vm message s) as Hto.
  destruct (EVM.createPrologue vm message s) as [message3 s1].
  cbn [fst] in *. rewrite Hto in H. unfold default in H.
  cbn [from_option id] in H.
  destruct (EVM.collides _).
  { by injection H as <- <- _. }
  destruct (EVM.createAccount vm message3 _ s1) as [err s3].
  destruct (EVM.noCode message3).
  { by injection H as <- <- _. }
  destruct (EVM.runInterpreter vm fuel exec message3 s3); [|done..].
  cbn in H. by injection H as <- <- _.
Qed.

(** If the CREATE2 derivation of the host depends on the salt at all, the
    executor's address is not that derivation: the executor's address
    does not depend on the message. *)
Lemma generateAddress_not_create2 (vm : VM.t)
    (caller salt1 salt2 code : Buffer) :
  VM.generateAddress2 vm caller salt1 code
    <> VM.generateAddress2 vm caller salt2 code ->
  ~ (forall (message : Message.t) (s : EVMState.t),
       EVM._generateAddress vm message s
       = Spec.generateAddress vm false message (EVMState._state s)).
Proof.
  intros Hsalt Hclaim.
  set (m := fun salt =>
    Message.mk None 0 caller 0 [] 1 (Some (CodeBytes code)) None false false
      (Some salt) None false None).
  pose proof (Hclaim (m salt1) (EVMState.fresh Sample.emptyState)) as H1.
  pose proof (Hclaim (m salt2) (EVMState.fresh Sample.emptyState)) as H2.
  unfold m, Spec.generateAddress, EVM._generateAddress in H1, H2.
  cbn [Message.salt Message.caller Message.code codeAsBuffer] in H1, H2.
  congruence.
Qed.

(** The claim C5 as it is worded fails on the executor: for a creation
    message that carries a salt, outside the OVM entry path, the address
    is still the one held in slot [0x..0f] (here [bob]) and not the CREATE2
    derivation; and the older variant's OVM path reads slot [0x..05], so
    with [bob] in slot [0x..0f] only it does not find it. *)
Lemma generateAddress_counterexample :
  EVM._generateAddress Sample.host Sample.saltedCreate
    (EVMState.fresh (Sample.creating Sample.bob Sample.emptyState))
  <> Spec.generateAddress Sample.host false Sample.saltedCreate
       (Sample.creating Sample.bob Sample.emptyState) /\
  EVM._generateAddress Sample.host Sample.saltedCreate
    (EVMState.fresh (Sample.creating Sample.bob Sample.emptyState))
  = Sample.bob /\
  Legacy._generateAddress Sample.host true Sample.saltedCreate
    (Sample.creating Sample.bob Sample.emptyState)
  <> Spec.generateAddress Sample.host true Sample.saltedCreate
       (Sample.creating Sample.bob Sample.emptyState).
Proof.
  split; [vm_compute; discriminate|].
  split; [vm_compute; reflexivity|vm_compute; discriminate].
Qed.

(** C5, amended.  For every creation message the executor takes the new
    address from slot [0x..0f] of the Execution Manager's storage, whatever
    the message's salt, caller, code or depth: the address does not
    depend on the message, and it is the [createdAddress] (and the [to])
    of every result [_executeCreate] returns.  The CREATE2 and CREATE
    derivations are taken by the older variant only, when its OVM flag is
    off, where it agrees with the specification; with the flag on it
    reads slot [0x..05]. *)
Theorem createdAddress_from_execution_manager_slot (vm : VM.t) (fuel : nat)
    (exec : Message.t -> EVMState.t -> Outcome EVMResult.t)
    (message : Message.t) (s : EVMState.t) :
  let slotAddress :=
    VM.fromHexString vm
      (VM.toHexAddress vm
         (StateManager.getContractStorage (VM.OVM_ExecutionManager_address vm)
            (zeros 31 ++ [0x0f]) (EVMState._state s))) in
  (forall message', EVM._generateAddress vm message' s = slotAddress) /\
  EVM._generateAddress vm message s
    = Spec.generateAddress vm true message (EVMState._state s) /\
  (forall result message' s',
     EVM._executeCreate vm fuel exec message s
       = Returned (result, message') s' ->
     EVMResult.createdAddress result = Some slotAddress /\
     Message.to message' = Some slotAddress) /\
  Legacy._generateAddress vm false message (EVMState._state s)
    = Spec.generateAddress vm false message (EVMState._state s) /\
  Legacy._generateAddress vm true message (EVMState._state s)
    = VM.fromHexString vm
        (VM.toHexAddress vm
           (StateManager.getContractStorage
              (VM.OVM_ExecutionManager_address vm) (zeros 31 ++ [0x05])
              (EVMState._state s))).
Proof.
  intros slotAddress. split; [done|]. split; [done|]. split; [|done].
  intros result message' s' Hrun.
  by apply executeCreate_createdAddress in Hrun.
Qed.

Lemma createdAddress_from_execution_manager_slot_witness :
  exists result message' s',
    EVM._executeCreate Sample.host 20 (EVM.executeMessage Sample.host 20)
      Sample.saltedCreate
      (EVMState.fresh (Sample.creating Sample.bob Sample.emptyState))
    = Returned (result, message') s' /\
    EVMResult.createdAddress result = Some Sample.bob /\
    Message.to message' = Some Sample.bob.
Proof.
  eexists _, _, _. split; [vm_compute; reflexivity|].
  refine (proj1 (proj2 (proj2
    (createdAddress_from_execution_manager_slot Sample.host 20
       (EVM.executeMessage Sample.host 20) Sample.saltedCreate
       (EVMState.fresh (Sample.creating Sample.bob Sample.emptyState))))) _ _ _ _).
  vm_compute; reflexivity.
Defined.

(** ** The executor: checkpoints *)

Section Neutral.
Variable vm : VM.t.
Variable exec : Message.t -> EVMState.t -> Outcome EVMResult.t.
Hypothesis Hhandlers : Host.neutralHandlers vm.
Hypothesis Hexec : Host.neutralExec exec.

Lemma runStep_neutral (rs : RunState.t) (s : EVMState.t) :
  match Interpreter.runStep vm exec rs s with
  | HDone _ s' | HRaise _ _ s' => Host.checkpointsOf s' = Host.checkpointsOf s
  | HDiverged => True
  end.
Proof.
  unfold Interpreter.runStep.
  destruct (String.eqb _ "INVALID"); [done|].
  destruct (EEI.useGas _ _) as [[e eei']|eei']; [done|].
  destruct (VM.opHandlers vm _) as [opFn|] eqn:Hop; [|done].
  by apply (Hhandlers _ opFn exec _ s Hop).
Qed.

Lemma runLoop_neutral (fuel : nat) : forall rs s,
  match Interpreter.runLoop vm exec fuel rs s with
  | Returned _ s' => Host.checkpointsOf s' = Host.checkpointsOf s
  | Thrown _ => False
  | Diverged => True
  end.
Proof.
  induction fuel as [|fuel IH]; intros rs s; cbn [Interpreter.runLoop];
    [done|].
  destruct (_ <? _); [|done].
  pose proof (runStep_neutral
                (RunState.set_opCode
                   (readByte (RunState.code rs) (RunState.programCounter rs))
                   rs) s) as Hstep.
  destruct (Interpreter.runStep vm exec _ s) as [rs' s'|e rs' s'|];
    [|done..].
  specialize (IH rs' s').
  destruct (Interpreter.runLoop vm exec fuel rs' s'); [|done..].
  congruence.
Qed.

Lemma runInterpreter_neutral (fuel : nat) (message : Message.t)
    (s : EVMState.t) :
  is_Some (Message.code message) ->
  match EVM.runInterpreter vm fuel exec message s with
  | Returned _ s' => Host.checkpointsOf s' = Host.checkpointsOf s
  | Thrown _ => False
  | Diverged => True
  end.
Proof.
  intros [c Hc]. unfold EVM.runInterpreter, EVM.interpret, Interpreter.run.
  rewrite Hc.
  destruct (Interpreter._getValidJumpDests vm fuel (codeAsBuffer c));
    [|done].
  cbn [Interpreter.initialRunState RunState.programCounter].
  change (negb (0 =? 0)) with false. cbn [andb].
  match goal with
  | |- context [Interpreter.runLoop vm exec fuel ?rs s] =>
      pose proof (runLoop_neutral fuel rs s) as Hloop;
      destruct (Interpreter.runLoop vm exec fuel rs s) as [ires s1| |]
  end; [|done..].
  cbn [bindO].
  by destruct (Interpreter.exceptionError ires).
Qed.

Lemma tryAddToBalance_checkpoints (toAccount : Account.t)
    (message : Message.t) (s : EVMState.t) :
  Host.checkpointsOf (EVM.tryAddToBalance toAccount message s).2
  = Host.checkpointsOf s.
Proof.
  unfold EVM.tryAddToBalance, EVM._addToBalance.
  by destruct (MAX_INTEGER <? _).
Qed.

Lemma transferValue_checkpoints (message : Message.t) (to : Buffer)
    (s : EVMState.t) :
  Host.checkpointsOf (EVM.transferValue message to s).2
  = Host.checkpointsOf s.
Proof.
  unfold EVM.transferValue.
  destruct (Message.delegatecall message); [done|].
  by rewrite tryAddToBalance_checkpoints.
Qed.

Lemma loadCode_typed (message message1 : Message.t) (s : EVMState.t) :
  EVM._loadCode vm message s = Some message1 ->
  Message.wellTyped message ->
  Message.wellTyped message1 /\ is_Some (Message.code message1).
Proof.
  unfold EVM._loadCode, Message.wellTyped. intros H Hty.
  destruct (Message.code message) as [c|] eqn:Hc.
  - injection H as <-. by rewrite Hc.
  - destruct (Message.codeAddress message) as [a|]; [|done].
    destruct (VM.getPrecompile vm a); by injection H as <-.
Qed.

Lemma executeCall_neutral (fuel : nat) (message : Message.t)
    (s : EVMState.t) :
  is_Some (Message.to message) ->
  Message.wellTyped message ->
  match EVM._executeCall vm fuel exec message s with
  | Returned _ s' => Host.checkpointsOf s' = Host.checkpointsOf s
  | Thrown _ => False
  | Diverged => True
  end.
Proof.
  intros [to Hto] Hty. unfold EVM._executeCall. rewrite Hto.
  pose proof (transferValue_checkpoints message to s) as Ht.
  destruct (EVM.transferValue message to s) as [err s2]. cbn [snd] in Ht.
  destruct (loadCode_total vm message to s2 Hto) as [message1 Hload].
  rewrite Hload.
  destruct (loadCode_typed message message1 s2 Hload Hty) as [Hty1 [c Hc]].
  destruct (EVM.noCode message1 || bool_decide (is_Some err)); [done|].
  destruct (Message.isCompiled message1) eqn:Hcompiled.
  - unfold EVM.runPrecompile, Message.wellTyped in *. rewrite Hc in *.
    destruct c as [b|f]; [congruence|done].
  - pose proof (runInterpreter_neutral fuel message1 s2
                  (ex_intro _ c Hc)) as Hrun.
    destruct (EVM.runInterpreter vm fuel exec message1 s2); [|done..].
    cbn. congruence.
Qed.

Lemma createAccount_checkpoints (message : Message.t) (to : Buffer)
    (s : EVMState.t) :
  Host.checkpointsOf (EVM.createAccount vm message to s).2
  = Host.checkpointsOf s.
Proof.
  unfold EVM.createAccount. by rewrite tryAddToBalance_checkpoints.
Qed.

Lemma executeCreate_neutral (fuel : nat) (message : Message.t)
    (s : EVMState.t) :
  match EVM._executeCreate vm fuel exec message s with
  | Returned _ s' => Host.checkpointsOf s' = Host.checkpointsOf s
  | Thrown _ => False
  | Diverged => True
  end.
Proof.
  unfold EVM._executeCreate.
  assert (Hs1 : Host.checkpointsOf (EVM.createPrologue vm message s).2
                = Host.checkpointsOf s) by done.
  assert (Hcode : is_Some (Message.code (EVM.createPrologue vm message s).1))
    by (by eexists).
  destruct (EVM.createPrologue vm message s) as [message3 s1].
  cbn [fst snd] in *.
  destruct (EVM.collides _); [done|].
  match goal with
  | |- context [EVM.createAccount vm message3 ?to s1] =>
      pose proof (createAccount_checkpoints message3 to s1) as Hacc;
      destruct (EVM.createAccount vm message3 to s1) as [err s3]
  end.
  cbn [snd] in Hacc.
  destruct (EVM.noCode message3); [congruence|].
  pose proof (runInterpreter_neutral fuel message3 s3 Hcode) as Hrun.
  destruct (EVM.runInterpreter vm fuel exec message3 s3) as [r s4| |];
    [|done..].
  cbn [bindO]. unfold EVM.finishCreate.
  unfold Host.checkpointsOf in *.
  repeat case_match; cbn; congruence.
Qed.

(** With such handlers and such an executor for the nested calls, the
    dispatch of a well-typed message, when it returns, has left the
    checkpoint stack as it found it.  (The bridge may raise; the
    interpreter and the precompiles do not.) *)
Lemma dispatch_balanced (fuel : nat) (message : Message.t) (s : EVMState.t)
    (result : EVMResult.t * Message.t) (s' : EVMState.t) :
  Message.wellTyped message ->
  EVM.dispatch vm fuel exec message s = Returned result s' ->
  Host.checkpointsOf s' = Host.checkpointsOf s.
Proof.
  intros Hty. unfold EVM.dispatch.
  destruct (Message.to message) as [to|] eqn:Hto.
  - destruct (EVM.isStateManager _) eqn:Hsm.
    + unfold EVM.handleCall.
      pose proof (bridge_handleCall_checkpoints vm message (EVMState._state s))
        as Hchk.
      destruct (OvmStateManager.handleCall vm message (EVMState._state s))
        as [[bytes|] st]; [|done].
      cbn. by intros [= _ <-].
    + pose proof (executeCall_neutral fuel message s
                    ltac:(by rewrite Hto) Hty) as Hcall.
      destruct (EVM._executeCall vm fuel exec message s); [|done..].
      by intros [= _ <-].
  - pose proof (executeCreate_neutral fuel message s) as Hcreate.
    destruct (EVM._executeCreate vm fuel exec message s); [|done..].
    by intros [= _ <-].
Qed.
End Neutral.



(** The sample handlers are neutral, whatever the interface. *)
Lemma sample_neutralHandlers iface : Host.neutralHandlers (Sample.mkHost iface).
Proof.
  intros name opFn exec rs s Hop Hexec. cbn in Hop.
  unfold Sample.opHandlers in Hop.
  repeat match type of Hop with
         | (if ?c then _ else _) = _ =>
             destruct c; [injection Hop as <-|]
         end; try discriminate;
    try done;
    destruct (RunState.stack rs) as [|x [|y rest]]; cbn; try done;
    try (destruct (bool_decide _); done);
    match goal with
    | |- context [exec ?m s] =>
        pose proof (Hexec m s I) as Hcall; destruct (exec m s);
        cbn in *; done
    end.
Qed.




(** The same at its simplest: a depth-0 message over the empty state
    latches no target, so it returns OVM_ERROR; its dispatch (a call of
    the Execution Manager, which has no code here) had succeeded and was
    committed, and the wrapper code put at the caller stays. *)
Example depth0_without_target_commits :
  exists result s',
    EVM.executeMessage Sample.host 20
      (Sample.message (Some Sample.bob) Sample.alice 0 21000 [] 0)
      (EVMState.fresh Sample.emptyState) = Returned result s' /\
    ExecResult.exceptionError (EVMResult.execResult result)
    = Some (VmError OVM_ERROR) /\
    Host.checkpointsOf s' = [] /\
    StateManager.getContractCode Sample.alice (EVMState._state s') = [0].
Proof.
  eexists _, _. split; [vm_compute; reflexivity|]. by repeat split.
Qed.

(** Where the dispatch does not leave the stack as it found it.  The loop
    of [run] catches whatever a step raises (its comment reads "TODO: Throw on non-VmError
    exceptions"), so an exception that leaves a nested [executeMessage]
    between its [checkpoint] and its [revert]/[commit] is turned into the
    [exceptionError] of the parent.  Here [bob]'s call of the StateManager
    cannot be decoded: the message to [bob] returns with that exception as
    its error, its [revert] closes the child's checkpoint, one checkpoint
    stays open, and the 5 that [alice] sent stay sent. *)
Example swallowed_exception_leaves_checkpoint_open :
  exists result s',
    EVM.executeMessage Sample.host 20
      (Sample.message (Some Sample.bob) Sample.alice 5 100000 [] 1)
      (EVMState.fresh Sample.malformedCallState) = Returned result s' /\
    ExecResult.exceptionError (EVMResult.execResult result) = Some JsError /\
    length (Host.checkpointsOf s') = 1%nat /\
    Account.balance (StateManager.getAccount Sample.alice (EVMState._state s'))
    = 95.
Proof.
  eexists _, _. split; [vm_compute; reflexivity|]. by repeat split.
Qed.

(* ================================================================== *)
(** * Further properties of the code                                    *)
(* ================================================================== *)

(** ** The interpreter: jump destinations, STOP, the program counter *)

Lemma StronglySorted_snoc (l : list Z) (x : Z) :
  StronglySorted Z.lt l -> Forall (fun j => j < x) l ->
  StronglySorted Z.lt (l ++ [x]).
Proof.
  induction 1 as [|a l Hl IH Ha]; intros Hx; cbn.
  - repeat constructor.
  - apply Forall_cons in Hx as [Hax Hx]. constructor; [by apply IH|].
    apply Forall_app. split; [done|]. by repeat constructor.
Qed.

Lemma scanJumpDests_sorted (vm : VM.t) (code : Buffer) :
  Interpreter.pushTable vm ->
  forall (fuel : nat) (i : Z) (jumps result : list Z),
    StronglySorted Z.lt jumps -> Forall (fun j => j < i) jumps ->
    Interpreter.scanJumpDests vm fuel code i jumps = Some result ->
    StronglySorted Z.lt result.
Proof.
  intros Htable. induction fuel as [|fuel IH]; intros i jumps result Hs Hlt;
    [done|].
  cbn [Interpreter.scanJumpDests].
  destruct (i <? Z.of_nat (length code)); [|by intros [= <-]].
  destruct (String.eqb_spec
    (Opcode.name (Interpreter.lookupOpInfo vm (readByte code i))) "PUSH")
    as [E|E].
  - rewrite E. change (String.eqb "PUSH" "JUMPDEST") with false. cbv iota.
    apply Htable in E. apply IH; [done|].
    eapply Forall_impl; [exact Hlt|]. intros j Hj. cbn in Hj. lia.
  - destruct (String.eqb
      (Opcode.name (Interpreter.lookupOpInfo vm (readByte code i)))
      "JUMPDEST").
    + apply IH; [by apply StronglySorted_snoc|].
      apply Forall_app. split.
      * eapply Forall_impl; [exact Hlt|]. intros j Hj. cbn in Hj. lia.
      * repeat constructor. lia.
    + apply IH; [done|].
      eapply Forall_impl; [exact Hlt|]. intros j Hj. cbn in Hj. lia.
Qed.

(** X1.  With an opcode table whose PUSH entries are the bytes 0x60..0x7f,
    whatever the pre-scan returns is strictly increasing: an offset is
    recorded at most once, and in the order of the code. *)
Theorem validJumps_strictly_increasing (vm : VM.t) (code : Buffer)
    (fuel : nat) (jumps : list Z) :
  Interpreter.pushTable vm ->
  Interpreter._getValidJumpDests vm fuel code = Some jumps ->
  StronglySorted Z.lt jumps /\ NoDup jumps.
Proof.
  intros Htable Hrun.
  assert (Hs : StronglySorted Z.lt jumps).
  { eapply (scanJumpDests_sorted vm code Htable fuel 0 []);
      [constructor|constructor|exact Hrun]. }
  split; [exact Hs|].
  clear Hrun. induction Hs as [|a l Hl IH Ha]; [constructor|].
  constructor; [|exact IH].
  intros Hin. rewrite Forall_forall in Ha. apply Ha in Hin. lia.
Qed.

Lemma validJumps_strictly_increasing_witness :
  Interpreter.pushTable Sample.host /\
  Interpreter._getValidJumpDests Sample.host 5 [0x5b; 0x60; 0x5b; 0x5b]
  = Some [0; 3] /\
  StronglySorted Z.lt [0; 3] /\ NoDup [0; 3].
Proof.
  split; [apply sample_pushTable|]. split; [reflexivity|].
  apply (validJumps_strictly_increasing Sample.host
           [0x5b; 0x60; 0x5b; 0x5b] 5);
    [apply sample_pushTable|reflexivity].
Defined.

Lemma runLoop_outcome (vm : VM.t)
    (exec : Message.t -> EVMState.t -> Outcome EVMResult.t) (fuel : nat) :
  forall rs s,
    match Interpreter.runLoop vm exec fuel rs s with
    | Returned r _ =>
        Interpreter.exceptionError r <> Some (VmError STOP)
    | Thrown _ => False
    | Diverged => True
    end.
Proof.
  induction fuel as [|fuel IH]; intros rs s; [done|].
  cbn [Interpreter.runLoop].
  destruct (RunState.programCounter rs <? _); [|done].
  destruct (Interpreter.runStep vm exec _ s) as [rs' s'|e rs' s'|];
    [apply IH| |done].
  cbn. destruct (errorIs e STOP) eqn:E; [done|].
  intros [= ->]. cbn in E. by rewrite bool_decide_eq_true_2 in E.
Qed.

(** X2.  The interpreter never reports STOP as an error: whatever the
    handlers do, the [exceptionError] of a result that [run] returns is
    not the STOP signal. *)
Theorem run_never_reports_stop (vm : VM.t)
    (exec : Message.t -> EVMState.t -> Outcome EVMResult.t) (fuel : nat)
    (code : Buffer) (pc : option Z) (rs0 : RunState.t) (s s' : EVMState.t)
    (r : Interpreter.InterpreterResult) :
  Interpreter.run vm exec fuel code pc rs0 s = Returned r s' ->
  Interpreter.exceptionError r <> Some (VmError STOP).
Proof.
  unfold Interpreter.run.
  destruct (Interpreter._getValidJumpDests vm fuel code) as [jumps|]; [|done].
  cbv zeta. destruct (negb _ && _); [done|].
  intros Hrun.
  match type of Hrun with
  | Interpreter.runLoop ?vm ?exec ?fuel ?rs ?s = _ =>
      pose proof (runLoop_outcome vm exec fuel rs s) as H
  end.
  by rewrite Hrun in H.
Qed.

Lemma run_never_reports_stop_witness :
  exists r s',
    Interpreter.run Sample.host (EVM.executeMessage Sample.host 5) 5
      [0x00] None
      (Interpreter.initialRunState
         (EVM.newEEI (Sample.codeMessage [0x00] 100) (CodeBytes [0x00])
            Sample.executor7))
      Sample.executor7
    = Returned r s' /\
    Interpreter.exceptionError r = None /\
    Interpreter.exceptionError r <> Some (VmError STOP).
Proof.
  eexists _, _. split; [vm_compute; reflexivity|].
  split; [reflexivity|].
  apply (run_never_reports_stop Sample.host
           (EVM.executeMessage Sample.host 5) 5 [0x00] None
           (Interpreter.initialRunState
              (EVM.newEEI (Sample.codeMessage [0x00] 100) (CodeBytes [0x00])
                 Sample.executor7))
           Sample.executor7 Sample.executor7).
  vm_compute. reflexivity.
Defined.

(** X3.  [run] raises an exception in exactly one case, before any step is
    taken: the starting program counter ([opts.pc], or the run state's own
    when [opts.pc] is absent or 0) is not 0 and lies outside the code.  The
    executor is then as it was.  Whatever [runStep] raises is caught by
    the loop.  (The advisory [step] event is left out of the embedding,
    and with it what a listener of that event may raise.) *)
Theorem run_throws_only_on_pc_range (vm : VM.t)
    (exec : Message.t -> EVMState.t -> Outcome EVMResult.t) (fuel : nat)
    (code : Buffer) (pc : option Z) (rs0 : RunState.t) (s s' : EVMState.t) :
  let pc0 := match pc with
             | Some p => if p =? 0 then RunState.programCounter rs0 else p
             | None => RunState.programCounter rs0
             end in
  Interpreter.run vm exec fuel code pc rs0 s = Thrown s' <->
  is_Some (Interpreter._getValidJumpDests vm fuel code) /\
  pc0 <> 0 /\ (pc0 < 0 \/ Z.of_nat (length code) <= pc0) /\ s' = s.
Proof.
  intros pc0. unfold Interpreter.run.
  destruct (Interpreter._getValidJumpDests vm fuel code) as [jumps|].
  2:{ split; [done|]. by intros [[? ?] _]. }
  cbv zeta. fold pc0.
  destruct (Z.eqb_spec pc0 0) as [E|E]; cbn [negb andb].
  - split; [|by intros (_ & ? & _)].
    intros Hrun.
    match type of Hrun with
    | Interpreter.runLoop ?vm ?exec ?fuel ?rs ?s = _ =>
        pose proof (runLoop_outcome vm exec fuel rs s) as H
    end.
    by rewrite Hrun in H.
  - destruct (Z.ltb_spec pc0 0) as [L|L]; cbn [orb].
    + split; [intros [= <-]|by intros (_ & _ & _ & ->)].
      split; [by eexists|]. split; [done|]. split; [by left|done].
    + destruct (Z.leb_spec (Z.of_nat (length code)) pc0) as [G|G].
      * split; [intros [= <-]|by intros (_ & _ & _ & ->)].
        split; [by eexists|]. split; [done|]. split; [by right|done].
      * split; [|intros (_ & _ & [?|?] & _); lia].
        intros Hrun.
        match type of Hrun with
        | Interpreter.runLoop ?vm ?exec ?fuel ?rs ?s = _ =>
            pose proof (runLoop_outcome vm exec fuel rs s) as H
        end.
        by rewrite Hrun in H.
Qed.

Lemma run_throws_only_on_pc_range_witness :
  Interpreter.run Sample.host (EVM.executeMessage Sample.host 5) 5
    [0x00] (Some 7)
    (Interpreter.initialRunState
       (EVM.newEEI (Sample.codeMessage [0x00] 100) (CodeBytes [0x00])
          Sample.executor7))
    Sample.executor7
  = Thrown Sample.executor7.
Proof.
  apply run_throws_only_on_pc_range.
  split; [eexists; vm_compute; reflexivity|].
  split; [vm_compute; discriminate|].
  split; [right; vm_compute; discriminate|reflexivity].
Defined.

(** ** The executor: what a run of the interpreter is charged *)

Lemma set_refund_same (s : EVMState.t) :
  EVMState.set_refund (EVMState._refund s) s = s.
Proof. by destruct s. Qed.

Lemma getValidJumpDests_fuel (vm : VM.t) (fuel : nat) (code : Buffer)
    (jumps : list Z) :
  Interpreter._getValidJumpDests vm fuel code = Some jumps ->
  exists fuel', fuel = S fuel'.
Proof. destruct fuel; [done|by eexists]. Qed.

(** X4.  A message whose code begins with a byte that the opcode table
    resolves to INVALID (a byte without an entry is looked up as 0xfe)
    fails with INVALID_OPCODE: the interpreter charges no gas and runs no
    handler, and [runInterpreter] reports the whole [gasLimit] as used, an
    empty return value and no logs, the executor being as it was. *)
Theorem invalid_first_opcode_uses_all_gas (vm : VM.t) (fuel : nat)
    (exec : Message.t -> EVMState.t -> Outcome EVMResult.t)
    (message : Message.t) (c : Code) (s : EVMState.t) :
  let code := codeAsBuffer c in
  Message.code message = Some c ->
  is_Some (Interpreter._getValidJumpDests vm fuel code) ->
  code <> [] ->
  Opcode.name (Interpreter.lookupOpInfo vm (readByte code 0)) = "INVALID" ->
  EVM.runInterpreter vm fuel exec message s
  = Returned
      {| ExecResult.exceptionError := Some (VmError INVALID_OPCODE);
         ExecResult.gas := Some (Message.gasLimit message);
         ExecResult.gasUsed := Message.gasLimit message;
         ExecResult.returnValue := [];
         ExecResult.logs := Some [];
         ExecResult.selfdestruct := Some ∅;
         ExecResult.gasRefund := None |} s.
Proof.
  intros code Hc [jumps Hj] Hne Hinv.
  destruct (getValidJumpDests_fuel _ _ _ _ Hj) as [fuel' ->].
  unfold EVM.runInterpreter. rewrite Hc. unfold EVM.interpret.
  unfold Interpreter.run. fold code. rewrite Hj. cbv zeta.
  cbn [Interpreter.initialRunState RunState.programCounter].
  change (negb (0 =? 0)) with false. cbn [andb].
  cbn [Interpreter.runLoop RunState.programCounter RunState.code].
  destruct (Z.ltb_spec 0 (Z.of_nat (length code))) as [_|Hlen].
  2:{ destruct code; [done|]. cbn [length] in Hlen. lia. }
  unfold Interpreter.runStep.
  cbn [RunState.set_opCode RunState.opCode RunState.code
       RunState.programCounter].
  rewrite Hinv. change (String.eqb "INVALID" "INVALID") with true.
  cbn. by rewrite set_refund_same.
Qed.

Lemma invalid_first_opcode_uses_all_gas_witness :
  exists result,
    EVM.runInterpreter Sample.host 5 (EVM.executeMessage Sample.host 5)
      (Sample.codeMessage [0x0c; 0x00] 21000) Sample.executor7
    = Returned result Sample.executor7 /\
    ExecResult.exceptionError result = Some (VmError INVALID_OPCODE) /\
    ExecResult.gasUsed result = 21000 /\
    ExecResult.gas result = Some 21000.
Proof.
  eexists. split.
  - apply (invalid_first_opcode_uses_all_gas Sample.host 5
             (EVM.executeMessage Sample.host 5)
             (Sample.codeMessage [0x0c; 0x00] 21000)
             (CodeBytes [0x0c; 0x00]) Sample.executor7).
    + reflexivity.
    + eexists. vm_compute. reflexivity.
    + discriminate.
    + vm_compute. reflexivity.
  - split; [reflexivity|]. split; reflexivity.
Defined.

(** X5.  When the base fee of the first opcode exceeds the gas of the
    message, [runInterpreter] ends in OUT_OF_GAS before the handler is
    reached: the whole [gasLimit] is used, nothing is returned or logged,
    and the executor is as it was. *)
Theorem unaffordable_first_opcode_is_out_of_gas (vm : VM.t) (fuel : nat)
    (exec : Message.t -> EVMState.t -> Outcome EVMResult.t)
    (message : Message.t) (c : Code) (s : EVMState.t) :
  let code := codeAsBuffer c in
  let opInfo := Interpreter.lookupOpInfo vm (readByte code 0) in
  Message.code message = Some c ->
  is_Some (Interpreter._getValidJumpDests vm fuel code) ->
  code <> [] ->
  Opcode.name opInfo <> "INVALID" ->
  Message.gasLimit message < Opcode.fee opInfo ->
  exists result,
    EVM.runInterpreter vm fuel exec message s = Returned result s /\
    ExecResult.exceptionError result = Some (VmError OUT_OF_GAS) /\
    ExecResult.gasUsed result = Message.gasLimit message /\
    ExecResult.returnValue result = [] /\
    ExecResult.logs result = Some [].
Proof.
  intros code opInfo Hc [jumps Hj] Hne Hinv Hfee.
  destruct (getValidJumpDests_fuel _ _ _ _ Hj) as [fuel' ->].
  unfold EVM.runInterpreter. rewrite Hc. unfold EVM.interpret.
  unfold Interpreter.run. fold code. rewrite Hj. cbv zeta.
  cbn [Interpreter.initialRunState RunState.programCounter].
  change (negb (0 =? 0)) with false. cbn [andb].
  cbn [Interpreter.runLoop RunState.programCounter RunState.code].
  destruct (Z.ltb_spec 0 (Z.of_nat (length code))) as [_|Hlen].
  2:{ destruct code; [done|]. cbn [length] in Hlen. lia. }
  unfold Interpreter.runStep.
  cbn [RunState.set_opCode RunState.opCode RunState.code
       RunState.programCounter].
  fold opInfo.
  destruct (String.eqb_spec (Opcode.name opInfo) "INVALID") as [E|_];
    [done|].
  unfold EEI.useGas. cbn.
  destruct (Z.ltb_spec (Message.gasLimit message - Opcode.fee opInfo) 0)
    as [_|?]; [|lia].
  cbn. rewrite set_refund_same. eexists. by repeat split.
Qed.

Lemma unaffordable_first_opcode_is_out_of_gas_witness :
  exists result,
    EVM.runInterpreter Sample.host 5 (EVM.executeMessage Sample.host 5)
      (Sample.codeMessage [0x01; 0x00] 2) Sample.executor7
    = Returned result Sample.executor7 /\
    ExecResult.exceptionError result = Some (VmError OUT_OF_GAS) /\
    ExecResult.gasUsed result = 2.
Proof.
  destruct (unaffordable_first_opcode_is_out_of_gas Sample.host 5
              (EVM.executeMessage Sample.host 5)
              (Sample.codeMessage [0x01; 0x00] 2)
              (CodeBytes [0x01; 0x00]) Sample.executor7)
    as (result & Hrun & Herr & Hgas & _).
  - reflexivity.
  - eexists. vm_compute. reflexivity.
  - discriminate.
  - vm_compute. discriminate.
  - vm_compute. reflexivity.
  - exists result. split; [exact Hrun|]. split; [exact Herr|exact Hgas].
Defined.

(** X6.  Whenever the interpreter returns, [runInterpreter] hands on the
    return value the EEI holds (the revert data, after a REVERT), or the
    empty buffer when it holds none, and leaves the state view as the run
    left it.  With an [exceptionError] the logs and the selfdestruct set
    of the run are dropped; without one they are the EEI's, and the
    executor is exactly as the run left it. *)
Theorem runInterpreter_clears_result_on_error (vm : VM.t) (fuel : nat)
    (exec : Message.t -> EVMState.t -> Outcome EVMResult.t)
    (message : Message.t) (c : Code) (s : EVMState.t)
    (interpreterRes : Interpreter.InterpreterResult) (s1 : EVMState.t) :
  Message.code message = Some c ->
  EVM.interpret vm fuel exec message c s = Returned interpreterRes s1 ->
  let eeiResult :=
    EEI._result (RunState.eei (Interpreter.runState interpreterRes)) in
  exists result s',
    EVM.runInterpreter vm fuel exec message s = Returned result s' /\
    ExecResult.returnValue result
      = default [] (EEI.returnValue eeiResult) /\
    EVMState._state s' = EVMState._state s1 /\
    (is_Some (Interpreter.exceptionError interpreterRes) ->
       ExecResult.logs result = Some [] /\
       ExecResult.selfdestruct result = Some ∅) /\
    (Interpreter.exceptionError interpreterRes = None ->
       ExecResult.logs result = Some (EEI.logs eeiResult) /\
       ExecResult.selfdestruct result = Some (EEI.selfdestruct eeiResult) /\
       s' = s1).
Proof.
  intros Hc Hint eeiResult. unfold EVM.runInterpreter. rewrite Hc, Hint.
  cbn [bindO]. subst eeiResult.
  destruct (Interpreter.exceptionError interpreterRes) as [e|] eqn:He;
    eexists _, _; (split; [reflexivity|]); cbn; repeat split; try done.
  all: by intros [? ?].
Qed.

Lemma runInterpreter_clears_result_on_error_witness :
  exists interpreterRes s1 result s',
    EVM.interpret Sample.host 20 (EVM.executeMessage Sample.host 20)
      (Sample.codeMessage [0x60; 1; 0x60; 0; 0xfd] 21000)
      (CodeBytes [0x60; 1; 0x60; 0; 0xfd]) Sample.executor7
    = Returned interpreterRes s1 /\
    EVM.runInterpreter Sample.host 20 (EVM.executeMessage Sample.host 20)
      (Sample.codeMessage [0x60; 1; 0x60; 0; 0xfd] 21000) Sample.executor7
    = Returned result s' /\
    ExecResult.exceptionError result = Some (VmError REVERT) /\
    ExecResult.returnValue result = [0] /\
    ExecResult.logs result = Some [] /\
    ExecResult.selfdestruct result = Some ∅.
Proof.
  eexists _, _, _, _. split; [vm_compute; reflexivity|].
  split; [vm_compute; reflexivity|].
  edestruct (runInterpreter_clears_result_on_error Sample.host 20
               (EVM.executeMessage Sample.host 20)
               (Sample.codeMessage [0x60; 1; 0x60; 0; 0xfd] 21000)
               (CodeBytes [0x60; 1; 0x60; 0; 0xfd]) Sample.executor7)
    as (result & s' & Hrun & Hret & _ & Herr & _);
    [reflexivity|vm_compute; reflexivity|].
  vm_compute in Hrun. injection Hrun as <- <-.
  destruct Herr as [Hlogs Hsd]; [eexists; reflexivity|].
  split; [reflexivity|]. split; [reflexivity|].
  split; [exact Hlogs|exact Hsd].
Defined.

(** X7.  [runInterpreter] on a message with empty code returns at once,
    with any fuel but 0: no error, no gas used, all the gas left, nothing
    returned or logged, and the executor as it was. *)
Theorem runInterpreter_empty_code_uses_no_gas (vm : VM.t) (fuel : nat)
    (exec : Message.t -> EVMState.t -> Outcome EVMResult.t)
    (message : Message.t) (s : EVMState.t) :
  Message.code message = Some (CodeBytes []) ->
  fuel <> O ->
  EVM.runInterpreter vm fuel exec message s
  = Returned
      {| ExecResult.exceptionError := None;
         ExecResult.gas := Some (Message.gasLimit message);
         ExecResult.gasUsed := 0;
         ExecResult.returnValue := [];
         ExecResult.logs := Some [];
         ExecResult.selfdestruct :=
           Some (default ∅ (Message.selfdestruct message));
         ExecResult.gasRefund := None |} s.
Proof.
  intros Hc Hfuel. destruct fuel as [|fuel]; [done|].
  unfold EVM.runInterpreter. rewrite Hc.
  unfold EVM.interpret, Interpreter.run. cbn -[Z.sub].
  change (Z.of_nat 0) with 0. cbn -[Z.sub]. by rewrite Z.sub_diag.
Qed.

Lemma runInterpreter_empty_code_uses_no_gas_witness :
  exists result,
    EVM.runInterpreter Sample.host 1 (EVM.executeMessage Sample.host 1)
      (Sample.codeMessage [] 21000) Sample.executor7
    = Returned result Sample.executor7 /\
    ExecResult.exceptionError result = None /\
    ExecResult.gasUsed result = 0 /\
    ExecResult.gas result = Some 21000.
Proof.
  eexists. split.
  - apply (runInterpreter_empty_code_uses_no_gas Sample.host 1
             (EVM.executeMessage Sample.host 1)
             (Sample.codeMessage [] 21000) Sample.executor7);
      [reflexivity|discriminate].
  - split; [reflexivity|]. split; reflexivity.
Defined.

(** X8.  An opcode that the table names but that has no handler does not
    make the executor throw: the [TypeError] of the call is caught by the
    interpreter loop and becomes the [exceptionError].  The fee had been
    charged by then, and [runInterpreter] reports the whole [gasLimit] as
    used. *)
Theorem missing_handler_is_reported_not_thrown (vm : VM.t) (fuel : nat)
    (exec : Message.t -> EVMState.t -> Outcome EVMResult.t)
    (message : Message.t) (c : Code) (s : EVMState.t) :
  let code := codeAsBuffer c in
  let opInfo := Interpreter.lookupOpInfo vm (readByte code 0) in
  Message.code message = Some c ->
  is_Some (Interpreter._getValidJumpDests vm fuel code) ->
  code <> [] ->
  Opcode.name opInfo <> "INVALID" ->
  Opcode.fee opInfo <= Message.gasLimit message ->
  VM.opHandlers vm (Opcode.name opInfo) = None ->
  EVM.runInterpreter vm fuel exec message s
  = Returned
      {| ExecResult.exceptionError := Some JsError;
         ExecResult.gas := Some (Message.gasLimit message - Opcode.fee opInfo);
         ExecResult.gasUsed := Message.gasLimit message;
         ExecResult.returnValue := [];
         ExecResult.logs := Some [];
         ExecResult.selfdestruct := Some ∅;
         ExecResult.gasRefund := None |} s.
Proof.
  intros code opInfo Hc [jumps Hj] Hne Hinv Hfee Hnone.
  destruct (getValidJumpDests_fuel _ _ _ _ Hj) as [fuel' ->].
  unfold EVM.runInterpreter. rewrite Hc. unfold EVM.interpret.
  unfold Interpreter.run. fold code. rewrite Hj. cbv zeta.
  cbn [Interpreter.initialRunState RunState.programCounter].
  change (negb (0 =? 0)) with false. cbn [andb].
  cbn [Interpreter.runLoop RunState.programCounter RunState.code].
  destruct (Z.ltb_spec 0 (Z.of_nat (length code))) as [_|Hlen].
  2:{ destruct code; [done|]. cbn [length] in Hlen. lia. }
  unfold Interpreter.runStep.
  cbn [RunState.set_opCode RunState.opCode RunState.code
       RunState.programCounter].
  fold opInfo.
  destruct (String.eqb_spec (Opcode.name opInfo) "INVALID") as [E|_];
    [done|].
  unfold EEI.useGas. cbn.
  destruct (Z.ltb_spec (Message.gasLimit message - Opcode.fee opInfo) 0)
    as [?|_]; [lia|].
  fold code. fold opInfo. rewrite Hnone.
  cbn. by rewrite set_refund_same.
Qed.

Lemma missing_handler_is_reported_not_thrown_witness :
  exists result,
    EVM.runInterpreter SampleMore.hostWithoutHandlers 5
      (EVM.executeMessage SampleMore.hostWithoutHandlers 5)
      (Sample.codeMessage [0x01; 0x00] 21000) Sample.executor7
    = Returned result Sample.executor7 /\
    ExecResult.exceptionError result = Some JsError /\
    ExecResult.gasUsed result = 21000 /\
    ExecResult.gas result = Some 20997.
Proof.
  eexists. split.
  - apply (missing_handler_is_reported_not_thrown
             SampleMore.hostWithoutHandlers 5
             (EVM.executeMessage SampleMore.hostWithoutHandlers 5)
             (Sample.codeMessage [0x01; 0x00] 21000)
             (CodeBytes [0x01; 0x00]) Sample.executor7).
    + reflexivity.
    + eexists. vm_compute. reflexivity.
    + discriminate.
    + vm_compute. discriminate.
    + vm_compute. discriminate.
    + reflexivity.
  - split; [reflexivity|]. split; reflexivity.
Defined.

(** ** The executor: value transfer and precompiles *)

Lemma getAccount_putAccount (a b : Buffer) (acc : Account.t)
    (st : StateManager.t) :
  StateManager.getAccount b (StateManager.putAccount a acc st)
  = if bool_decide (b = a) then acc else StateManager.getAccount b st.
Proof.
  unfold StateManager.getAccount, StateManager.putAccount. cbn.
  case_bool_decide as E.
  - subst. by rewrite lookup_insert_eq.
  - by rewrite lookup_insert_ne.
Qed.

Lemma loadCode_code (vm : VM.t) (message : Message.t) (s s' : EVMState.t) :
  StateManager.contractCode (StateManager.world (EVMState._state s'))
  = StateManager.contractCode (StateManager.world (EVMState._state s)) ->
  EVM._loadCode vm message s' = EVM._loadCode vm message s.
Proof.
  intros H. unfold EVM._loadCode, StateManager.getContractCode.
  by rewrite H.
Qed.

Lemma transferValue_code (message : Message.t) (to : Buffer)
    (s : EVMState.t) :
  let s2 := (EVM.transferValue message to s).2 in
  StateManager.contractCode (StateManager.world (EVMState._state s2))
  = StateManager.contractCode (StateManager.world (EVMState._state s)) /\
  StateManager.contractStorage (StateManager.world (EVMState._state s2))
  = StateManager.contractStorage (StateManager.world (EVMState._state s)) /\
  StateManager.checkpoints (EVMState._state s2)
  = StateManager.checkpoints (EVMState._state s).
Proof.
  unfold EVM.transferValue, EVM.tryAddToBalance, EVM._addToBalance.
  destruct (Message.delegatecall message); [done|].
  destruct (MAX_INTEGER <? _); done.
Qed.

(** X9.  A plain value transfer.  For a call that is no delegatecall, whose
    callee has no code, whose caller holds at least the value and whose
    callee's balance does not overflow, [_executeCall] returns the early
    result without error; in the state it leaves, the caller's balance is
    down by the value and the callee's is up by it, the other fields of
    both accounts being as before; a transfer to oneself leaves the
    account as it was; every other account is untouched. *)
Theorem executeCall_transfers_value (vm : VM.t) (fuel : nat)
    (exec : Message.t -> EVMState.t -> Outcome EVMResult.t)
    (message message1 : Message.t) (to : Buffer) (s : EVMState.t) :
  let caller := Message.caller message in
  let value := Message.value message in
  let before := fun addr => StateManager.getAccount addr (EVMState._state s) in
  Message.to message = Some to ->
  Message.delegatecall message = false ->
  0 <= value <= Account.balance (before caller) ->
  Account.balance (before to) + value <= MAX_INTEGER ->
  EVM._loadCode vm message s = Some message1 ->
  EVM.noCode message1 = true ->
  exists s',
    EVM._executeCall vm fuel exec message s
    = Returned (EVM.earlyResult None None, message1) s' /\
    let after := fun addr =>
      StateManager.getAccount addr (EVMState._state s') in
    (caller <> to ->
       after caller
         = Account.set_balance (Account.balance (before caller) - value)
             (before caller) /\
       after to
         = Account.set_balance (Account.balance (before to) + value)
             (before to)) /\
    (caller = to -> after caller = before caller) /\
    (forall addr, addr <> caller -> addr <> to -> after addr = before addr).
Proof.
  intros caller value before Hto Hdel Hval Hmax Hload Hno.
  pose proof (transferValue_code message to s) as (Hcode & _).
  assert (Ht : EVM.transferValue message to s
    = (None,
       EVMState.on_state
         (StateManager.putAccount to
            (Account.set_balance
               (Account.balance
                  (StateManager.getAccount to
                     (EVMState._state
                        (EVM._reduceSenderBalance (before caller) message s)))
                + value)
               (StateManager.getAccount to
                  (EVMState._state
                     (EVM._reduceSenderBalance (before caller) message s)))))
         (EVM._reduceSenderBalance (before caller) message s))).
  { unfold EVM.transferValue. rewrite Hdel.
    unfold EVM.tryAddToBalance, EVM._addToBalance. rewrite Hto.
    fold caller value before.
    match goal with |- context [MAX_INTEGER <? ?x] =>
      destruct (Z.ltb_spec MAX_INTEGER x) as [Hlt|_]; [|done] end.
    exfalso. revert Hlt.
    unfold EVM._reduceSenderBalance. cbn.
    rewrite getAccount_putAccount. fold caller value.
    case_bool_decide as E; cbn; [|fold (before to); lia].
    subst to. fold (before caller). lia. }
  eexists. split.
  { erewrite executeCall_exits_early; [| exact Hto | | by left].
    - rewrite Ht. reflexivity.
    - rewrite (loadCode_code vm message s _ Hcode). exact Hload. }
  unfold EVM._reduceSenderBalance. cbn.
  fold caller value.
  rewrite Z.abs_eq by lia.
  split; [|split].
  - intros Hne. rewrite !getAccount_putAccount.
    rewrite (bool_decide_eq_false_2 (caller = to)) by done.
    rewrite (bool_decide_eq_true_2 (caller = caller)) by done.
    rewrite (bool_decide_eq_true_2 (to = to)) by done.
    rewrite (bool_decide_eq_false_2 (to = caller)) by done.
    done.
  - intros E. rewrite <- E. rewrite !getAccount_putAccount.
    rewrite !(bool_decide_eq_true_2 (caller = caller)) by done.
    fold (before caller). unfold Account.set_balance. cbn.
    replace (Account.balance (before caller) - value + value)
      with (Account.balance (before caller)) by lia.
    by destruct (before caller).
  - intros addr H1 H2. rewrite !getAccount_putAccount.
    rewrite (bool_decide_eq_false_2 (addr = to)) by done.
    by rewrite (bool_decide_eq_false_2 (addr = caller)) by done.
Qed.

Lemma executeCall_transfers_value_witness :
  exists message1 s',
    EVM._executeCall Sample.host 20 (EVM.executeMessage Sample.host 20)
      (Sample.message (Some Sample.bob) Sample.alice 5 21000 [] 1)
      (EVMState.fresh (Sample.funded Sample.alice 100 Sample.emptyState))
    = Returned (EVM.earlyResult None None, message1) s' /\
    Account.balance
      (StateManager.getAccount Sample.alice (EVMState._state s')) = 95 /\
    Account.balance
      (StateManager.getAccount Sample.bob (EVMState._state s')) = 5.
Proof.
  eexists _, _. split; [vm_compute; reflexivity|].
  edestruct (executeCall_transfers_value Sample.host 20
               (EVM.executeMessage Sample.host 20)
               (Sample.message (Some Sample.bob) Sample.alice 5 21000 [] 1)
               (Message.set_code (Some (CodeBytes [])) false
                  (Sample.message (Some Sample.bob) Sample.alice 5 21000
                     [] 1))
               Sample.bob
               (EVMState.fresh
                  (Sample.funded Sample.alice 100 Sample.emptyState)))
    as (s' & Hrun & Hmoved & _ & _).
  - reflexivity.
  - reflexivity.
  - vm_compute. split; discriminate.
  - vm_compute. discriminate.
  - vm_compute. reflexivity.
  - reflexivity.
  - vm_compute in Hrun. injection Hrun as <-.
    destruct Hmoved as [Ha Hb]; [vm_compute; discriminate|].
    apply (f_equal Account.balance) in Ha, Hb.
    vm_compute in Ha, Hb. vm_compute. split; [exact Ha|exact Hb].
Defined.

(** X10.  A call whose code address holds a precompile never reaches the
    interpreter: when the value transfer succeeds, the result of
    [_executeCall] is the precompile's result on the message's data and
    gas limit, whatever the fuel, the handlers and the code stored at the
    address, and the message comes back with the precompile as its code,
    marked [isCompiled]. *)
Theorem executeCall_runs_precompile (vm : VM.t) (fuel : nat)
    (exec : Message.t -> EVMState.t -> Outcome EVMResult.t)
    (message : Message.t) (to codeAddress : Buffer) (s : EVMState.t)
    (precompile : PrecompileFunc) :
  Message.to message = Some to ->
  Message.code message = None ->
  Message.codeAddress message = Some codeAddress ->
  VM.getPrecompile vm codeAddress = Some precompile ->
  (EVM.transferValue message to s).1 = None ->
  let result :=
    precompile (Message.data message) (Message.gasLimit message) in
  EVM._executeCall vm fuel exec message s
  = Returned
      ({| EVMResult.gasUsed := ExecResult.gasUsed result;
          EVMResult.createdAddress := None;
          EVMResult.execResult := result |},
       Message.set_code (Some (CodePrecompile precompile)) true message)
      (EVM.transferValue message to s).2.
Proof.
  intros Hto Hcode Haddr Hpre Herr result.
  unfold EVM._executeCall. rewrite Hto.
  destruct (EVM.transferValue message to s) as [err s2]. cbn in Herr.
  subst err. cbn [snd].
  unfold EVM._loadCode. rewrite Hcode, Haddr, Hpre.
  reflexivity.
Qed.

Lemma executeCall_runs_precompile_witness :
  exists message1 s',
    EVM._executeCall Sample.host 0 (fun _ _ => Diverged)
      (Sample.message (Some (zeros 19 ++ [4])) Sample.alice 0 1000
         [1; 2; 3] 1)
      (EVMState.fresh Sample.emptyState)
    = Returned
        ({| EVMResult.gasUsed := 18;
            EVMResult.createdAddress := None;
            EVMResult.execResult := Sample.identity [1; 2; 3] 1000 |},
         message1) s' /\
    ExecResult.returnValue (Sample.identity [1; 2; 3] 1000) = [1; 2; 3].
Proof.
  eexists _, _. split; [|reflexivity].
  apply (executeCall_runs_precompile Sample.host 0 (fun _ _ => Diverged)
           (Sample.message (Some (zeros 19 ++ [4])) Sample.alice 0 1000
              [1; 2; 3] 1)
           (zeros 19 ++ [4]) (zeros 19 ++ [4])
           (EVMState.fresh Sample.emptyState) Sample.identity);
    reflexivity.
Defined.

(** ** The executor: creations *)

Lemma createPrologue_gasLimit (vm : VM.t) (message : Message.t)
    (s : EVMState.t) :
  Message.gasLimit (EVM.createPrologue vm message s).1
  = Message.gasLimit message.
Proof. reflexivity. Qed.

(** What the code-deposit step returns, in terms of the interpreter's
    result. *)
Lemma finishCreate_spec (vm : VM.t) (message : Message.t)
    (r : ExecResult.t) (s4 : EVMState.t) (to : Buffer) :
  Message.to message = Some to ->
  let returnLength := Z.of_nat (length (ExecResult.returnValue r)) in
  let totalGas :=
    match ExecResult.exceptionError r with
    | None => ExecResult.gasUsed r
              + returnLength * VM.param vm "gasPrices" "createData"
    | Some _ => ExecResult.gasUsed r
    end in
  let fits :=
    (totalGas <=? Message.gasLimit message)
    && (VM.allowUnlimitedContractSize vm
        || negb (VM.gteHardfork vm "spuriousDragon"
                 && (VM.param vm "vm" "maxCodeSize" <? returnLength))) in
  exists result s',
    EVM.finishCreate vm message r s4 = Returned (result, message) s' /\
    EVMResult.gasUsed result
      = ExecResult.gasUsed (EVMResult.execResult result) /\
    (fits = true ->
       EVMResult.execResult result = ExecResult.set_gasUsed totalGas r /\
       s' = match ExecResult.exceptionError r, ExecResult.returnValue r with
            | None, _ :: _ =>
                EVMState.on_state
                  (StateManager.putContractCode to (ExecResult.returnValue r))
                  s4
            | _, _ => s4
            end) /\
    (fits = false ->
       ExecResult.exceptionError (EVMResult.execResult result)
         = Some (VmError OUT_OF_GAS) /\
       ExecResult.gasUsed (EVMResult.execResult result)
         = Message.gasLimit message /\
       ExecResult.returnValue (EVMResult.execResult result) = [] /\
       s' = s4).
Proof.
  intros Hto returnLength totalGas fits. unfold EVM.finishCreate.
  fold returnLength. fold totalGas. fold fits. rewrite Hto.
  eexists _, _. split; [reflexivity|]. split; [reflexivity|].
  destruct fits; split; intros Hf; try discriminate; cbn; [|done].
  split; [done|]. by destruct (ExecResult.exceptionError r).
Qed.

(** [_executeCreate], case by case. *)
Lemma executeCreate_cases (vm : VM.t) (fuel : nat)
    (exec : Message.t -> EVMState.t -> Outcome EVMResult.t)
    (message : Message.t) (s : EVMState.t) :
  let message3 := (EVM.createPrologue vm message s).1 in
  let s1 := (EVM.createPrologue vm message s).2 in
  let to := EVM._generateAddress vm message s in
  EVM._executeCreate vm fuel exec message s
  = if EVM.collides (StateManager.getAccount to (EVMState._state s1))
    then Returned (EVM.collisionResult message3, message3) s1
    else if EVM.noCode message3
    then Returned
           (EVM.earlyResult (Some to) (EVM.createAccount vm message3 to s1).1,
            message3)
           (EVM.createAccount vm message3 to s1).2
    else bindO
           (EVM.runInterpreter vm fuel exec message3
              (EVM.createAccount vm message3 to s1).2)
           (EVM.finishCreate vm message3).
Proof.
  intros message3 s1 to. unfold EVM._executeCreate.
  pose proof (createPrologue_to vm message s) as Hto.
  subst message3 s1.
  destruct (EVM.createPrologue vm message s) as [message3 s1].
  cbn [fst snd] in *. rewrite Hto. unfold default. cbn [from_option id].
  fold to. destruct (EVM.collides _); [done|].
  by destruct (EVM.createAccount vm message3 to s1) as [err s3].
Qed.

(** X11.  Every result that [_executeCreate] returns for a message with a
    non-negative gas limit uses at most that gas limit, and its [gasUsed]
    is the [gasUsed] of its [execResult]. *)
Theorem executeCreate_gas_within_limit (vm : VM.t) (fuel : nat)
    (exec : Message.t -> EVMState.t -> Outcome EVMResult.t)
    (message message' : Message.t) (s s' : EVMState.t)
    (result : EVMResult.t) :
  0 <= Message.gasLimit message ->
  EVM._executeCreate vm fuel exec message s = Returned (result, message') s' ->
  EVMResult.gasUsed result <= Message.gasLimit message /\
  EVMResult.gasUsed result
    = ExecResult.gasUsed (EVMResult.execResult result).
Proof.
  intros Hgas. rewrite executeCreate_cases.
  pose proof (createPrologue_to vm message s) as Hto.
  pose proof (createPrologue_gasLimit vm message s) as Hlim.
  destruct (EVM.collides _).
  { intros [= <- _ _]. split; [|done].
    change (Message.gasLimit message <= Message.gasLimit message). lia. }
  destruct (EVM.noCode _).
  { intros [= <- _ _]. cbn. split; [lia|done]. }
  destruct (EVM.runInterpreter _ _ _ _ _) as [r s4| |]; [|done..].
  cbn [bindO].
  destruct (finishCreate_spec vm _ r s4 _ Hto)
    as (result' & s'' & -> & Hsame & Hfit & Hno).
  intros [= <- _ _]. split; [|exact Hsame]. rewrite Hsame, <- Hlim.
  match type of Hfit with (?b = true -> _) => destruct b eqn:Hb end.
  - destruct (Hfit eq_refl) as [-> _]. cbn.
    apply andb_true_iff in Hb as [Hb _]. by apply Z.leb_le in Hb.
  - destruct (Hno eq_refl) as (_ & -> & _). lia.
Qed.

Lemma executeCreate_gas_within_limit_witness :
  exists result message' s',
    EVM._executeCreate Sample.host 20 (EVM.executeMessage Sample.host 20)
      (Sample.createMessage 0 50000 [0x60; 1; 0x60; 0; 0xf3])
      (EVMState.fresh (Sample.creating Sample.bob Sample.emptyState))
    = Returned (result, message') s' /\
    EVMResult.gasUsed result = 206 /\
    EVMResult.gasUsed result <= 50000 /\
    EVMResult.gasUsed result
      = ExecResult.gasUsed (EVMResult.execResult result).
Proof.
  eexists _, _, _. split; [vm_compute; reflexivity|].
  split; [reflexivity|].
  edestruct (executeCreate_gas_within_limit Sample.host 20
               (EVM.executeMessage Sample.host 20)
               (Sample.createMessage 0 50000 [0x60; 1; 0x60; 0; 0xf3]))
    with (s := EVMState.fresh (Sample.creating Sample.bob Sample.emptyState))
    as [Hle Hsame].
  - vm_compute. discriminate.
  - vm_compute. reflexivity.
  - split; [exact Hle|exact Hsame].
Defined.

(** X12.  A creation that succeeds with a non-empty return value has stored
    exactly that value as the code of the new address; and from Spurious
    Dragon on, unless [allowUnlimitedContractSize] is set, the value is
    no longer than [maxCodeSize]. *)
Theorem executeCreate_success_stores_code (vm : VM.t) (fuel : nat)
    (exec : Message.t -> EVMState.t -> Outcome EVMResult.t)
    (message message' : Message.t) (s s' : EVMState.t)
    (result : EVMResult.t) :
  EVM._executeCreate vm fuel exec message s = Returned (result, message') s' ->
  ExecResult.exceptionError (EVMResult.execResult result) = None ->
  let code := ExecResult.returnValue (EVMResult.execResult result) in
  code <> [] ->
  (StateManager.getContractCode (EVM._generateAddress vm message s)
     (EVMState._state s') = code) /\
  (VM.allowUnlimitedContractSize vm = false ->
   VM.gteHardfork vm "spuriousDragon" = true ->
   Z.of_nat (length code) <= VM.param vm "vm" "maxCodeSize").
Proof.
  rewrite executeCreate_cases.
  pose proof (createPrologue_to vm message s) as Hto.
  destruct (EVM.collides _); [by intros [= <- _ _]|].
  destruct (EVM.noCode _).
  { by intros [= <- _ _] _. }
  destruct (EVM.runInterpreter _ _ _ _ _) as [r s4| |]; [|done..].
  cbn [bindO].
  destruct (finishCreate_spec vm _ r s4 _ Hto)
    as (result' & s'' & -> & Hsame & Hfit & Hno).
  intros Heq Herr. injection Heq as <- _ <-.
  match type of Hfit with (?b = true -> _) => destruct b eqn:Hb end.
  2:{ destruct (Hno eq_refl) as (E & _). congruence. }
  destruct (Hfit eq_refl) as [He ->]. rewrite He in Herr |- *.
  cbn in Herr |- *. rewrite Herr.
  intros Hne. split.
  - destruct (ExecResult.returnValue r) eqn:Hr; [done|].
    unfold StateManager.getContractCode. cbn. by rewrite lookup_insert_eq.
  - intros Hu Hs. rewrite Hu, Hs in Hb. cbn in Hb.
    apply andb_true_iff in Hb as [_ Hb]. apply negb_true_iff in Hb.
    by apply Z.ltb_ge in Hb.
Qed.

Lemma executeCreate_success_stores_code_witness :
  exists result message' s',
    EVM._executeCreate Sample.host 20 (EVM.executeMessage Sample.host 20)
      (Sample.createMessage 0 50000 [0x60; 1; 0x60; 0; 0xf3])
      (EVMState.fresh (Sample.creating Sample.bob Sample.emptyState))
    = Returned (result, message') s' /\
    ExecResult.exceptionError (EVMResult.execResult result) = None /\
    ExecResult.returnValue (EVMResult.execResult result) = [0] /\
    StateManager.getContractCode Sample.bob (EVMState._state s') = [0].
Proof.
  eexists _, _, _. split; [vm_compute; reflexivity|].
  split; [reflexivity|]. split; [reflexivity|].
  edestruct (executeCreate_success_stores_code Sample.host 20
               (EVM.executeMessage Sample.host 20)
               (Sample.createMessage 0 50000 [0x60; 1; 0x60; 0; 0xf3]))
    with (s := EVMState.fresh (Sample.creating Sample.bob Sample.emptyState))
    as [Hcode _].
  - vm_compute. reflexivity.
  - reflexivity.
  - discriminate.
  - vm_compute in Hcode. vm_compute. exact Hcode.
Defined.

Lemma createPrologue_noCode (vm : VM.t) (message : Message.t)
    (s : EVMState.t) :
  EVM.noCode (EVM.createPrologue vm message s).1
  = bool_decide (Message.data message = []).
Proof.
  unfold EVM.createPrologue, EVM.noCode. cbn.
  destruct (Message.data message); [done|].
  cbn [length]. rewrite bool_decide_eq_false_2 by done.
  apply Z.eqb_neq. lia.
Qed.

(** X13.  The code-deposit step of a creation that does not collide and whose
    init code ran without error.  The fee is [createData] per returned
    byte, on top of the gas the run used.  If the total is within the gas
    limit and the size is allowed, the creation succeeds with the total as
    [gasUsed] and the returned bytes as return value; if not, it fails
    with OUT_OF_GAS, uses the whole gas limit, returns nothing and stores
    no code. *)
Theorem executeCreate_code_deposit (vm : VM.t) (fuel : nat)
    (exec : Message.t -> EVMState.t -> Outcome EVMResult.t)
    (message : Message.t) (s : EVMState.t) (r : ExecResult.t)
    (s4 : EVMState.t) :
  let message3 := (EVM.createPrologue vm message s).1 in
  let s1 := (EVM.createPrologue vm message s).2 in
  let to := EVM._generateAddress vm message s in
  let s3 := (EVM.createAccount vm message3 to s1).2 in
  let returnLength := Z.of_nat (length (ExecResult.returnValue r)) in
  let totalGas :=
    ExecResult.gasUsed r
    + returnLength * VM.param vm "gasPrices" "createData" in
  let allowedCodeSize :=
    VM.allowUnlimitedContractSize vm
    || negb (VM.gteHardfork vm "spuriousDragon"
             && (VM.param vm "vm" "maxCodeSize" <? returnLength)) in
  EVM.collides (StateManager.getAccount to (EVMState._state s1)) = false ->
  Message.data message <> [] ->
  EVM.runInterpreter vm fuel exec message3 s3 = Returned r s4 ->
  ExecResult.exceptionError r = None ->
  exists result s',
    EVM._executeCreate vm fuel exec message s
    = Returned (result, message3) s' /\
    (totalGas <= Message.gasLimit message -> allowedCodeSize = true ->
       ExecResult.exceptionError (EVMResult.execResult result) = None /\
       EVMResult.gasUsed result = totalGas /\
       ExecResult.returnValue (EVMResult.execResult result)
         = ExecResult.returnValue r) /\
    (Message.gasLimit message < totalGas \/ allowedCodeSize = false ->
       ExecResult.exceptionError (EVMResult.execResult result)
         = Some (VmError OUT_OF_GAS) /\
       EVMResult.gasUsed result = Message.gasLimit message /\
       ExecResult.returnValue (EVMResult.execResult result) = [] /\
       s' = s4).
Proof.
  intros message3 s1 to s3 returnLength totalGas allowedCodeSize
    Hcol Hdata Hrun Herr.
  rewrite executeCreate_cases. fold message3 s1 to s3. rewrite Hcol.
  unfold message3 at 1. rewrite createPrologue_noCode.
  rewrite bool_decide_eq_false_2 by done. rewrite Hrun. cbn [bindO].
  destruct (finishCreate_spec vm message3 r s4 to
              (createPrologue_to vm message s))
    as (result & s' & -> & Hsame & Hfit & Hno).
  rewrite Herr in Hfit, Hno. fold returnLength totalGas in Hfit, Hno.
  change (Message.gasLimit message3) with (Message.gasLimit message)
    in Hfit, Hno.
  fold allowedCodeSize in Hfit, Hno.
  exists result, s'. split; [done|]. split.
  - intros Hgas Hsize. rewrite Hsize, andb_true_r in Hfit.
    destruct Hfit as [He _]; [by apply Z.leb_le|].
    rewrite Hsame, He. cbn. by rewrite Herr.
  - intros Hbad.
    destruct Hno as (He & Hg & Hr & Hs).
    + destruct Hbad as [Hgas|Hsize].
      * apply andb_false_iff. left. apply Z.leb_gt. lia.
      * apply andb_false_iff. by right.
    + by rewrite Hsame.
Qed.

Lemma executeCreate_code_deposit_witness :
  exists result message3 s',
    EVM._executeCreate Sample.host 20 (EVM.executeMessage Sample.host 20)
      (Sample.createMessage 0 100 [0x60; 1; 0x60; 0; 0xf3])
      (EVMState.fresh (Sample.creating Sample.bob Sample.emptyState))
    = Returned (result, message3) s' /\
    ExecResult.exceptionError (EVMResult.execResult result)
      = Some (VmError OUT_OF_GAS) /\
    EVMResult.gasUsed result = 100 /\
    ExecResult.returnValue (EVMResult.execResult result) = [] /\
    StateManager.getContractCode Sample.bob (EVMState._state s') = [].
Proof.
  eexists _, _, _. split; [vm_compute; reflexivity|].
  edestruct (executeCreate_code_deposit Sample.host 20
               (EVM.executeMessage Sample.host 20)
               (Sample.createMessage 0 100 [0x60; 1; 0x60; 0; 0xf3])
               (EVMState.fresh (Sample.creating Sample.bob Sample.emptyState)))
    as (result & s' & Hrun & _ & Hfail).
  - vm_compute. reflexivity.
  - discriminate.
  - vm_compute. reflexivity.
  - reflexivity.
  - vm_compute in Hrun. injection Hrun as <- <-.
    destruct Hfail as (Herr & Hgas & Hret & _);
      [left; vm_compute; reflexivity|].
    split; [exact Herr|]. split; [exact Hgas|]. split; [exact Hret|].
    reflexivity.
Defined.

(** ** The executor: the result of a message *)

Lemma filterLogs_spec (vm : VM.t) (logs : list Log) :
  Forall (fun log : Log => log.1.1 <> VM.OVM_ExecutionManager_address vm)
    (EVM.filterLogs vm logs).
Proof.
  unfold EVM.filterLogs. apply List.Forall_forall. intros log Hin.
  apply filter_In in Hin as [_ Hin]. apply negb_true_iff in Hin.
  by apply bool_decide_eq_false in Hin.
Qed.

(** What the tail of [executeMessage] makes of the result of the
    dispatch. *)
Lemma leave_result (vm : VM.t) (isTarget : bool) (result0 : EVMResult.t)
    (message : Message.t) (s3 : EVMState.t) (result : EVMResult.t)
    (s' : EVMState.t) :
  EVM.leave vm isTarget result0 message s3 = Returned result s' ->
  ExecResult.gasRefund (EVMResult.execResult result)
    = Some (EVMState._refund s3) /\
  EVMState._refund s' = EVMState._refund s3 /\
  EVMResult.gasUsed result = EVMResult.gasUsed result0 /\
  ExecResult.gasUsed (EVMResult.execResult result)
    = ExecResult.gasUsed (EVMResult.execResult result0) /\
  (Message.depth message = 0 ->
   is_Some (EVMState._targetMessageResult s') ->
   forall logs,
     ExecResult.logs (EVMResult.execResult result) = Some logs ->
     Forall (fun log : Log =>
               log.1.1 <> VM.OVM_ExecutionManager_address vm) logs) /\
  (Message.depth message = 1 ->
   forall to, Message.to message = Some to ->
     VM.bufferToString vm to
       <> VM.bufferToString vm (VM.OVM_StateManager_address vm) ->
     EVMState._accountMessageResult s' = Some result).
Proof.
  unfold EVM.leave.
  destruct (EVM.settle isTarget result0 _) as [result1 s4] eqn:Hsettle.
  assert (H1 :
    ExecResult.gasRefund (EVMResult.execResult result1)
      = Some (EVMState._refund s3) /\
    EVMState._refund s4 = EVMState._refund s3 /\
    EVMResult.gasUsed result1 = EVMResult.gasUsed result0 /\
    ExecResult.gasUsed (EVMResult.execResult result1)
      = ExecResult.gasUsed (EVMResult.execResult result0)).
  { unfold EVM.settle in Hsettle. cbn in Hsettle.
    destruct (ExecResult.exceptionError (EVMResult.execResult result0));
      destruct isTarget; injection Hsettle as <- <-; by cbn. }
  destruct H1 as (Href & Hs4 & Hg & Hg').
  destruct (Z.eqb_spec (Message.depth message) 0) as [Hd|Hd].
  - destruct (EVM.reconcile vm isTarget result1 s4) as [result2 s5] eqn:Hrec.
    unfold EVM.recordAccountMessage. rewrite Hd.
    change (0 =? 1) with false. cbv iota. intros [= <- <-].
    unfold EVM.reconcile in Hrec.
    destruct (EVMState._targetMessageResult s4) as [recorded|] eqn:Ht.
    + injection Hrec as <- <-. cbn.
      split; [done|]. split; [by destruct isTarget|].
      split; [done|]. split; [done|]. split; [|intros; lia].
      intros _ _ logs Hlogs.
      destruct (ExecResult.logs (EVMResult.execResult result1));
        [|done]. cbn in Hlogs. injection Hlogs as <-.
      apply filterLogs_spec.
    + injection Hrec as <- <-. cbn.
      split; [done|]. split; [done|]. split; [done|]. split; [done|].
      split; [|intros; lia]. intros _ [? Hsome]. congruence.
  - unfold EVM.recordAccountMessage.
    destruct (Z.eqb_spec (Message.depth message) 1) as [Hd1|Hd1].
    + destruct (Message.to message) as [to|]; [|done].
      destruct (negb _) eqn:Hneq; intros [= <- <-]; cbn;
        (split; [done|]); (split; [done|]); (split; [done|]);
        (split; [done|]); (split; [intros; lia|]).
      * by intros _ to' [= <-] _.
      * intros _ to' [= <-] Hne. apply negb_false_iff in Hneq.
        by apply String.eqb_eq in Hneq.
    + intros [= <- <-].
      split; [done|]. split; [done|]. split; [done|]. split; [done|].
      split; intros; lia.
Qed.

Lemma finishCreate_gasUsed (vm : VM.t) (message message' : Message.t)
    (r : ExecResult.t) (s s' : EVMState.t) (result : EVMResult.t) :
  EVM.finishCreate vm message r s = Returned (result, message') s' ->
  EVMResult.gasUsed result = ExecResult.gasUsed (EVMResult.execResult result).
Proof. unfold EVM.finishCreate. by intros [= <- _ _]. Qed.

Lemma dispatch_gasUsed (vm : VM.t) (fuel : nat)
    (exec : Message.t -> EVMState.t -> Outcome EVMResult.t)
    (message message' : Message.t) (s s' : EVMState.t)
    (result : EVMResult.t) :
  EVM.dispatch vm fuel exec message s = Returned (result, message') s' ->
  EVMResult.gasUsed result = ExecResult.gasUsed (EVMResult.execResult result).
Proof.
  unfold EVM.dispatch. destruct (Message.to message) as [to|] eqn:Hto.
  - destruct (EVM.isStateManager _).
    + destruct (EVM.handleCall vm message s); [|done..].
      by intros [= <- _ _].
    + unfold EVM._executeCall. rewrite Hto.
      destruct (EVM.transferValue message to s) as [err s2].
      destruct (EVM._loadCode vm message s2) as [message1|]; [|done].
      destruct (_ || _); [by intros [= <- _ _]|].
      destruct (if Message.isCompiled message1 then _ else _); [|done..].
      by intros [= <- _ _].
  - unfold EVM._executeCreate.
    destruct (EVM.createPrologue vm message s) as [message3 s1].
    destruct (EVM.collides _); [by intros [= <- _ _]|].
    destruct (EVM.createAccount vm message3 _ s1) as [err s3].
    destruct (EVM.noCode message3); [by intros [= <- _ _]|].
    destruct (EVM.runInterpreter vm fuel exec message3 s3); [|done..].
    cbn [bindO]. apply finishCreate_gasUsed.
Qed.

(** X14.  Every result of [executeMessage] carries in [gasRefund] the refund
    accumulator of the executor as it is when the message returns, and
    its [gasUsed] is the [gasUsed] of its [execResult]. *)
Theorem executeMessage_result_gas_fields (vm : VM.t) (n : nat)
    (message : Message.t) (s s' : EVMState.t) (result : EVMResult.t) :
  EVM.executeMessage vm n message s = Returned result s' ->
  ExecResult.gasRefund (EVMResult.execResult result)
    = Some (EVMState._refund s') /\
  EVMResult.gasUsed result = ExecResult.gasUsed (EVMResult.execResult result).
Proof.
  destruct n as [|n]; [done|].
  cbn [EVM.executeMessage]. unfold EVM.executeMessage_body.
  destruct (EVM.enter vm message s) as [[message1 isTarget] s2].
  destruct (EVM.dispatch vm n (EVM.executeMessage vm n) message1 s2)
    as [[result0 message2] s3| |] eqn:Hdis; [|done..].
  cbn [bindO]. intros Hleave.
  apply leave_result in Hleave as (Href & Hs & Hg & Hg' & _).
  apply dispatch_gasUsed in Hdis. split; congruence.
Qed.

Lemma executeMessage_result_gas_fields_witness :
  exists result s',
    EVM.executeMessage Sample.host 20
      (Sample.codeMessage [0x60; 1; 0x60; 0; 0xf3] 21000) Sample.executor7
    = Returned result s' /\
    ExecResult.gasRefund (EVMResult.execResult result) = Some 7 /\
    EVMState._refund s' = 7 /\
    EVMResult.gasUsed result = 6 /\
    ExecResult.gasUsed (EVMResult.execResult result) = 6.
Proof.
  eexists _, _. split; [vm_compute; reflexivity|].
  destruct (executeMessage_result_gas_fields Sample.host 20
              (Sample.codeMessage [0x60; 1; 0x60; 0; 0xf3] 21000)
              Sample.executor7 _ _ ltac:(vm_compute; reflexivity))
    as [Href Hgas].
  split; [exact Href|]. split; [reflexivity|]. split; [reflexivity|].
  by rewrite <- Hgas.
Defined.

(** X15.  At depth 0, when a target result is recorded, no log of the result
    returned was emitted by the Execution Manager's address. *)
Theorem depth0_logs_exclude_execution_manager (vm : VM.t) (n : nat)
    (message : Message.t) (s s' : EVMState.t) (result : EVMResult.t)
    (logs : list Log) :
  EVM.executeMessage vm n message s = Returned result s' ->
  Message.depth (EVM.enter vm message s).1.1 = 0 ->
  is_Some (EVMState._targetMessageResult s') ->
  ExecResult.logs (EVMResult.execResult result) = Some logs ->
  forall log, log ∈ logs ->
    log.1.1 <> VM.OVM_ExecutionManager_address vm.
Proof.
  destruct n as [|n]; [done|].
  cbn [EVM.executeMessage]. unfold EVM.executeMessage_body.
  destruct (EVM.enter vm message s) as [[message1 isTarget] s2].
  cbn [fst]. intros Hrun Hdepth Htarget Hlogs.
  destruct (EVM.dispatch vm n (EVM.executeMessage vm n) message1 s2)
    as [[result0 message2] s3| |] eqn:Hdis; [|done..].
  cbn [bindO] in Hrun.
  apply dispatch_message in Hdis as [Hd _].
  apply leave_result in Hrun as (_ & _ & _ & _ & Hl & _).
  rewrite Hd in Hl. specialize (Hl Hdepth Htarget logs Hlogs).
  intros log Hin. rewrite Forall_forall in Hl. by apply Hl.
Qed.

Lemma depth0_logs_exclude_execution_manager_witness :
  let message :=
    Sample.message (Some Sample.carol) Sample.alice 0 100000 [] 0 in
  let s := EVMState.fresh SampleMore.loggingState in
  exists result0 message2 s3 result s',
    EVM.dispatch SampleMore.loggingHost 19 (EVM.executeMessage SampleMore.loggingHost 19)
      (EVM.enter SampleMore.loggingHost message s).1.1
      (EVM.enter SampleMore.loggingHost message s).2
    = Returned (result0, message2) s3 /\
    ExecResult.logs (EVMResult.execResult result0)
    = Some [SampleMore.logOf Sample.EM_address; SampleMore.logOf Sample.bob;
            SampleMore.logOf Sample.carol] /\
    EVM.executeMessage SampleMore.loggingHost 20 message s = Returned result s' /\
    is_Some (EVMState._targetMessageResult s') /\
    ExecResult.exceptionError (EVMResult.execResult result) = None /\
    ExecResult.logs (EVMResult.execResult result)
    = Some [SampleMore.logOf Sample.bob; SampleMore.logOf Sample.carol] /\
    forall log, log ∈ [SampleMore.logOf Sample.bob; SampleMore.logOf Sample.carol] ->
      log.1.1 <> VM.OVM_ExecutionManager_address SampleMore.loggingHost.
Proof.
  intros message s.
  eexists _, _, _, _, _. split; [vm_compute; reflexivity|].
  split; [reflexivity|]. split; [vm_compute; reflexivity|].
  split; [eexists; reflexivity|]. split; [reflexivity|].
  split; [reflexivity|].
  apply (depth0_logs_exclude_execution_manager SampleMore.loggingHost 20 message s
           _ _ _ ltac:(vm_compute; reflexivity)).
  - reflexivity.
  - eexists. reflexivity.
  - reflexivity.
Defined.

Lemma dispatch_call_to (vm : VM.t) (fuel : nat)
    (exec : Message.t -> EVMState.t -> Outcome EVMResult.t)
    (message message' : Message.t) (s s' : EVMState.t)
    (result : EVMResult.t) (to : Buffer) :
  Message.to message = Some to ->
  EVM.dispatch vm fuel exec message s = Returned (result, message') s' ->
  Message.depth message' = Message.depth message /\
  Message.to message' = Some to.
Proof.
  intros Hto. unfold EVM.dispatch. rewrite Hto.
  destruct (EVM.isStateManager _).
  - destruct (EVM.handleCall vm message s); [|done..].
    by intros [= _ <- _].
  - intros H. apply executeCall_message in H as [? ?]. split; congruence.
Qed.

(** X16.  The result of a call at depth 1 whose [to], as a string, differs
    from the StateManager's address is recorded as the account-message
    result: when [executeMessage] returns, [_accountMessageResult] is the
    very result returned. *)
Theorem depth1_call_result_is_recorded (vm : VM.t) (n : nat)
    (message : Message.t) (to : Buffer) (s s' : EVMState.t)
    (result : EVMResult.t) :
  Message.depth message = 1 ->
  Message.to message = Some to ->
  VM.bufferToString vm to
    <> VM.bufferToString vm (VM.OVM_StateManager_address vm) ->
  EVM.executeMessage vm n message s = Returned result s' ->
  EVMState._accountMessageResult s' = Some result.
Proof.
  intros Hdepth Hto Hne.
  destruct n as [|n]; [done|].
  cbn [EVM.executeMessage]. unfold EVM.executeMessage_body.
  destruct (enter_state vm message s) as (_ & _ & _ & _ & Hsame).
  destruct (Hsame ltac:(lia)) as [Hm _].
  destruct (EVM.enter vm message s) as [[message1 isTarget] s2].
  cbn [fst] in Hm. subst message1.
  destruct (EVM.dispatch vm n (EVM.executeMessage vm n) message s2)
    as [[result0 message2] s3| |] eqn:Hdis; [|done..].
  cbn [bindO]. intros Hrun.
  apply (dispatch_call_to _ _ _ _ _ _ _ _ _ Hto) in Hdis as [Hd Hto2].
  apply leave_result in Hrun as (_ & _ & _ & _ & _ & Hacc).
  apply (Hacc ltac:(lia) to Hto2 Hne).
Qed.

Lemma depth1_call_result_is_recorded_witness :
  exists result s',
    EVM.executeMessage Sample.host 1
      (Sample.message (Some Sample.bob) Sample.alice 0 1000 [] 1)
      (EVMState.fresh Sample.emptyState) = Returned result s' /\
    EVMState._accountMessageResult s' = Some result.
Proof.
  eexists _, _. split; [vm_compute; reflexivity|].
  apply (depth1_call_result_is_recorded Sample.host 1
           (Sample.message (Some Sample.bob) Sample.alice 0 1000 [] 1)
           Sample.bob (EVMState.fresh Sample.emptyState)).
  - reflexivity.
  - reflexivity.
  - vm_compute. discriminate.
  - vm_compute. reflexivity.
Defined.

(** ** The bridge and the older variant *)

(** X17.  What a call through the bridge can change: nothing, unless the
    function resolved is [setStorage] or [incrementOvmContractNonce];
    never the code of a contract or the checkpoint stack; the accounts
    only through [incrementOvmContractNonce], and the storage only through
    [setStorage].  A selector the interface does not know raises and
    leaves the state view as it was. *)
Theorem bridge_writes_only_storage_and_nonce (vm : VM.t)
    (message : Message.t) (st : StateManager.t) :
  let methodId := VM.toHexString vm (sliceTo 4 (Message.data message)) in
  let fragment :=
    Interface.getFunction (VM.StateManager_iface vm) methodId in
  let st' := (OvmStateManager.handleCall vm message st).2 in
  (fragment <> Some "setStorage" ->
   fragment <> Some "incrementOvmContractNonce" -> st' = st) /\
  (fragment = None -> OvmStateManager.handleCall vm message st = (None, st)) /\
  StateManager.contractCode (StateManager.world st')
    = StateManager.contractCode (StateManager.world st) /\
  StateManager.checkpoints st' = StateManager.checkpoints st /\
  (fragment <> Some "incrementOvmContractNonce" ->
   StateManager.accounts (StateManager.world st')
   = StateManager.accounts (StateManager.world st)) /\
  (fragment <> Some "setStorage" ->
   StateManager.contractStorage (StateManager.world st')
   = StateManager.contractStorage (StateManager.world st)).
Proof.
  intros methodId fragment st'. subst st'.
  unfold OvmStateManager.handleCall. fold methodId. fold fragment.
  destruct fragment as [name|]; [|by repeat split].
  destruct (Interface.decodeFunctionData _ _ _) as [args|];
    [|by repeat split].
  assert (H : forall ret st1,
    OvmStateManager._handlers vm name args st = Some (ret, st1) ->
    (Some name <> Some "setStorage" ->
     Some name <> Some "incrementOvmContractNonce" -> st1 = st) /\
    StateManager.contractCode (StateManager.world st1)
      = StateManager.contractCode (StateManager.world st) /\
    StateManager.checkpoints st1 = StateManager.checkpoints st /\
    (Some name <> Some "incrementOvmContractNonce" ->
     StateManager.accounts (StateManager.world st1)
     = StateManager.accounts (StateManager.world st)) /\
    (Some name <> Some "setStorage" ->
     StateManager.contractStorage (StateManager.world st1)
     = StateManager.contractStorage (StateManager.world st))).
  { intros ret st1. unfold OvmStateManager._handlers.
    repeat match goal with
    | |- context [String.eqb name ?x] =>
        destruct (String.eqb_spec name x) as [->|?]
    end; try done.
    all: repeat match goal with
    | |- context [match ?l with [] => _ | _ :: _ => _ end] =>
        destruct l; try done
    end.
    all: intros [= <- <-]; by repeat split. }
  destruct (OvmStateManager._handlers vm name args st) as [[ret st1]|] eqn:Hh;
    [|by repeat split].
  destruct (H ret st1 eq_refl) as (H1 & H2 & H3 & H4 & H5).
  destruct (Interface.encodeFunctionResult _ _ _); cbn [snd];
    (split; [exact H1|]); (split; [done|]); by repeat split.
Qed.

Lemma bridge_writes_only_storage_and_nonce_witness :
  (OvmStateManager.handleCall Sample.host
     (Sample.message (Some Sample.SM_address) Sample.bob 0 1000
        Sample.getStorageData 1)
     (Sample.funded Sample.alice 100 Sample.emptyState)).2
  = Sample.funded Sample.alice 100 Sample.emptyState.
Proof.
  apply (proj1 (bridge_writes_only_storage_and_nonce Sample.host
                  (Sample.message (Some Sample.SM_address) Sample.bob 0 1000
                     Sample.getStorageData 1)
                  (Sample.funded Sample.alice 100 Sample.emptyState)));
    vm_compute; discriminate.
Defined.

Lemma increment_step (vm : VM.t) (address : string) (st : StateManager.t) :
  let addr := VM.fromHexString vm address in
  let st' := (OvmStateManager.incrementOvmContractNonce vm address st).2 in
  StateManager.getAccount addr st'
  = Account.set_nonce (Account.nonce (StateManager.getAccount addr st) + 1)
      (StateManager.getAccount addr st) /\
  (forall other, other <> addr ->
     StateManager.getAccount other st' = StateManager.getAccount other st) /\
  StateManager.contractStorage (StateManager.world st')
    = StateManager.contractStorage (StateManager.world st) /\
  StateManager.contractCode (StateManager.world st')
    = StateManager.contractCode (StateManager.world st).
Proof.
  intros addr st'. subst st'.
  unfold OvmStateManager.incrementOvmContractNonce. cbn [snd]. fold addr.
  split; [|split; [|done]].
  - by rewrite getAccount_putAccount, bool_decide_eq_true_2.
  - intros other Hne.
    by rewrite getAccount_putAccount, bool_decide_eq_false_2.
Qed.

Lemma increment_iter (vm : VM.t) (address : string) (st : StateManager.t)
    (n : nat) :
  let addr := VM.fromHexString vm address in
  let st' :=
    Nat.iter n
      (fun st => (OvmStateManager.incrementOvmContractNonce vm address st).2)
      st in
  StateManager.getAccount addr st'
  = Account.set_nonce
      (Account.nonce (StateManager.getAccount addr st) + Z.of_nat n)
      (StateManager.getAccount addr st) /\
  (forall other, other <> addr ->
     StateManager.getAccount other st' = StateManager.getAccount other st) /\
  StateManager.contractStorage (StateManager.world st')
    = StateManager.contractStorage (StateManager.world st) /\
  StateManager.contractCode (StateManager.world st')
    = StateManager.contractCode (StateManager.world st).
Proof.
  intros addr. induction n as [|n IH]; cbn zeta.
  - cbn [Nat.iter nat_rect Z.of_nat]. rewrite Z.add_0_r.
    unfold Account.set_nonce.
    split; [by destruct (StateManager.getAccount addr st)|done].
  - rewrite Nat.iter_succ. cbn zeta in IH.
    destruct IH as (Ha & Ho & Hs & Hc).
    destruct (increment_step vm address
                (Nat.iter n
                   (fun st =>
                      (OvmStateManager.incrementOvmContractNonce vm address
                         st).2) st)) as (Ha' & Ho' & Hs' & Hc').
    fold addr in Ha', Ho'.
    split; [|split; [|split]].
    + rewrite Ha', Ha. unfold Account.set_nonce. cbn. f_equal. lia.
    + intros other Hne. rewrite Ho' by done. by apply Ho.
    + by rewrite Hs'.
    + by rewrite Hc'.
Qed.

(** X18.  [incrementOvmContractNonce] counts: after [n] increments of an
    account whose nonce was [k >= 0], [getOvmContractNonce] answers the
    hex string of [k + n] (and "0x00" when that is 0, which takes
    [n = 0]); the balance and the code hash of the account, every other
    account and every storage slot read as before. *)
Theorem bridge_nonce_counts_increments (vm : VM.t) (address : string)
    (st : StateManager.t) (n : nat) :
  let addr := VM.fromHexString vm address in
  let nonce := Account.nonce (StateManager.getAccount addr st) in
  let st' :=
    Nat.iter n
      (fun st => (OvmStateManager.incrementOvmContractNonce vm address st).2)
      st in
  0 <= nonce ->
  (OvmStateManager.getOvmContractNonce vm address st').1
  = Some [ if (n =? 0)%nat && (nonce =? 0) then "0x00"
           else VM.toHexString vm
                  (VM.toArrayLike vm (nonce + Z.of_nat n)) ] /\
  Account.balance (StateManager.getAccount addr st')
    = Account.balance (StateManager.getAccount addr st) /\
  Account.codeHash (StateManager.getAccount addr st')
    = Account.codeHash (StateManager.getAccount addr st) /\
  (forall other, other <> addr ->
     StateManager.getAccount other st' = StateManager.getAccount other st) /\
  (forall a k, (OvmStateManager.getStorage vm a k st').1
               = (OvmStateManager.getStorage vm a k st).1).
Proof.
  intros addr nonce st' Hn.
  destruct (increment_iter vm address st n) as (Ha & Ho & Hs & Hc).
  fold addr in Ha, Ho. fold st' in Ha, Ho, Hs, Hc.
  split; [|split; [|split; [|split]]].
  - unfold OvmStateManager.getOvmContractNonce. cbn [fst]. fold addr.
    rewrite Ha. cbn [Account.nonce Account.set_nonce]. fold nonce.
    do 2 f_equal.
    destruct n as [|n].
    + cbn [Nat.eqb andb Z.of_nat]. rewrite Z.add_0_r.
      by destruct (nonce =? 0).
    + cbn [Nat.eqb andb].
      destruct (Z.eqb_spec (nonce + Z.of_nat (S n)) 0); [lia|done].
  - by rewrite Ha.
  - by rewrite Ha.
  - exact Ho.
  - intros a k. unfold OvmStateManager.getStorage,
      OvmStateManager.getStorageView, StateManager.getContractStorage.
    cbn [fst]. by rewrite Hs.
Qed.

Lemma bridge_nonce_counts_increments_witness :
  0 <= Account.nonce
         (StateManager.getAccount
            (VM.fromHexString Sample.host
               "0x1111111111111111111111111111111111111111")
            Sample.emptyState) /\
  (OvmStateManager.getOvmContractNonce Sample.host
     "0x1111111111111111111111111111111111111111"
     (OvmStateManager.incrementOvmContractNonce Sample.host
        "0x1111111111111111111111111111111111111111"
        (OvmStateManager.incrementOvmContractNonce Sample.host
           "0x1111111111111111111111111111111111111111"
           Sample.emptyState).2).2).1
  = Some ["0x02"].
Proof.
  split; [vm_compute; discriminate|].
  refine (eq_trans
    (proj1 (bridge_nonce_counts_increments Sample.host
              "0x1111111111111111111111111111111111111111"
              Sample.emptyState 2 _)) _).
  - vm_compute. discriminate.
  - vm_compute. reflexivity.
Defined.

(** X19.  [setStorage] overwrites, and touches nothing else: a second write
    to the same address and slot makes the first one unobservable; a slot
    at another address or key reads as before, and so do the nonces and
    the code. *)
Theorem bridge_setStorage_last_write_wins (vm : VM.t)
    (address slot value1 value2 address' slot' : string)
    (st : StateManager.t) :
  let written := (OvmStateManager.setStorage vm address slot value1 st).2 in
  (OvmStateManager.getStorage vm address slot
     (OvmStateManager.setStorage vm address slot value2 written).2).1
  = (OvmStateManager.getStorage vm address slot
       (OvmStateManager.setStorage vm address slot value2 st).2).1 /\
  ((VM.fromHexString vm address', VM.fromHexString vm slot')
   <> (VM.fromHexString vm address, VM.fromHexString vm slot) ->
   (OvmStateManager.getStorage vm address' slot' written).1
   = (OvmStateManager.getStorage vm address' slot' st).1) /\
  (forall a, (OvmStateManager.getOvmContractNonce vm a written).1
             = (OvmStateManager.getOvmContractNonce vm a st).1) /\
  (forall a, (OvmStateManager.getCodeContractBytecode vm a written).1
             = (OvmStateManager.getCodeContractBytecode vm a st).1).
Proof.
  intros written. subst written.
  unfold OvmStateManager.getStorage, OvmStateManager.getStorageView,
    OvmStateManager.setStorage, StateManager.getContractStorage,
    StateManager.putContractStorage.
  cbn. split; [|split; [|done]].
  - by rewrite !lookup_insert_eq; cbn; rewrite !lookup_insert_eq.
  - intros Hne.
    destruct (decide (VM.fromHexString vm address'
                      = VM.fromHexString vm address)) as [Ea|Ea].
    + rewrite Ea, lookup_insert_eq. cbn.
      rewrite lookup_insert_ne; [done|]. intros Es. apply Hne.
      by rewrite Ea, Es.
    + by rewrite lookup_insert_ne.
Qed.

Lemma bridge_setStorage_last_write_wins_witness :
  (VM.fromHexString Sample.host "0x1111111111111111111111111111111111111111",
   VM.fromHexString Sample.host "0x02")
  <> (VM.fromHexString Sample.host
        "0x1111111111111111111111111111111111111111",
      VM.fromHexString Sample.host "0x01") /\
  (OvmStateManager.getStorage Sample.host
     "0x1111111111111111111111111111111111111111" "0x02"
     (OvmStateManager.setStorage Sample.host
        "0x1111111111111111111111111111111111111111" "0x01" "0xff"
        Sample.emptyState).2).1
  = (OvmStateManager.getStorage Sample.host
       "0x1111111111111111111111111111111111111111" "0x02"
       Sample.emptyState).1.
Proof.
  split; [vm_compute; discriminate|].
  apply (proj1 (proj2 (bridge_setStorage_last_write_wins Sample.host
                         "0x1111111111111111111111111111111111111111"
                         "0x01" "0xff" "0xff"
                         "0x1111111111111111111111111111111111111111"
                         "0x02" Sample.emptyState))).
  vm_compute. discriminate.
Defined.

(** X21.  In the older variant the value of a call moves nowhere: after
    [_reduceSenderBalance] on the caller's account every account reads as
    before, and [_addToBalance] on the callee's account either raises a
    plain [Error], exactly when the callee's balance plus the value
    exceeds [MAX_INTEGER], or leaves every account as it was. *)
Theorem legacy_transfer_moves_no_value (message : Message.t) (to : Buffer)
    (st : StateManager.t) :
  Message.to message = Some to ->
  let caller := Message.caller message in
  let debited :=
    LegacyEVM._reduceSenderBalance (StateManager.getAccount caller st)
      message st in
  let credited :=
    LegacyEVM._addToBalance (StateManager.getAccount to debited)
      message debited in
  (forall addr,
     StateManager.getAccount addr debited = StateManager.getAccount addr st) /\
  (MAX_INTEGER
     < Account.balance (StateManager.getAccount to st) + Message.value message
   -> credited = inl JsError) /\
  (Account.balance (StateManager.getAccount to st) + Message.value message
     <= MAX_INTEGER ->
   exists st', credited = inr st' /\
     forall addr,
       StateManager.getAccount addr st' = StateManager.getAccount addr st).
Proof.
  intros Hto caller debited credited.
  assert (Hd : forall addr,
    StateManager.getAccount addr debited = StateManager.getAccount addr st).
  { intros addr. unfold debited, LegacyEVM._reduceSenderBalance.
    rewrite getAccount_putAccount. fold caller.
    case_bool_decide as E; [by subst|done]. }
  split; [exact Hd|].
  unfold credited, LegacyEVM._addToBalance. rewrite Hd, Hto.
  split.
  - intros Hover. by destruct (Z.ltb_spec MAX_INTEGER
      (Account.balance (StateManager.getAccount to st)
       + Message.value message)); [|lia].
  - intros Hfit. destruct (Z.ltb_spec MAX_INTEGER
      (Account.balance (StateManager.getAccount to st)
       + Message.value message)); [lia|].
    eexists. split; [reflexivity|]. intros addr.
    change (default [] (Some to)) with to.
    rewrite getAccount_putAccount.
    case_bool_decide as E; [by rewrite E|by rewrite Hd].
Qed.

Lemma legacy_transfer_moves_no_value_witness :
  exists st',
    LegacyEVM._addToBalance
      (StateManager.getAccount Sample.bob
         (LegacyEVM._reduceSenderBalance
            (StateManager.getAccount Sample.alice
               (Sample.funded Sample.alice 100 Sample.emptyState))
            (Sample.message (Some Sample.bob) Sample.alice 5 21000 [] 1)
            (Sample.funded Sample.alice 100 Sample.emptyState)))
      (Sample.message (Some Sample.bob) Sample.alice 5 21000 [] 1)
      (LegacyEVM._reduceSenderBalance
         (StateManager.getAccount Sample.alice
            (Sample.funded Sample.alice 100 Sample.emptyState))
         (Sample.message (Some Sample.bob) Sample.alice 5 21000 [] 1)
         (Sample.funded Sample.alice 100 Sample.emptyState))
    = inr st' /\
    Account.balance (StateManager.getAccount Sample.alice st') = 100 /\
    Account.balance (StateManager.getAccount Sample.bob st') = 0.
Proof.
  destruct (legacy_transfer_moves_no_value
              (Sample.message (Some Sample.bob) Sample.alice 5 21000 [] 1)
              Sample.bob
              (Sample.funded Sample.alice 100 Sample.emptyState) eq_refl)
    as (_ & _ & Hfit).
  destruct Hfit as (st' & Hrun & Hsame); [vm_compute; discriminate|].
  exists st'. split; [exact Hrun|]. by rewrite !Hsame.
Defined.

(** ** The precompile [12-bls12-map-fp2-to-g2] *)

Lemma readByte_lookup (buf : Buffer) (i : nat) (b : Z) :
  buf !! i = Some b -> readByte buf (Z.of_nat i) = b.
Proof.
  intros H. pose proof (lookup_lt_Some _ _ _ H) as Hlt.
  unfold readByte.
  destruct (Z.leb_spec 0 (Z.of_nat i)); [|lia].
  destruct (Z.ltb_spec (Z.of_nat i) (Z.of_nat (length buf))); [|lia].
  cbn. rewrite Nat2Z.id. by rewrite nth_lookup, H.
Qed.

Lemma zeros_replicate (n : nat) : zeros n = replicate n 0.
Proof. unfold zeros. induction n; [done|]. cbn. by f_equal. Qed.

(** A 16-byte range inside the buffer holds zero bytes exactly when each
    of its bytes reads as zero. *)
Lemma slice_zeros (first : nat) (data : Buffer) :
  (first + 16 <= length data)%nat ->
  Bls12MapFp2ToG2.slice first (first + 16) data = zeros 16 <->
  forall i, 0 <= i < 16 -> readByte data (Z.of_nat first + i) = 0.
Proof.
  intros Hlen. unfold Bls12MapFp2ToG2.slice.
  replace (first + 16 - first)%nat with 16%nat by lia. split.
  - intros Heq i Hi.
    assert (H : take 16 (drop first data) !! Z.to_nat i = Some 0).
    { rewrite Heq, zeros_replicate. apply lookup_replicate_2. lia. }
    rewrite lookup_take_lt in H by lia. rewrite lookup_drop in H.
    apply readByte_lookup in H. rewrite <- H. f_equal. lia.
  - intros Hall. apply list_eq_same_length with 16%nat.
    + by rewrite zeros_replicate, length_replicate.
    + rewrite length_take, length_drop. lia.
    + intros i x y Hi Hx Hy. rewrite zeros_replicate in Hy.
      apply lookup_replicate in Hy as [-> _].
      rewrite lookup_take_lt in Hx by lia. rewrite lookup_drop in Hx.
      apply readByte_lookup in Hx. rewrite <- Hx.
      rewrite Nat2Z.inj_add. apply Hall. lia.
Qed.

Lemma zeroBytesOk_spec (data : Buffer) :
  length data = 128%nat ->
  Bls12MapFp2ToG2.zeroBytesOk data = true <->
  forall i, 0 <= i < 16 ->
    readByte data i = 0 /\ readByte data (64 + i) = 0.
Proof.
  intros Hlen. unfold Bls12MapFp2ToG2.zeroBytesOk,
    Bls12MapFp2ToG2.zeroByteCheck.
  cbn [forallb fst snd]. rewrite andb_true_r, andb_true_iff.
  rewrite !bool_decide_eq_true.
  rewrite (slice_zeros 0 data), (slice_zeros 64 data) by lia.
  split.
  - intros [H0 H64] i Hi. split; [apply (H0 i Hi)|apply (H64 i Hi)].
  - intros H. split; intros i Hi; by apply H.
Qed.

(** X22.  What the map-Fp2-to-G2 precompile settles to.  It gives a
    result exactly when its [opts] carry [data] and [_VM], the data are
    128 bytes long with the bytes 0..15 and 64..79 zero, and the mapping of
    the first and the second 64 bytes succeeds; the result then holds the
    mapped point, no [exceptionError], and as [gasUsed] the constant
    [Bls12381MapG2Gas], whatever the gas limit.  Without [_VM] it raises
    before any check; on [data] of another length or with a padding byte
    that is not zero it raises too, the [VmErrorResult] it calls being no
    export of the executor's file.  So it raises on every [opts] that
    [runPrecompile] of the executor builds. *)
Theorem bls12_map_fp2_to_g2_input_checks (vm : VM.t) (Mcl : Type)
    (mapToG2 : Mcl -> Buffer -> Buffer -> Exception + Buffer)
    (opts : Bls12MapFp2ToG2.PrecompileInput Mcl) :
  let gasUsed := VM.param vm "gasPrices" "Bls12381MapG2Gas" in
  let outcome := Bls12MapFp2ToG2.precompile vm mapToG2 opts in
  let padded (inputData : Buffer) :=
    forall i, 0 <= i < 16 ->
      readByte inputData i = 0 /\ readByte inputData (64 + i) = 0 in
  (forall result,
     outcome = inr result <->
     exists inputData mcl returnValue,
       Bls12MapFp2ToG2.data opts = Some inputData /\ Bls12MapFp2ToG2._VM opts = Some mcl /\
       length inputData = 128%nat /\ padded inputData /\
       mapToG2 mcl (take 64 inputData) (drop 64 inputData)
         = inr returnValue /\
       result = {| ExecResult.exceptionError := None;
                   ExecResult.gas := None;
                   ExecResult.gasUsed := gasUsed;
                   ExecResult.returnValue := returnValue;
                   ExecResult.logs := None;
                   ExecResult.selfdestruct := None;
                   ExecResult.gasRefund := None |}) /\
  (Bls12MapFp2ToG2._VM opts = None -> outcome = inl JsError) /\
  (forall inputData,
     Bls12MapFp2ToG2.data opts = Some inputData ->
     length inputData <> 128%nat \/ ~ padded inputData ->
     outcome = inl JsError) /\
  (forall data gasLimit,
     Bls12MapFp2ToG2.precompile vm mapToG2 (Bls12MapFp2ToG2.runPrecompile_opts data gasLimit)
     = inl JsError).
Proof.
  intros gasUsed outcome padded. subst outcome.
  assert (Hslices : forall d : Buffer, length d = 128%nat ->
            Bls12MapFp2ToG2.slice 0 64 d = take 64 d /\
            Bls12MapFp2ToG2.slice 64 128 d = drop 64 d).
  { intros d Hlen. unfold Bls12MapFp2ToG2.slice. cbn [Nat.sub drop].
    split; [done|]. apply take_ge. rewrite length_drop. lia. }
  unfold Bls12MapFp2ToG2.precompile, Bls12MapFp2ToG2.VmErrorResult. fold gasUsed.
  split; [|split; [|split]].
  - intros result. split.
    + destruct (Bls12MapFp2ToG2.data opts) as [d|]; [|done].
      destruct (Bls12MapFp2ToG2._VM opts) as [mcl|]; [|done].
      destruct (Nat.eqb_spec (length d) 128) as [Hlen|]; [|done].
      cbn [negb].
      destruct (Bls12MapFp2ToG2.zeroBytesOk d) eqn:Hz; [|done].
      cbn [negb]. destruct (Hslices d Hlen) as [-> ->].
      destruct (mapToG2 mcl _ _) as [e|rv] eqn:Hmap; [done|].
      intros [= <-]. exists d, mcl, rv.
      repeat split; try done;
        by apply (proj1 (zeroBytesOk_spec d Hlen) Hz).
    + intros (d & mcl & rv & -> & -> & Hlen & Hpad & Hmap & ->).
      rewrite Hlen. cbn [Nat.eqb negb].
      rewrite (proj2 (zeroBytesOk_spec d Hlen) Hpad). cbn [negb].
      destruct (Hslices d Hlen) as [-> ->]. by rewrite Hmap.
  - intros ->. by destruct (Bls12MapFp2ToG2.data opts).
  - intros d -> Hbad. destruct (Bls12MapFp2ToG2._VM opts) as [mcl|]; [|done].
    destruct (Nat.eqb_spec (length d) 128) as [Hlen|]; [|done].
    cbn [negb].
    destruct (Bls12MapFp2ToG2.zeroBytesOk d) eqn:Hz; [|done].
    destruct Hbad as [Hbad|Hbad]; [done|].
    destruct Hbad. exact (proj1 (zeroBytesOk_spec d Hlen) Hz).
  - done.
Qed.

Lemma bls12_map_fp2_to_g2_input_checks_witness :
  Bls12MapFp2ToG2.precompile Sample.host SampleMore.mapToG2 (Bls12MapFp2ToG2.runPrecompile_opts SampleMore.paddedInput 0)
  = inl JsError /\
  Bls12MapFp2ToG2.precompile Sample.host SampleMore.mapToG2 (SampleMore.optsWithVM (zeros 127))
  = inl JsError /\
  Bls12MapFp2ToG2.precompile Sample.host SampleMore.mapToG2 (SampleMore.optsWithVM (repeat 1 128))
  = inl JsError /\
  exists result,
    Bls12MapFp2ToG2.precompile Sample.host SampleMore.mapToG2 (SampleMore.optsWithVM SampleMore.paddedInput)
    = inr result /\
    ExecResult.exceptionError result = None /\
    length (ExecResult.returnValue result) = 256%nat.
Proof.
  split.
  { apply (bls12_map_fp2_to_g2_input_checks Sample.host unit SampleMore.mapToG2
             (Bls12MapFp2ToG2.runPrecompile_opts SampleMore.paddedInput 0)). }
  split.
  { apply (proj1 (proj2 (proj2
      (bls12_map_fp2_to_g2_input_checks Sample.host unit SampleMore.mapToG2
         (SampleMore.optsWithVM (zeros 127))))) (zeros 127)); [reflexivity|].
    left. vm_compute. discriminate. }
  split.
  { apply (proj1 (proj2 (proj2
      (bls12_map_fp2_to_g2_input_checks Sample.host unit SampleMore.mapToG2
         (SampleMore.optsWithVM (repeat 1 128))))) (repeat 1 128)); [reflexivity|].
    right. intros Hpad. destruct (Hpad 0 ltac:(lia)) as [H0 _].
    discriminate H0. }
  eexists. split.
  - apply (proj1 (bls12_map_fp2_to_g2_input_checks Sample.host unit
                    SampleMore.mapToG2 (SampleMore.optsWithVM SampleMore.paddedInput))).
    exists SampleMore.paddedInput, tt. eexists.
    split; [reflexivity|]. split; [reflexivity|]. split; [reflexivity|].
    split; [|split; reflexivity].
    intros i Hi.
    assert (Hcases : i = 0 \/ i = 1 \/ i = 2 \/ i = 3 \/ i = 4 \/ i = 5
                     \/ i = 6 \/ i = 7 \/ i = 8 \/ i = 9 \/ i = 10
                     \/ i = 11 \/ i = 12 \/ i = 13 \/ i = 14 \/ i = 15)
      by lia.
    repeat destruct Hcases as [->|Hcases]; try subst i; by split.
  - split; reflexivity.
Defined.

(** ** The executor: the gas of a message *)

Section Metered.
Variable vm : VM.t.
Variable exec : Message.t -> EVMState.t -> Outcome EVMResult.t.
Hypothesis Hfees : forall op, 0 <= Opcode.fee (Interpreter.lookupOpInfo vm op).
Hypothesis Hhandlers : HostGas.frugalHandlers vm.
Hypothesis Hexec : HostGas.boundedExec exec.

Lemma runStep_gas (rs : RunState.t) (s : EVMState.t) :
  0 <= HostGas.gasLeftOf rs ->
  match Interpreter.runStep vm exec rs s with
  | HDone rs' _ | HRaise _ rs' _ =>
      0 <= HostGas.gasLeftOf rs' <= HostGas.gasLeftOf rs
  | HDiverged => True
  end.
Proof.
  intros Hgas. unfold Interpreter.runStep.
  destruct (String.eqb _ "INVALID"); [lia|].
  pose proof (Hfees (RunState.opCode rs)) as Hfee.
  unfold EEI.useGas. unfold HostGas.gasLeftOf in *.
  destruct (Z.ltb_spec
    (EEI._gasLeft (RunState.eei rs)
     - Opcode.fee (Interpreter.lookupOpInfo vm (RunState.opCode rs))) 0)
    as [Hlt|Hge]; [cbn; lia|].
  destruct (VM.opHandlers vm _) as [opFn|] eqn:Hop; [|cbn; lia].
  match goal with
  | |- context [opFn exec ?rs1 s] =>
      pose proof (Hhandlers _ opFn exec rs1 s Hop Hexec) as Hh;
      destruct (opFn exec rs1 s)
  end; try done; unfold HostGas.gasLeftOf in Hh; cbn in Hh; lia.
Qed.

Lemma runLoop_gas (fuel : nat) : forall rs s,
  0 <= HostGas.gasLeftOf rs ->
  match Interpreter.runLoop vm exec fuel rs s with
  | Returned r _ =>
      0 <= HostGas.gasLeftOf (Interpreter.runState r)
        <= HostGas.gasLeftOf rs
  | Thrown _ | Diverged => True
  end.
Proof.
  induction fuel as [|fuel IH]; intros rs s Hgas;
    cbn [Interpreter.runLoop]; [done|].
  destruct (_ <? _); [|cbn; lia].
  pose proof (runStep_gas
                (RunState.set_opCode
                   (readByte (RunState.code rs) (RunState.programCounter rs))
                   rs) s Hgas) as Hstep.
  change (HostGas.gasLeftOf (RunState.set_opCode _ rs))
    with (HostGas.gasLeftOf rs) in Hstep.
  destruct (Interpreter.runStep vm exec _ s) as [rs' s'|e rs' s'|];
    [|cbn; lia|done].
  specialize (IH rs' s' ltac:(lia)).
  destruct (Interpreter.runLoop vm exec fuel rs' s'); [|done..]. lia.
Qed.

Lemma runInterpreter_gas (fuel : nat) (message : Message.t)
    (s : EVMState.t) :
  0 <= Message.gasLimit message ->
  match EVM.runInterpreter vm fuel exec message s with
  | Returned r _ => 0 <= ExecResult.gasUsed r <= Message.gasLimit message
  | Thrown _ | Diverged => True
  end.
Proof.
  intros Hgas. unfold EVM.runInterpreter.
  destruct (Message.code message) as [c|]; [|done].
  unfold EVM.interpret, Interpreter.run.
  destruct (Interpreter._getValidJumpDests vm fuel (codeAsBuffer c));
    [|done].
  cbn [Interpreter.initialRunState RunState.programCounter].
  change (negb (0 =? 0)) with false. cbn [andb].
  match goal with
  | |- context [Interpreter.runLoop vm exec fuel ?rs s] =>
      pose proof (runLoop_gas fuel rs s Hgas) as Hloop;
      destruct (Interpreter.runLoop vm exec fuel rs s) as [ires s1| |]
  end; [|done..].
  cbn [bindO]. unfold HostGas.gasLeftOf in Hloop. cbn in Hloop.
  destruct (Interpreter.exceptionError ires) as [e|]; cbn; [|lia].
  destruct (negb (errorIs e REVERT)); lia.
Qed.

Hypothesis Hprecompiles : HostGas.boundedPrecompiles vm.
Hypothesis HcreateData : 0 <= VM.param vm "gasPrices" "createData".

Lemma dispatch_gas (fuel : nat) (message message' : Message.t)
    (s s' : EVMState.t) (result : EVMResult.t) :
  0 <= Message.gasLimit message ->
  HostGas.plainCode message ->
  EVM.dispatch vm fuel exec message s = Returned (result, message') s' ->
  0 <= EVMResult.gasUsed result <= Message.gasLimit message.
Proof.
  intros Hgas Hplain. unfold EVM.dispatch.
  destruct (Message.to message) as [to|] eqn:Hto.
  - destruct (EVM.isStateManager _).
    + destruct (EVM.handleCall vm message s); [|done..].
      intros [= <- _ _]. cbn. lia.
    + unfold EVM._executeCall. rewrite Hto.
      destruct (EVM.transferValue message to s) as [err s2].
      destruct (EVM._loadCode vm message s2) as [message1|] eqn:Hload;
        [|done].
      destruct (_ || _); [intros [= <- _ _]; cbn; lia|].
      destruct (Message.isCompiled message1).
      * unfold EVM.runPrecompile.
        destruct (Message.code message1) as [[b|f]|] eqn:Hc; [done| |done].
        cbn [bindO]. intros [= <- _ _]. cbn.
        unfold EVM._loadCode, HostGas.plainCode in Hload, Hplain.
        destruct (Message.code message) as [c0|] eqn:Hc0.
        { injection Hload as <-. rewrite Hc0 in Hc. injection Hc as ->.
          done. }
        destruct (Message.codeAddress message) as [a|]; [|done].
        destruct (VM.getPrecompile vm a) as [p|] eqn:Hp;
          injection Hload as <-; cbn in Hc; [|done].
        injection Hc as <-. cbn. by apply (Hprecompiles a).
      * pose proof (runInterpreter_gas fuel message1 s2) as Hrun.
        assert (Hsame :
          Message.gasLimit message1 = Message.gasLimit message).
        { unfold EVM._loadCode in Hload.
          destruct (Message.code message); [by injection Hload as <-|].
          destruct (Message.codeAddress message); [|done].
          destruct (VM.getPrecompile vm _); by injection Hload as <-. }
        rewrite Hsame in Hrun. specialize (Hrun Hgas).
        destruct (EVM.runInterpreter vm fuel exec message1 s2); [|done..].
        cbn [bindO]. intros [= <- _ _]. exact Hrun.
  - rewrite executeCreate_cases.
    pose proof (createPrologue_to vm message s) as Hcto.
    destruct (EVM.collides _).
    { intros [= <- _ _]. cbn. lia. }
    destruct (EVM.noCode _).
    { intros [= <- _ _]. cbn. lia. }
    pose proof (runInterpreter_gas fuel (EVM.createPrologue vm message s).1
                  (EVM.createAccount vm (EVM.createPrologue vm message s).1
                     (EVM._generateAddress vm message s)
                     (EVM.createPrologue vm message s).2).2 Hgas) as Hrun.
    destruct (EVM.runInterpreter _ _ _ _ _) as [r s4| |]; [|done..].
    cbn [bindO].
    destruct (finishCreate_spec vm _ r s4 _ Hcto)
      as (result' & s'' & -> & Hsame & Hfit & Hno).
    intros [= <- _ _]. rewrite Hsame.
    change (Message.gasLimit (EVM.createPrologue vm message s).1)
      with (Message.gasLimit message) in *.
    match type of Hfit with (?b = true -> _) => destruct b eqn:Hb end.
    + destruct (Hfit eq_refl) as [-> _]. cbn.
      apply andb_true_iff in Hb as [Hb _]. apply Z.leb_le in Hb.
      split; [|exact Hb].
      destruct (ExecResult.exceptionError r); [lia|].
      pose proof (Zle_0_nat (length (ExecResult.returnValue r))). nia.
    + destruct (Hno eq_refl) as (_ & -> & _). lia.
Qed.
End Metered.

(** Under the assumptions on the host, [executeMessage] at every fuel is
    itself an executor of the kind the handlers are promised. *)
Lemma executeMessage_bounded (vm : VM.t) :
  HostGas.wellMetered vm ->
  forall n, HostGas.boundedExec (EVM.executeMessage vm n).
Proof.
  intros (Hfees & Hcreate & Hhandlers & Hpre & Hrewrite).
  induction n as [|n IH]; intros m s Hgas Hplain; [done|].
  cbn [EVM.executeMessage]. unfold EVM.executeMessage_body.
  assert (Hm1 :
    Message.gasLimit (EVM.enter vm m s).1.1 = Message.gasLimit m /\
    HostGas.plainCode (EVM.enter vm m s).1.1).
  { unfold EVM.enter, EVM.ovmEntry.
    destruct (Message.depth m =? 0); cbn; [|done].
    destruct (Hrewrite m) as [? Hp]. split; [done|by apply Hp]. }
  destruct (EVM.enter vm m s) as [[message1 isTarget] s2].
  cbn [fst] in Hm1. destruct Hm1 as [Hlim Hplain1].
  destruct (EVM.dispatch vm n (EVM.executeMessage vm n) message1 s2)
    as [[result0 message2] s3| |] eqn:Hdis; [|done..].
  cbn [bindO].
  apply (dispatch_gas vm (EVM.executeMessage vm n) Hfees Hhandlers IH Hpre
           Hcreate n message1 message2 s2 s3 result0) in Hdis;
    [|lia|done].
  destruct (EVM.leave vm isTarget result0 message2 s3) as [result s'| |]
    eqn:Hleave; [|done..].
  apply leave_result in Hleave as (_ & _ & Hg & _). lia.
Qed.

Lemma executeMessage_gasUsed (vm : VM.t) (n : nat) (message : Message.t)
    (s s' : EVMState.t) (result : EVMResult.t) :
  EVM.executeMessage vm n message s = Returned result s' ->
  EVMResult.gasUsed result = ExecResult.gasUsed (EVMResult.execResult result).
Proof.
  destruct n as [|n]; [done|].
  cbn [EVM.executeMessage]. unfold EVM.executeMessage_body.
  destruct (EVM.enter vm message s) as [[message1 isTarget] s2].
  destruct (EVM.dispatch vm n (EVM.executeMessage vm n) message1 s2)
    as [[result0 message2] s3| |] eqn:Hdis; [|done..].
  cbn [bindO]. intros Hleave.
  apply leave_result in Hleave as (_ & _ & Hg & Hg' & _).
  apply dispatch_gasUsed in Hdis. congruence.
Qed.

(** X23.  On a well-metered host (no negative fee, handlers that only ever
    take gas, precompiles that report no more gas than they are given, an
    OVM rewrite that keeps the gas limit), every result that
    [executeMessage] returns, for a message with a non-negative gas limit
    that does not come with a precompile as its code, uses a non-negative
    amount of gas that is at most the gas limit of the message. *)
Theorem executeMessage_gas_within_limit (vm : VM.t) (n : nat)
    (message : Message.t) (s s' : EVMState.t) (result : EVMResult.t) :
  HostGas.wellMetered vm ->
  0 <= Message.gasLimit message ->
  HostGas.plainCode message ->
  EVM.executeMessage vm n message s = Returned result s' ->
  0 <= EVMResult.gasUsed result <= Message.gasLimit message /\
  0 <= ExecResult.gasUsed (EVMResult.execResult result)
    <= Message.gasLimit message.
Proof.
  intros Hhost Hgas Hplain Hrun.
  pose proof (executeMessage_bounded vm Hhost n message s Hgas Hplain) as H.
  rewrite Hrun in H. split; [exact H|].
  apply executeMessage_gasUsed in Hrun as <-. exact H.
Qed.

(** The sample host is well metered, whatever the interface. *)
Lemma sample_wellMetered iface : HostGas.wellMetered (Sample.mkHost iface).
Proof.
  split; [|split; [|split; [|split]]].
  - intros op. unfold Interpreter.lookupOpInfo.
    cbn [VM._opcodes Sample.mkHost].
    destruct ((0 <=? op) && (op <? 256)); cbn [default].
    + unfold Sample._opcodes, Sample.op.
      repeat (match goal with
              | |- context [if ?c then _ else _] => destruct c
              end; try (cbn; lia)).
    + vm_compute. discriminate.
  - vm_compute. discriminate.
  - intros name opFn exec rs s Hop Hexec Hgas. cbn in Hop.
    unfold Sample.opHandlers in Hop. unfold HostGas.gasLeftOf in *.
    repeat match type of Hop with
           | (if ?c then _ else _) = _ =>
               destruct c; [injection Hop as <-|]
           end; try discriminate;
      try (cbn; lia);
      destruct (RunState.stack rs) as [|x [|y rest]]; cbn; try lia;
      try (destruct (bool_decide _); cbn; lia);
      match goal with
      | |- context [exec ?m s] =>
          pose proof (Hexec m s Hgas I) as Hcall; destruct (exec m s);
          cbn in *; lia
      end.
  - intros address precompile data gasLimit Hp Hgas. cbn in Hp.
    unfold Sample.getPrecompile in Hp.
    destruct (bool_decide _); [|done]. injection Hp as <-.
    unfold Sample.identity.
    destruct (Z.ltb_spec gasLimit
                (15 + 3 * ((Z.of_nat (length data) + 31) / 32)));
      cbn; [lia|].
    split; [|lia].
    assert (0 <= (Z.of_nat (length data) + 31) / 32)
      by (apply Z.div_pos; lia).
    lia.
  - intros m. split; [reflexivity|]. intros Hp. exact Hp.
Qed.

Lemma executeMessage_gas_within_limit_witness :
  exists result s',
    HostGas.wellMetered Sample.host /\
    EVM.executeMessage Sample.host 20
      (Sample.message (Some Sample.carol) Sample.alice 0 100000 [] 0)
      (EVMState.fresh Sample.ovmState) = Returned result s' /\
    EVMResult.gasUsed result = 1414 /\
    0 <= EVMResult.gasUsed result <= 100000.
Proof.
  eexists _, _. split; [apply sample_wellMetered|].
  split; [vm_compute; reflexivity|]. split; [reflexivity|].
  edestruct (executeMessage_gas_within_limit Sample.host 20
               (Sample.message (Some Sample.carol) Sample.alice 0 100000
                  [] 0)
               (EVMState.fresh Sample.ovmState))
    as [Hbound _].
  - apply sample_wellMetered.
  - vm_compute. discriminate.
  - exact I.
  - vm_compute. reflexivity.
  - exact Hbound.
Defined.
